(** * Crawl-and-change-detection engine (crawler/crawler.py, crawler/db.py,
      crawler/utils.py): a shallow embedding and its properties.

    Python dictionaries are finite maps from field names to Python values;
    the three MongoDB collections, the clock, the network and the log are
    fields of an explicit world threaded through a state-and-exception
    monad.  Library functions whose code is not part of the repository
    (SHA-256, urljoin, urlparse, BeautifulSoup, float parsing) are the
    operations of the [Runtime] interface. *)

From stdpp Require Import gmap strings list fin_maps pretty sets.
From Stdlib Require Import ZArith Lia Ascii.

Open Scope string_scope.
Open Scope list_scope.
Open Scope Z_scope.

(** ** Python values *)

Module Py.

Section Values.
Context {float : Type}.

(** The values that occur in book documents: [None], [str], [int] and
      [float]. *)
Inductive pyval : Type :=
    | PyNone
    | PyStr (s : string)
    | PyInt (n : Z)
    | PyFloat (x : float).

Context `{EqDecision float, Countable float}.

#[export] Instance pyval_eq_dec : EqDecision pyval.
Proof. solve_decision. Defined.

Definition pyval_enc (v : pyval) : unit + string + Z + float :=
    match v with
    | PyNone => inl (inl (inl tt))
    | PyStr s => inl (inl (inr s))
    | PyInt n => inl (inr n)
    | PyFloat x => inr x
    end.

Definition pyval_dec (c : unit + string + Z + float) : pyval :=
    match c with
    | inl (inl (inl _)) => PyNone
    | inl (inl (inr s)) => PyStr s
    | inl (inr n) => PyInt n
    | inr x => PyFloat x
    end.

#[export] Instance pyval_countable : Countable pyval.
Proof.
apply (inj_countable' pyval_enc pyval_dec). by intros [].
Defined.
End Values.

Arguments pyval : clear implicits.

End Py.
Export Py.

(** ** The parsed page, as the selectors of the crawler see it

    [BeautifulSoup(html, "lxml")] is consulted only through a fixed set of
    selectors; a [soup] records what each of them returns.  An element that
    a selector looks for is [None] when it is not found; text is what
    [get_text(strip=True)] gives, attributes are what [get] gives. *)

Record soup : Type := Soup {
(** [select_one(".product_page")], and inside it [select_one("h1")] *)
  product_page : option (option string);
(** [find(id="product_description")], then [find_next_sibling("p")] *)
  product_description : option (option string);
(** texts of [select("ul.breadcrumb li a")] *)
  breadcrumb : list string;
(** per [tr] of [select("table.table.table-striped tr")]: its [th] and
      its [td] *)
  table_rows : list (option string * option string);
(** [select_one(".carousel img")] and its [src] *)
  carousel_img : option (option string);
(** [select_one("#product_gallery img")] and its [src] *)
  gallery_img : option (option string);
(** [select_one(".item.active img")] and its [src] *)
  active_img : option (option string);
(** classes of [select_one(".star-rating")] *)
  star_rating : option (list string);
(** [href] of each [select("article.product_pod h3 a")] *)
  product_pods : list (option string);
(** [select_one("li.next a")] and its [href] *)
  next_link : option (option string)
}.

(** ** Library functions used by the crawler *)

Class Runtime : Type := {
  float : Type;
  float_eq_dec :: EqDecision float;
  float_countable :: Countable float;
(** [x == y] on two floats *)
  float_eqb : float → float → bool;
(** [x == n] for a float and an int *)
  float_int_eqb : float → Z → bool;
(** [str(x)] *)
  float_str : float → string;
(** [float(s)]; [None] stands for [ValueError] *)
  float_of_str : string → option float;
(** [int(s)]; [None] stands for [ValueError] *)
  int_of_str : string → option Z;
  int_of_str_0 : int_of_str "0" = Some 0;
(** [hashlib.sha256(s.encode("utf-8")).hexdigest()] *)
  sha256_hexdigest : string → string;
(** [urllib.parse.urljoin(base, ref)], [ref] possibly [None] *)
  urljoin : string → option string → string;
(** [urllib.parse.urlparse(url).path] *)
  url_path : string → string;
  BeautifulSoup : string → soup
}.

Abbreviation value := (pyval float).
Abbreviation doc := (gmap string (pyval float)).

(** ** Strings *)

Fixpoint split_on (sep : Ascii.ascii) (s : string) : list string :=
  match s with
  | EmptyString => [EmptyString]
  | String c s' =>
      if decide (c = sep) then EmptyString :: split_on sep s'
      else match split_on sep s' with
           | h :: t => String c h :: t
           | [] => [String c EmptyString]
           end
  end.

Fixpoint rstrip (ch : Ascii.ascii) (s : string) : string :=
  match s with
  | EmptyString => EmptyString
  | String c s' =>
      let r := rstrip ch s' in
      if decide (r = EmptyString ∧ c = ch) then EmptyString else String c r
  end.

Definition is_digit_or_dot (c : Ascii.ascii) : bool :=
  let n := Ascii.nat_of_ascii c in
  ((48 <=? n)%nat && (n <=? 57)%nat) || (n =? 46)%nat.

(** [re.sub(r"[^0-9\.]", "", s)] *)
Fixpoint strip_non_numeric (s : string) : string :=
  match s with
  | EmptyString => EmptyString
  | String c s' =>
      if is_digit_or_dot c then String c (strip_non_numeric s')
      else strip_non_numeric s'
  end.

(** [sep.join(parts)] *)
Fixpoint join (sep : string) (parts : list string) : string :=
  match parts with
  | [] => ""
  | [p] => p
  | p :: rest => p +:+ sep +:+ join sep rest
  end.

(** ** crawler/utils.py *)

Section Utils.
Context `{RT : Runtime}.

(** [str(v)] *)
Definition py_str (v : value) : string :=
    match v with
    | PyNone => "None"
    | PyStr s => s
    | PyInt n => pretty n
    | PyFloat x => float_str x
    end.

(** [a == b] *)
Definition py_eq (a b : value) : bool :=
    match a, b with
    | PyNone, PyNone => true
    | PyStr s, PyStr t => bool_decide (s = t)
    | PyInt n, PyInt m => bool_decide (n = m)
    | PyFloat x, PyFloat y => float_eqb x y
    | PyFloat x, PyInt n => float_int_eqb x n
    | PyInt n, PyFloat x => float_int_eqb x n
    | _, _ => false
    end.

(** [d.get(k)] *)
Definition dict_get (d : doc) (k : string) : value :=
    default PyNone (d !! k).

(** [d.get(k, dflt)] *)
Definition dict_get_default (d : doc) (k : string) (dflt : value) : value :=
    default dflt (d !! k).

Definition hash_keys : list string :=
    [ "title"; "description"; "category"; "price_including_tax";
      "price_excluding_tax"; "availability"; "num_reviews"; "image_url";
      "rating" ].

Definition hash_input (book_dict : doc) : string :=
    join "|" (map (λ k, py_str (dict_get_default book_dict k (PyStr ""))) hash_keys).

Definition compute_hash_for_book (book_dict : doc) : string :=
    sha256_hexdigest (hash_input book_dict).
End Utils.


(** ** Exceptions, environment and world *)

(** The exceptions the crawler can meet; all are subclasses of Python's
    [Exception].  [LibraryError] stands for whatever httpx or the MongoDB
    driver raise. *)
Inductive exn : Type :=
  | Exception (msg : string)
  | AttributeError (msg : string)
  | ValueError (msg : string)
  | IndexError (msg : string)
  | KeyError (msg : string)
  | LibraryError (msg : string).

(** [str(e)] *)
Definition exn_str (e : exn) : string :=
  match e with
  | Exception m | AttributeError m | ValueError m
  | IndexError m | KeyError m | LibraryError m => m
  end.

Inductive outcome (A : Type) : Type :=
  | Ret (a : A)
  | Raise (e : exn).
Arguments Ret {A} a.
Arguments Raise {A} e.

(** The result of [client.get(url)] followed by [raise_for_status()]. *)
Inductive http_result : Type :=
  | HttpOk (text : string)
  | HttpFail (e : exn).

(** Configuration and everything outside the process.  Each interaction
    with the outside takes the next tick of the world and asks the
    environment what happens at that tick. *)
Record env : Type := Env {
  BASE_URL : string;
  RETRIES : Z;
  http_get : nat → string → http_result;
  db_fault : nat → option exn;
  utcnow_isoformat : nat → string;
  object_id : nat → string
}.

Inductive level : Type := INFO | WARNING | ERROR.

(** The log lines of the crawler, by their format string and arguments. *)
Inductive log_msg : Type :=
  | FetchErrorMsg (url : string) (e : exn) (attempt : Z)
  | ListingPageMsg (page_url : string)
  | NoChangesMsg (id : string)
  | UpdatedBookMsg (id : string) (fields : gset string)
  | InsertedBookMsg (id : string)
  | FailedProcessMsg (url : string) (e : exn)
  | FoundLinksMsg (n : nat).

(** What the process does to the outside, in order: a GET, a sleep, a log
    line. *)
Inductive event : Type :=
  | EvGet (url : string)
  | EvSleep (seconds : Z)
  | EvLog (lvl : level) (msg : log_msg).

Record snapshot : Type := Snapshot {
  snap_source_url : string;
  snap_html : string;
  snap_timestamp : string
}.

Record change_record `{RT : Runtime} : Type := ChangeRecord {
  (** [_id], set by [insert_one] *)
  entry_id : option string;
  book_id : value;
  change_type : string;
  recent : string;
  timestamp : string;
  field_changes : option (gmap string (value * value))
}.
Arguments ChangeRecord {RT} _ _ _ _ _ _.

Record world `{RT : Runtime} : Type := World {
  tick : nat;
  (** [db.books], keyed by [_id]; the stored map holds the other fields *)
  books : gmap value doc;
  (** [db.book_snapshots], in insertion order, with their ids *)
  book_snapshots : list (string * snapshot);
  (** [db.change_log], in insertion order *)
  change_log : list change_record;
  trace : list event
}.
Arguments World {RT} _ _ _ _ _.

Section Monad.
Context `{RT : Runtime}.

Definition M (A : Type) : Type := world → outcome A * world.

#[export] Instance M_ret : MRet M := λ A a w, (Ret a, w).

#[export] Instance M_bind : MBind M := λ A B f m w,
  match m w with
  | (Ret a, w') => f a w'
  | (Raise e, w') => (Raise e, w')
  end.

Definition raise {A} (e : exn) : M A := λ w, (Raise e, w).

(** A computation that does not touch the world. *)
Definition lift {A} (r : outcome A) : M A := λ w, (r, w).

(** Runs [m] and hands back how it ended, as a [try] block does. *)
Definition try_ {A} (m : M A) : M (outcome A) := λ w,
  let '(r, w') := m w in (Ret r, w').

Definition next_tick : M nat := λ w,
  (Ret (tick w),
   World (S (tick w)) (books w) (book_snapshots w) (change_log w) (trace w)).

Definition emit (ev : event) : M unit := λ w,
  (Ret tt,
   World (tick w) (books w) (book_snapshots w) (change_log w) (trace w ++ [ev])).

Definition get_world : M world := λ w, (Ret w, w).

Definition set_books (b : gmap value doc) : M unit := λ w,
  (Ret tt, World (tick w) b (book_snapshots w) (change_log w) (trace w)).

Definition set_book_snapshots (s : list (string * snapshot)) : M unit := λ w,
  (Ret tt, World (tick w) (books w) s (change_log w) (trace w)).

Definition set_change_log (l : list change_record) : M unit := λ w,
  (Ret tt, World (tick w) (books w) (book_snapshots w) l (trace w)).

Fixpoint mapM {A B} (f : A → M B) (l : list A) : M (list B) :=
  match l with
  | [] => mret []
  | x :: rest => y ← f x; ys ← mapM f rest; mret (y :: ys)
  end.

End Monad.

(** ** crawler/db.py *)

Section Db.
Context `{RT : Runtime}.
Variable E : env.

(** One round trip to MongoDB: it takes a tick, and fails when the
    environment says so. *)
Definition db_op : M nat :=
  n ← next_tick;
  match db_fault E n with
  | Some e => raise e
  | None => mret n
  end.

(** [find_one({"_id": k})] on a collection keyed by [_id]. *)
Definition find_one (c : gmap value doc) (k : value) : option doc :=
  (λ d, <["_id" := k]> d) <$> c !! k.

(** [update_one({"_id": k}, {"$set": fields}, upsert=True)]: the fields of
    [fields] are set on the stored document, which keeps its other fields;
    without a stored document, [fields] is inserted. *)
Definition update_one_set_upsert (c : gmap value doc) (k : value) (fields : doc)
    : gmap value doc :=
  <[k := delete "_id" (fields ∪ default ∅ (c !! k))]> c.

Definition books_find_one (k : value) : M (option doc) :=
  db_op;; w ← get_world; mret (find_one (books w) k).

Definition upsert_book (book_dict : doc) : M unit :=
  match book_dict !! "_id" with
  | None => raise (KeyError "_id")
  | Some k =>
      db_op;; w ← get_world;
      set_books (update_one_set_upsert (books w) k book_dict)
  end.

Definition insert_snapshot (snap : snapshot) : M string :=
  n ← db_op; w ← get_world;
  set_book_snapshots (book_snapshots w ++ [(object_id E n, snap)]);;
  mret (object_id E n).

(** [db.change_log.insert_one(doc)]; the driver writes the new [_id] into
    [doc], which is the object the caller goes on to return. *)
Definition change_log_insert_one (c : change_record) : M change_record :=
  n ← db_op; w ← get_world;
  let c' := ChangeRecord (Some (object_id E n)) (book_id c) (change_type c)
              (recent c) (timestamp c) (field_changes c) in
  set_change_log (change_log w ++ [c']);;
  mret c'.

Definition log_change (change_doc : change_record) : M unit :=
  change_log_insert_one change_doc;; mret tt.

Definition set_recent (r : string) (c : change_record) : change_record :=
  ChangeRecord (entry_id c) (book_id c) (change_type c) r (timestamp c)
    (field_changes c).

Definition mark_all_changes_as_old : M unit :=
  db_op;; w ← get_world;
  set_change_log (set_recent "old" <$> change_log w).

Definition now_iso_z : M string :=
  n ← next_tick; mret (utcnow_isoformat E n +:+ "Z").

Definition log_change_entry (bid : value) (ctype : string) : M change_record :=
  ts ← now_iso_z;
  change_log_insert_one (ChangeRecord None bid ctype "new" ts None).

End Db.


(** ** crawler/crawler.py *)

Inductive classification `{RT : Runtime} : Type :=
  | Unchanged
  | Updated (changed_fields : gmap string (value * value))
  | New.

Section Crawler.
Context `{RT : Runtime}.
Variable E : env.

(** *** fetch

    The semaphore of [fetch] bounds how many requests are in flight at a
    time; it changes neither the requests of one call nor their results and
    has no counterpart here. *)

(** [await self.client.get(url)] and [resp.raise_for_status()] *)
Definition client_get (url : string) : M string :=
  n ← next_tick;
  emit (EvGet url);;
  match http_get E n url with
  | HttpOk text => mret text
  | HttpFail e => raise e
  end.

(** The body of [fetch], over the attempts that remain of
    [range(RETRIES)]. *)
Fixpoint fetch_attempts (url : string) (attempts : list Z) : M string :=
  match attempts with
  | [] =>
      raise (Exception ("Failed to fetch " +:+ url +:+ " after "
                        +:+ pretty (RETRIES E) +:+ " tries"))
  | attempt :: rest =>
      r ← try_ (client_get url);
      match r with
      | Ret text => mret text
      | Raise e =>
          emit (EvLog WARNING (FetchErrorMsg url e (attempt + 1)));;
          emit (EvSleep (1 + attempt * 2));;
          fetch_attempts url rest
      end
  end.

(** [range(n)] *)
Definition range (n : Z) : list Z := Z.of_nat <$> seq 0 (Z.to_nat n).

Definition fetch (url : string) : M string :=
  fetch_attempts url (range (RETRIES E)).

(** *** get_all_book_links *)

(** The [while True] loop; [None] when [fuel] listing pages were read and
    each had a next page. *)
Fixpoint listing_pages (fuel : nat) (page_url : string) (book_links : list string)
    (w : world) : option (outcome (list string) * world) :=
  match fuel with
  | O => None
  | S fuel' =>
      match (emit (EvLog INFO (ListingPageMsg page_url));; fetch page_url) w with
      | (Raise e, w') => Some (Raise e, w')
      | (Ret html, w') =>
          let soup := BeautifulSoup html in
          let book_links' :=
            book_links ++ (urljoin page_url <$> product_pods soup) in
          match next_link soup with
          | Some (Some href) =>
              if decide (href = "") then Some (Ret book_links', w')
              else listing_pages fuel' (urljoin page_url (Some href)) book_links' w'
          | _ => Some (Ret book_links', w')
          end
      end
  end.

(** One turn of the loop that fills [seen] and [uniq]. *)
Definition uniq_step (st : gset string * list string) (u : string)
    : gset string * list string :=
  if decide (u ∈ st.1) then st else ({[u]} ∪ st.1, st.2 ++ [u]).

Definition uniq_links (book_links : list string) : list string :=
  (foldl uniq_step (∅, []) book_links).2.

Definition first_page_url : string :=
  rstrip "/"%char (BASE_URL E) +:+ "/catalogue/page-1.html".

Definition get_all_book_links (fuel : nat) (w : world)
    : option (outcome (list string) * world) :=
  match listing_pages fuel first_page_url [] w with
  | Some (Ret book_links, w') => Some (Ret (uniq_links book_links), w')
  | r => r
  end.

(** *** parse_rating and parse_book *)

Definition rating_mapping : gmap string Z :=
  {[ "One" := 1; "Two" := 2; "Three" := 3; "Four" := 4; "Five" := 5 ]}.

Fixpoint first_rating (classes : list string) : option Z :=
  match classes with
  | [] => None
  | c :: rest =>
      match rating_mapping !! c with
      | Some n => Some n
      | None => first_rating rest
      end
  end.

Definition parse_rating (s : soup) : value :=
  match star_rating s with
  | Some classes => from_option PyInt PyNone (first_rating classes)
  | None => PyNone
  end.

(** [el.get_text(strip=True)] on the result of a [select_one] *)
Definition get_text (el : option string) : M string :=
  match el with
  | Some t => mret t
  | None => raise (AttributeError "'NoneType' object has no attribute 'get_text'")
  end.

Fixpoint parse_table (rows : list (option string * option string))
    (table : gmap string string) : M (gmap string string) :=
  match rows with
  | [] => mret table
  | (th, td) :: rest =>
      th ← get_text th;
      td ← get_text td;
      parse_table rest (<[th := td]> table)
  end.

Definition money_to_float (s : option string) : value :=
  match s with
  | None => PyNone
  | Some s =>
      if decide (s = "") then PyNone
      else from_option PyFloat PyNone (float_of_str (strip_non_numeric s))
  end.

(** [parsed.path.rstrip("/").split("/")[-2] if parsed.path else url] *)
Definition book_id_of_url (url : string) : outcome string :=
  let path := url_path url in
  if decide (path = "") then Ret url
  else
    let segs := split_on "/"%char (rstrip "/"%char path) in
    if decide (2 ≤ length segs)%nat then
      match segs !! (length segs - 2)%nat with
      | Some seg => Ret seg
      | None => Raise (IndexError "list index out of range")
      end
    else Raise (IndexError "list index out of range").

Definition opt_str (o : option string) : value := from_option PyStr PyNone o.

Definition now_z : M string := now_iso_z E.

(** The dictionary [data] that [parse_book] builds, with its
    [content_hash], from the page, the URL, and what the failing steps
    produced: the title, the table, the number of reviews, the id and the
    crawl time. *)
Definition book_document (soup : soup) (url : string) (title : value)
    (table : gmap string string) (num_reviews : Z) (bid ts : string) : doc :=
  let desc := match product_description soup with
              | Some (Some t) => PyStr t
              | _ => PyNone
              end in
  let crumbs := breadcrumb soup in
  let category := if decide (3 ≤ length crumbs)%nat
                  then opt_str (crumbs !! 2%nat) else PyNone in
  let price_incl := money_to_float (table !! "Price (incl. tax)") in
  let price_excl := money_to_float (table !! "Price (excl. tax)") in
  let availability := opt_str (table !! "Availability") in
  let img := match carousel_img soup with
             | Some i => Some i
             | None => match gallery_img soup with
                       | Some i => Some i
                       | None => active_img soup
                       end
             end in
  let image_url := match img with
                   | Some src => PyStr (urljoin url src)
                   | None => PyNone
                   end in
  let rating := parse_rating soup in
  let data : doc :=
    <["crawl_timestamp" := PyStr ts]> (
    <["source_url" := PyStr url]> (
    <["rating" := rating]> (
    <["image_url" := image_url]> (
    <["num_reviews" := PyInt num_reviews]> (
    <["availability" := availability]> (
    <["price_excluding_tax" := price_excl]> (
    <["price_including_tax" := price_incl]> (
    <["category" := category]> (
    <["description" := desc]> (
    <["title" := title]> (
    {["_id" := PyStr bid]}))))))))))) in
  <["content_hash" := PyStr (compute_hash_for_book data)]> data.

(** [parse_book]: the steps that can raise, in the order of the source,
    then the dictionary. *)
Definition parse_book (html url : string) : M (doc * string) :=
  let soup := BeautifulSoup html in
  title ← match product_page soup with
          | Some h1 => t ← get_text h1; mret (PyStr t)
          | None => mret PyNone
          end;
  table ← parse_table (table_rows soup) ∅;
  num_reviews ← match int_of_str (default "0" (table !! "Number of reviews")) with
                | Some n => mret n
                | None => raise (ValueError "invalid literal for int()")
                end;
  bid ← lift (book_id_of_url url);
  ts ← now_z;
  mret (book_document soup url title table num_reviews bid ts, html).

(** *** process_book *)

(** Lines 335-341: the fields of [book_data] whose stored value differs. *)
Definition changed_fields_of (existing book_data : doc)
    : gmap string (value * value) :=
  map_imap (λ key new_val,
    let old_val := dict_get existing key in
    if decide (key = "raw_snapshot_id" ∨ key = "content_hash") then None
    else if py_eq old_val new_val then None
    else Some (old_val, new_val)) book_data.

(** [if d:] on a dictionary *)
Definition dict_truthy (d : doc) : bool := bool_decide (d ≠ ∅).

(** [d[k]] *)
Definition getitem (d : doc) (k : string) : outcome value :=
  match d !! k with
  | Some v => Ret v
  | None => Raise (KeyError k)
  end.

(** Lines 328-341 and 369: which of the three cases [process_book] takes. *)
Definition classify (existing : option doc) (book_data : doc)
    : outcome classification :=
  match existing with
  | Some ex =>
      if dict_truthy ex then
        match getitem book_data "content_hash" with
        | Raise e => Raise e
        | Ret h =>
            if py_eq (dict_get ex "content_hash") h then Ret Unchanged
            else Ret (Updated (changed_fields_of ex book_data))
        end
      else Ret New
  | None => Ret New
  end.

(** The [try] block of [process_book]. *)
Definition process_book_body (url : string) : M (option change_record) :=
  html ← fetch url;
  parsed ← parse_book html url;
  let book_data := parsed.1 in
  let snapshot_html := parsed.2 in
  bid ← lift (getitem book_data "_id");
  existing ← books_find_one E bid;
  cls ← lift (classify existing book_data);
  match cls with
  | Unchanged =>
      emit (EvLog INFO (NoChangesMsg (py_str bid)));;
      mret None
  | Updated changed =>
      ts ← now_z;
      snap_id ← insert_snapshot E (Snapshot url snapshot_html ts);
      let book_data := <["raw_snapshot_id" := PyStr snap_id]> book_data in
      upsert_book E book_data;;
      ts' ← now_z;
      change_record ← change_log_insert_one E
        (ChangeRecord None bid "updated" "new" ts' (Some changed));
      emit (EvLog INFO (UpdatedBookMsg (py_str bid) (dom changed)));;
      mret (Some change_record)
  | New =>
      ts ← now_z;
      snap_id ← insert_snapshot E (Snapshot url snapshot_html ts);
      let book_data := <["raw_snapshot_id" := PyStr snap_id]> book_data in
      upsert_book E book_data;;
      change_record ← log_change_entry E bid "new";
      emit (EvLog INFO (InsertedBookMsg (py_str bid)));;
      mret (Some change_record)
  end.

(** [process_book]: the [try] block and its [except Exception] handler. *)
Definition process_book (url : string) : M (option change_record) :=
  r ← try_ (process_book_body url);
  match r with
  | Ret result => mret result
  | Raise e =>
      emit (EvLog ERROR (FailedProcessMsg url e));;
      mret None
  end.

(** *** run

    [asyncio.gather] returns the results of the tasks in the order in which
    they were passed; the tasks themselves are run here one after the other,
    in that order. *)
Definition run (fuel : nat) (w : world)
    : option (outcome (list change_record) * world) :=
  match mark_all_changes_as_old E w with
  | (Raise e, w1) => Some (Raise e, w1)
  | (Ret _, w1) =>
      match get_all_book_links fuel w1 with
      | None => None
      | Some (Raise e, w2) => Some (Raise e, w2)
      | Some (Ret book_links, w2) =>
          Some ((emit (EvLog INFO (FoundLinksMsg (length book_links)));;
                 results ← mapM process_book book_links;
                 mret (omap id results)) w2)
      end
  end.

End Crawler.


(** ** A runtime and a site for the examples

    The stand-ins that the examples run on, in the manner of the fake
    [fetch] of tests/test_crawler.py: pages are named by short strings and
    [BeautifulSoup] looks their structure up in a table. *)

Module Examples.

Definition empty_soup : soup :=
  Soup None None [] [] None None None None [] None.

Fixpoint digits_value (s : string) (acc : Z) : option Z :=
  match s with
  | EmptyString => Some acc
  | String c s' =>
      let n := nat_of_ascii c in
      if ((48 <=? n)%nat && (n <=? 57)%nat)%bool
      then digits_value s' (10 * acc + Z.of_nat (n - 48))
      else None
  end.

(** Plain decimal literals only. *)
Definition simple_int_of_str (s : string) : option Z :=
  if decide (s = "") then None else digits_value s 0.

(** A number is kept as the cleaned text it was read from, when that text
    has digits and at most one point. *)
Fixpoint count_dots (s : string) : nat :=
  match s with
  | EmptyString => 0%nat
  | String c s' => if decide (c = "."%char) then S (count_dots s') else count_dots s'
  end.

Definition simple_float_of_str (s : string) : option string :=
  if decide (s = "" ∨ s = "." ∨ (2 ≤ count_dots s)%nat) then None else Some s.

(** The part of [base] up to its last slash, followed by [ref]. *)
Fixpoint dirname (s : string) : string :=
  match s with
  | EmptyString => EmptyString
  | String c s' =>
      let d := dirname s' in
      if decide (d = EmptyString ∧ c ≠ "/"%char) then EmptyString else String c d
  end.

Definition simple_urljoin (base : string) (ref : option string) : string :=
  match ref with
  | None => base
  | Some r => if decide (r = "") then base else dirname base +:+ r
  end.

Fixpoint after_authority (s : string) : string :=
  match s with
  | EmptyString => EmptyString
  | String c s' => if decide (c = "/"%char) then s else after_authority s'
  end.

Fixpoint simple_url_path (s : string) : string :=
  match s with
  | String ":" (String "/" (String "/" rest)) => after_authority rest
  | String _ s' => simple_url_path s'
  | EmptyString => EmptyString
  end.

Definition listing_1 : soup :=
  Soup None None [] [] None None None None
    [Some "book_1/index.html"; Some "book_2/index.html"] (Some (Some "page-2.html")).

Definition listing_2 : soup :=
  Soup None None [] [] None None None None [Some "book_3/index.html"] None.

(** A detail page with every field. *)
Definition detail_full : soup :=
  Soup (Some (Some "A Light in the Attic")) (Some (Some "Poems."))
    ["Home"; "Books"; "Poetry"; "A Light in the Attic"]
    [ (Some "Price (excl. tax)", Some "GBP 51.77");
      (Some "Price (incl. tax)", Some "GBP 51.77");
      (Some "Availability", Some "In stock (22 available)");
      (Some "Number of reviews", Some "0") ]
    None (Some (Some "cover.jpg")) None (Some ["star-rating"; "Three"]) [] None.

(** The same page after a price change. *)
Definition detail_repriced : soup :=
  Soup (Some (Some "A Light in the Attic")) (Some (Some "Poems."))
    ["Home"; "Books"; "Poetry"; "A Light in the Attic"]
    [ (Some "Price (excl. tax)", Some "GBP 49.00");
      (Some "Price (incl. tax)", Some "GBP 49.00");
      (Some "Availability", Some "In stock (22 available)");
      (Some "Number of reviews", Some "0") ]
    None (Some (Some "cover.jpg")) None (Some ["star-rating"; "Three"]) [] None.

(** A page without the [.product_page] container and without anything
    else. *)
Definition detail_bare : soup := empty_soup.

(** A page whose [.product_page] container has no [h1]. *)
Definition detail_no_h1 : soup :=
  Soup (Some None) None [] [] None None None None [] None.

Definition pages : list (string * soup) :=
  [ ("<listing 1>", listing_1); ("<listing 2>", listing_2);
    ("<detail full>", detail_full); ("<detail repriced>", detail_repriced);
    ("<detail bare>", detail_bare); ("<detail no h1>", detail_no_h1) ].

Definition lookup_page (html : string) : soup :=
  default empty_soup ((list_to_map pages : gmap string soup) !! html).

Definition test_runtime : Runtime := {|
  float := string;
  float_eqb := λ x y, bool_decide (x = y);
  float_int_eqb := λ x n, bool_decide (x = pretty n);
  float_str := λ x, x;
  float_of_str := simple_float_of_str;
  int_of_str := simple_int_of_str;
  int_of_str_0 := eq_refl;
  sha256_hexdigest := λ s, "sha256(" +:+ s +:+ ")";
  urljoin := simple_urljoin;
  url_path := simple_url_path;
  BeautifulSoup := lookup_page
|}.
#[local] Existing Instance test_runtime.

(** The site: what each URL answers. *)
Definition site : gmap string string :=
  {[ "https://books.toscrape.com/catalogue/page-1.html" := "<listing 1>";
     "https://books.toscrape.com/catalogue/page-2.html" := "<listing 2>";
     "https://books.toscrape.com/catalogue/book_1/index.html" := "<detail full>";
     "https://books.toscrape.com/catalogue/book_2/index.html" := "<detail bare>";
     "https://books.toscrape.com/catalogue/book_3/index.html" := "<detail no h1>" ]}.

Definition serve (s : gmap string string) (url : string) : http_result :=
  match s !! url with
  | Some html => HttpOk html
  | None => HttpFail (LibraryError "404 Not Found")
  end.

Definition test_env : env :=
  Env "https://books.toscrape.com" 3
    (λ _ url, serve site url)
    (λ _, None)
    (λ n, "T" +:+ pretty n)
    (λ n, "oid" +:+ pretty n).

Definition empty_world : world := World 0 ∅ [] [] [].

Definition first_crawl : doc :=
  {[ "_id" := PyStr "book_1"; "title" := PyStr "A Light in the Attic";
     "price_including_tax" := PyFloat "51.77"; "num_reviews" := PyInt 0;
     "rating" := PyInt 3;
     "source_url" := PyStr "https://books.toscrape.com/catalogue/book_1/index.html";
     "crawl_timestamp" := PyStr "T0Z" ]}.

Definition second_crawl : doc :=
  {[ "_id" := PyStr "book_1"; "title" := PyStr "A Light in the Attic";
     "price_including_tax" := PyFloat "51.77"; "num_reviews" := PyInt 0;
     "rating" := PyInt 3;
     "source_url" := PyStr "http://mirror.example/book_1/index.html";
     "crawl_timestamp" := PyStr "T42Z"; "raw_snapshot_id" := PyStr "oid7" ]}.


(** A change log with two entries of an earlier run, still flagged new. *)
Definition earlier_log : list change_record :=
  [ ChangeRecord (Some "oid1") (PyStr "book_1") "new" "new" "T1Z" None;
    ChangeRecord (Some "oid2") (PyStr "book_2") "updated" "new" "T2Z"
      (Some {[ "availability" := (PyStr "In stock", PyStr "Sold out") ]}) ].

Definition seeded_world : world := World 10 ∅ [] earlier_log [].

Definition two_entries : list (value * string) :=
  [ (PyStr "book_3", "new"); (PyStr "book_1", "updated") ].

Definition age_out_and_append : outcome (list change_record) * world := Eval vm_compute in
  (mark_all_changes_as_old test_env;;
   mapM (λ e, log_change_entry test_env e.1 e.2) two_entries) seeded_world.

Definition appended : list change_record := Eval vm_compute in
  match age_out_and_append.1 with Ret rs => rs | Raise _ => [] end.

(** A stored book that carries a field the crawler never writes. *)
Definition legacy_book : doc :=
  {[ "title" := PyStr "Old title"; "legacy_note" := PyStr "imported" ]}.

Definition legacy_world : world :=
  World 0 {[ PyStr "book_1" := legacy_book ]} [] [] [].

Definition retitled : doc :=
  {[ "_id" := PyStr "book_1"; "title" := PyStr "New title" ]}.

Definition after_upsert : outcome unit * world := Eval vm_compute in
  upsert_book test_env retitled legacy_world.


(** A server that times out on the first two requests and then answers, and
    one that never answers. *)
Definition flaky_env : env :=
  Env "https://books.toscrape.com" 3
    (λ n url, if decide (n < 2)%nat then HttpFail (LibraryError "timed out")
              else HttpOk "<detail full>")
    (λ _, None) (λ n, "T" +:+ pretty n) (λ n, "oid" +:+ pretty n).

Definition down_env : env :=
  Env "https://books.toscrape.com" 3
    (λ _ _, HttpFail (LibraryError "connection refused"))
    (λ _, None) (λ n, "T" +:+ pretty n) (λ n, "oid" +:+ pretty n).

Definition book_1_url : string :=
  "https://books.toscrape.com/catalogue/book_1/index.html".



Definition three_links : list string :=
  [ "https://books.toscrape.com/catalogue/book_1/index.html";
    "https://books.toscrape.com/catalogue/book_2/index.html";
    "https://books.toscrape.com/catalogue/book_3/index.html" ].





Definition book_2_url : string :=
  "https://books.toscrape.com/catalogue/book_2/index.html".

Definition book_3_url : string :=
  "https://books.toscrape.com/catalogue/book_3/index.html".

(** The world after book 1 was crawled once, and the steps of crawling it
    again. *)
Definition crawled_world : world := Eval vm_compute in
  (process_book test_env book_1_url empty_world).2.

Definition second_fetch : outcome string * world := Eval vm_compute in
  fetch test_env book_1_url crawled_world.

Definition second_parse : outcome (doc * string) * world := Eval vm_compute in
  parse_book test_env "<detail full>" book_1_url second_fetch.2.

Definition second_record : doc := Eval vm_compute in
  match second_parse.1 with Ret (d, _) => d | Raise _ => ∅ end.

Definition second_find : outcome (option doc) * world := Eval vm_compute in
  books_find_one test_env (PyStr "book_1") second_parse.2.

Definition stored_book_1 : doc := Eval vm_compute in
  default ∅ (find_one (books crawled_world) (PyStr "book_1")).

(** A run over the example site, from the empty database. *)
Definition aged_world : world := Eval vm_compute in (mark_all_changes_as_old test_env empty_world).2.

Definition discovered_world : world := Eval vm_compute in
  match get_all_book_links test_env 5 aged_world with
  | Some (_, w) => w
  | None => empty_world
  end.

Definition first_run : option (outcome (list change_record) * world) := Eval vm_compute in
  run test_env 5 empty_world.

Definition first_run_changes : list change_record := Eval vm_compute in
  match first_run with Some (Ret cs, _) => cs | _ => [] end.

Definition first_run_world : world := Eval vm_compute in
  match first_run with Some (_, w) => w | None => empty_world end.

(** The world in which book 3 has been fetched. *)
Definition book_3_fetched : world := Eval vm_compute in (fetch test_env book_3_url empty_world).2.





End Examples.


(** ** Notions used in the statements *)

Section Notions.
Context `{RT : Runtime}.

(** What one tracked field contributes to the hashed text. *)
Definition field_text (book_dict : doc) (k : string) : string :=
  match book_dict !! k with
  | Some v => py_str v
  | None => ""
  end.

End Notions.

Section StoreNotions.
Context `{RT : Runtime}.

(** The three collections of the database. *)
Definition stores (w : world) : gmap value doc * list (string * snapshot) * list change_record :=
  (books w, book_snapshots w, change_log w).

(** A computation that writes to no collection. *)
Definition read_only {A} (m : M A) : Prop := ∀ w, stores (m w).2 = stores w.

Definition is_new (c : change_record) : Prop := recent c = "new".
Definition is_old (c : change_record) : Prop := recent c = "old".

#[export] Instance is_new_dec c : Decision (is_new c).
Proof. unfold is_new. apply _. Defined.

#[export] Instance is_old_dec c : Decision (is_old c).
Proof. unfold is_old. apply _. Defined.

End StoreNotions.

(** What one failed attempt of [fetch] leaves in the trace: the request, the
    warning with the attempt number, the sleep before the next attempt. *)
Definition failed_attempt (url : string) (attempt : Z) (e : exn) : list event :=
  [ EvGet url; EvLog WARNING (FetchErrorMsg url e (attempt + 1));
    EvSleep (1 + attempt * 2) ].

Definition is_get (ev : event) : bool :=
  match ev with EvGet _ => true | _ => false end.

Section FetchNotions.
Context `{RT : Runtime}.

(** The world after one more tick and some more events. *)
Definition advance (w : world) (evs : list event) : world :=
  World (S (tick w)) (books w) (book_snapshots w) (change_log w) (trace w ++ evs).

End FetchNotions.

Section DiscoveryNotions.
Context `{RT : Runtime}.
Variable E : env.




End DiscoveryNotions.



(** The fields that the diff of [process_book] looks at. *)
Definition compared (key : string) : Prop :=
  key ≠ "raw_snapshot_id" ∧ key ≠ "content_hash".

Section ParseNotions.
Context `{RT : Runtime}.

(** A table row has both its header cell and its data cell. *)
Definition row_ok (r : option string * option string) : Prop :=
  is_Some r.1 ∧ is_Some r.2.

#[export] Instance row_ok_dec r : Decision (row_ok r).
Proof. unfold row_ok. apply _. Defined.

(** The table that the loop over the rows builds when every row has both
    cells. *)
Definition table_of (rows : list (option string * option string))
    (table : gmap string string) : gmap string string :=
  foldl (λ t r, match r with
                | (Some th, Some td) => <[th := td]> t
                | _ => t
                end) table rows.

(** The text handed to [int] for the number of reviews. *)
Definition review_count_text (s : soup) : string :=
  default "0" (table_of (table_rows s) ∅ !! "Number of reviews").

(** What [parse_book] needs of a page and its URL: a title heading inside
    the product container if there is a container, both cells in every
    table row, a review count that reads as an integer, and a URL path with
    a segment before the last. *)
Definition page_parses (s : soup) (url : string) : Prop :=
  product_page s ≠ Some None
  ∧ Forall row_ok (table_rows s)
  ∧ is_Some (int_of_str (review_count_text s))
  ∧ ∃ bid, book_id_of_url url = Ret bid.

Definition no_get_text : exn :=
  AttributeError "'NoneType' object has no attribute 'get_text'".

(** The title that [parse_book] records for a product container. *)
Definition title_of (product : option (option string)) : value :=
  match product with
  | Some (Some t) => PyStr t
  | _ => PyNone
  end.

End ParseNotions.

Section RunNotions.
Context `{RT : Runtime}.
Variable E : env.

(** The change entry [c] is what [process_book] returned for the URL [u] in
    some world, and it carries the id derived from [u]. *)
Definition produced_for (u : string) (c : change_record) : Prop :=
  ∃ w w' bid,
    process_book E u w = (Ret (Some c), w')
    ∧ book_id_of_url u = Ret bid ∧ book_id c = PyStr bid.

(** A change entry as [process_book] makes them: flagged new, of type new
    without field changes or of type updated with them. *)
Definition fresh_change (c : change_record) : Prop :=
  recent c = "new"
  ∧ (change_type c = "new" ∧ field_changes c = None
     ∨ change_type c = "updated" ∧ is_Some (field_changes c)).

End RunNotions.

(** ** Further notions: traces *)

(** The seconds slept, in order, in a list of events. *)
Definition sleeps (evs : list event) : list Z :=
  omap (λ ev, match ev with EvSleep s => Some s | _ => None end) evs.

(** The URLs requested, in order, in a list of events. *)
Definition requests (evs : list event) : list string :=
  omap (λ ev, match ev with EvGet u => Some u | _ => None end) evs.

Section TraceNotions.
Context `{RT : Runtime}.

(** [w'] is [w] after [n] ticks that wrote to no collection and added the
    events [evs] to the trace. *)
Definition after_events (w : world) (n : nat) (evs : list event) (w' : world) : Prop :=
  tick w' = (tick w + n)%nat ∧ stores w' = stores w ∧ trace w' = trace w ++ evs.

End TraceNotions.

Section DiscoveryMore.
Context `{RT : Runtime}.
Variable E : env.


End DiscoveryMore.

(** ** Further examples *)

Module MoreExamples.
Import Examples.




(** The world after the age-out, and after the discovery, when the server
    is down. *)
Definition down_aged : outcome unit * @world test_runtime :=
  Eval vm_compute in @mark_all_changes_as_old test_runtime down_env seeded_world.

Definition down_discovery : option (outcome (list string) * @world test_runtime) :=
  Eval vm_compute in @get_all_book_links test_runtime down_env 3 down_aged.2.

Definition down_discovered : @world test_runtime :=
  Eval vm_compute in match down_discovery with
                     | Some (_, w) => w
                     | None => down_aged.2
                     end.

Definition down_error : exn :=
  Exception "Failed to fetch https://books.toscrape.com/catalogue/page-1.html after 3 tries".




(** The first crawl of book 1, from the empty database: the fetch, and the
    entry that [process_book] returns. *)
Definition first_fetch : outcome string * @world test_runtime :=
  Eval vm_compute in @fetch test_runtime test_env book_1_url empty_world.

Definition first_entry : @change_record test_runtime :=
  Eval vm_compute in
    match (@process_book test_runtime test_env book_1_url empty_world).1 with
    | Ret (Some c) => c
    | _ => ChangeRecord None PyNone "" "" "" None
    end.

(** The parse and the lookup of that first crawl. *)
Definition first_parse
    : outcome (gmap string (pyval (@float test_runtime)) * string) * @world test_runtime :=
  Eval vm_compute in
    @parse_book test_runtime test_env "<detail full>" book_1_url first_fetch.2.

Definition first_record : gmap string (pyval (@float test_runtime)) :=
  Eval vm_compute in match first_parse.1 with Ret (d, _) => d | Raise _ => ∅ end.

Definition first_find
    : outcome (option (gmap string (pyval (@float test_runtime)))) * @world test_runtime :=
  Eval vm_compute in
    @books_find_one test_runtime test_env (PyStr "book_1") first_parse.2.

(** A database that fails once, at the eighth tick: in the first crawl of
    book 1 that is the insert into the change log. *)
Definition log_insert_error : exn := LibraryError "change_log: not primary".

Definition log_down_env : env :=
  Env "https://books.toscrape.com" 3
    (λ _ url, serve site url)
    (λ n, if decide (n = 7%nat) then Some log_insert_error else None)
    (λ n, "T" +:+ pretty n)
    (λ n, "oid" +:+ pretty n).

(** The site after the price of book 1 has changed, and the crawl of book 1
    over it, from the database that holds the first crawl. *)
Definition repriced_env : env :=
  Env "https://books.toscrape.com" 3
    (λ _ url, serve (<[book_1_url := "<detail repriced>"]> site) url)
    (λ _, None)
    (λ n, "T" +:+ pretty n)
    (λ n, "oid" +:+ pretty n).

Definition repriced_crawl
    : outcome (option (@change_record test_runtime)) * @world test_runtime :=
  Eval vm_compute in @process_book test_runtime repriced_env book_1_url crawled_world.

Definition repriced_entry : @change_record test_runtime :=
  Eval vm_compute in
    match repriced_crawl.1 with
    | Ret (Some c) => c
    | _ => ChangeRecord None PyNone "" "" "" None
    end.

Definition repriced_changes
    : gmap string (pyval (@float test_runtime) * pyval (@float test_runtime)) :=
  Eval vm_compute in default ∅ (field_changes repriced_entry).

End MoreExamples.

(** ** Further notions: strings *)


(** ** Further notions: what an item writes *)

Section ProcessNotions.
Context `{RT : Runtime}.

(** What one item may write: [w'] has the change log of [w] followed by the
    entry [r] if there is one, the snapshots of [w] followed by at most one
    snapshot of [url], one if there is an entry, and the books of [w] with at
    most the record of the id of [url] written. *)
Definition item_writes (url : string) (r : option change_record) (w w' : world) : Prop :=
  change_log w' = change_log w ++ option_list r
  ∧ (∃ snaps, book_snapshots w' = book_snapshots w ++ snaps
              ∧ (length (option_list r) ≤ length snaps ≤ 1)%nat
              ∧ Forall (λ s, snap_source_url s.2 = url) snaps)
  ∧ (books w' = books w
     ∨ ∃ bid d, book_id_of_url url = Ret bid
                ∧ books w' = <[PyStr bid := d]> (books w)).

End ProcessNotions.


(** ** api/auth.py and api/main.py

    The functions of the API as they are written; the rate limiter and the
    routing of FastAPI are outside of them. *)

(** What a handler or a dependency answers: a value, or the [HTTPException]
    that it raised, which FastAPI turns into a response with that status. *)
Inductive response (A : Type) : Type :=
  | Ok (body : A)
  | HTTPException (status_code : Z) (detail : string).
Arguments Ok {A} body.
Arguments HTTPException {A} status_code detail.

(** [get_api_key].  [API_KEY] is [os.getenv("API_KEY")], [None] when the
    variable is not set; the header is [None] when the request has none
    ([auto_error=False]). *)
Definition get_api_key (API_KEY : option string) (api_key_header : option string)
    : response string :=
  match api_key_header with
  | None => HTTPException 401 "Missing API Key"
  | Some key =>
      if decide (key = "") then HTTPException 401 "Missing API Key"
      else if decide (Some key = API_KEY) then Ok key
      else HTTPException 403 "Forbidden"
  end.

(** The keys of the comprehension of [book_doc_to_resp]. *)
Definition public_keys : list string :=
  [ "_id"; "title"; "description"; "category"; "price_including_tax";
    "price_excluding_tax"; "availability"; "num_reviews"; "image_url";
    "rating"; "source_url"; "crawl_timestamp" ].

Section Api.
Context `{RT : Runtime}.
Variable E : env.

(** [{k: doc.get(k) for k in [...]}] *)
Definition book_doc_to_resp (d : doc) : doc :=
  foldl (λ resp k, <[k := dict_get d k]> resp) ∅ public_keys.

(** [get_book] *)
Definition get_book (book_id : string) : M (response doc) :=
  d ← books_find_one E (PyStr book_id);
  match d with
  | Some d =>
      if dict_truthy d then mret (Ok (book_doc_to_resp d))
      else mret (HTTPException 404 "Book not found")
  | None => mret (HTTPException 404 "Book not found")
  end.

End Api.


(** ** Further notions: a site that does not change *)

Section SecondRunNotions.
Context `{RT : Runtime}.
Variable E : env.

(** The site answers a request for a URL in the same way at all times. *)
Definition stable_site : Prop := ∀ n m u, http_get E n u = http_get E m u.

(** The database never fails. *)
Definition db_up : Prop := ∀ n, db_fault E n = None.

(** No two of the links have the same book id. *)
Definition distinct_ids (links : list string) : Prop :=
  ∀ u v b, u ∈ links → v ∈ links →
    book_id_of_url u = Ret b → book_id_of_url v = Ret b → u = v.

(** The database is up to date for the URL [u]: whenever the page of [u] is
    fetched and parses, the record stored under its id carries the
    fingerprint of the parsed record. *)
Definition settled (u : string) (w : world) : Prop :=
  ∀ wa html wa1 wp data h wp',
    fetch E u wa = (Ret html, wa1) →
    parse_book E html u wp = (Ret (data, h), wp') →
    ∃ b ex, book_id_of_url u = Ret b
            ∧ find_one (books w) (PyStr b) = Some ex
            ∧ ex !! "content_hash" = data !! "content_hash".

End SecondRunNotions.


(** ** Further notions: the shape of a record *)

Section SchemaNotions.
Context `{RT : Runtime}.

(** [v] is [None] or a text. *)
Definition optional_str (v : value) : Prop := v = PyNone ∨ ∃ s, v = PyStr s.

(** [v] is [None] or a float. *)
Definition optional_float (v : value) : Prop := v = PyNone ∨ ∃ x, v = PyFloat x.

(** [v] is [None] or an integer from 1 to 5. *)
Definition optional_rating (v : value) : Prop :=
  v = PyNone ∨ ∃ n, 1 ≤ n ≤ 5 ∧ v = PyInt n.

End SchemaNotions.

(** *** list_books *)

(** The sort that [list_books] asks of the cursor: the field and the
    direction, or none. *)
Definition sort_of (sort_by : option string) : option (string * Z) :=
  match sort_by with
  | None => None
  | Some s =>
      if decide (s = "") then None
      else if decide (s = "rating") then Some ("rating", -1)
      else if decide (s = "price") then Some ("price_including_tax", 1)
      else if decide (s = "reviews") then Some ("num_reviews", -1)
      else None
  end.

Section ListBooks.
Context `{RT : Runtime}.
Variable E : env.

(** The filter [q] as [list_books] builds it: the entries for [category],
    [rating] and [price_including_tax], each present or not; the last holds
    the bounds [$gte] and [$lte], each present or not. *)
Record book_query : Type := BookQuery {
  q_category : option string;
  q_rating : option Z;
  q_price_including_tax : option (option float * option float)
}.

Definition build_query (category : option string) (min_price max_price : option float)
    (rating : option Z) : book_query :=
  BookQuery
    (match category with
     | Some c => if decide (c = "") then None else Some c
     | None => None
     end)
    (match rating with
     | Some r => if decide (r = 0) then None else Some r
     | None => None
     end)
    (match min_price, max_price with
     | None, None => None
     | _, _ => Some (min_price, max_price)
     end).

(** The body of the answer of [list_books]. *)
Record book_page : Type := BookPage {
  page_number : Z;
  page_size_given : Z;
  total : Z;
  results : list doc
}.

(** The driver: the documents that [find(q)] yields, in the order of the
    sort if one is given, and the number that [count_documents(q)]
    counts. *)
Variable find : book_query → option (string * Z) → gmap value doc → list doc.
Variable count_documents : book_query → gmap value doc → Z.

(** [list_books], for a page number and a page size that pass the bounds of
    its signature ([ge=1], [le=200]); FastAPI answers the others with 422
    without calling it. *)
Definition list_books (category : option string) (min_price max_price : option float)
    (rating : option Z) (sort_by : option string) (page page_size : Z)
    : M (response book_page) :=
  if decide (1 ≤ page ∧ 1 ≤ page_size ≤ 200) then
    let q := build_query category min_price max_price rating in
    db_op E;;
    w ← get_world;
    let total := count_documents q (books w) in
    let skip := (page - 1) * page_size in
    db_op E;;
    w ← get_world;
    let docs := take (Z.to_nat page_size)
                  (drop (Z.to_nat skip) (find q (sort_of sort_by) (books w))) in
    mret (Ok (BookPage page page_size total (book_doc_to_resp <$> docs)))
  else mret (HTTPException 422 "Unprocessable Entity").

End ListBooks.

Module ApiExamples.
Import Examples.

(** A stand-in for the driver on the request without filter and sort: every
    document of the collection, each with its [_id], and their number. *)
Definition find_all (q : @book_query test_runtime) (sort : option (string * Z))
    (c : gmap (pyval (@float test_runtime)) (gmap string (pyval (@float test_runtime))))
    : list (gmap string (pyval (@float test_runtime))) :=
  (λ kv, <["_id" := kv.1]> kv.2) <$> map_to_list c.

Definition count_all (q : @book_query test_runtime)
    (c : gmap (pyval (@float test_runtime)) (gmap string (pyval (@float test_runtime))))
    : Z :=
  Z.of_nat (length (map_to_list c)).

End ApiExamples.


(** * Properties *)

(** ** The content fingerprint *)

Section Fingerprint.
Context `{RT : Runtime}.

Lemma field_text_get (book_dict : doc) (k : string) :
  py_str (dict_get_default book_dict k (PyStr "")) = field_text book_dict k.
Proof. unfold field_text, dict_get_default. by destruct (book_dict !! k). Qed.

Lemma hash_input_fields (book_dict : doc) :
  hash_input book_dict =
    field_text book_dict "title" +:+ "|" +:+
    field_text book_dict "description" +:+ "|" +:+
    field_text book_dict "category" +:+ "|" +:+
    field_text book_dict "price_including_tax" +:+ "|" +:+
    field_text book_dict "price_excluding_tax" +:+ "|" +:+
    field_text book_dict "availability" +:+ "|" +:+
    field_text book_dict "num_reviews" +:+ "|" +:+
    field_text book_dict "image_url" +:+ "|" +:+
    field_text book_dict "rating".
Proof.
  unfold hash_input. simpl. by rewrite !field_text_get.
Qed.

Lemma hash_input_agree (r1 r2 : doc) :
  Forall (λ k, r1 !! k = r2 !! k) hash_keys → hash_input r1 = hash_input r2.
Proof.
  intros Hagree. unfold hash_input. f_equal.
  apply map_ext_Forall. eapply Forall_impl; [exact Hagree|].
  intros k Hk. simpl in Hk. unfold dict_get_default. by rewrite Hk.
Qed.

(** C1: the fingerprint is the digest of the nine tracked fields, in the
    order title, description, category, price_including_tax,
    price_excluding_tax, availability, num_reviews, image_url, rating, joined
    by a vertical bar, a field that is missing counting as the empty text;
    two records that agree on these nine fields have the same fingerprint,
    whatever their other fields hold. *)
Theorem fingerprint_depends_only_on_tracked_fields (r1 r2 : doc) :
  Forall (λ k, r1 !! k = r2 !! k) hash_keys →
  compute_hash_for_book r1 = compute_hash_for_book r2
  ∧ compute_hash_for_book r1 =
      sha256_hexdigest (join "|" (field_text r1 <$> hash_keys)).
Proof.
  intros Hagree. split.
  - unfold compute_hash_for_book. by rewrite (hash_input_agree r1 r2).
  - unfold compute_hash_for_book. f_equal. unfold hash_input. f_equal.
    apply map_ext. intros k. apply field_text_get.
Qed.

(** Writing a field that is not tracked leaves the fingerprint as it was. *)
Lemma fingerprint_untracked_field (r : doc) (k : string) (v : value) :
  k ∉ hash_keys →
  compute_hash_for_book (<[k := v]> r) = compute_hash_for_book r.
Proof.
  intros Hk. unfold compute_hash_for_book. f_equal.
  apply hash_input_agree. apply Forall_forall. intros k' Hk'.
  apply lookup_insert_ne. intros ->. by apply Hk.
Qed.

End Fingerprint.

Module FingerprintExample.
Import Examples.
#[local] Existing Instance test_runtime.

Lemma fingerprint_depends_only_on_tracked_fields_witness :
  compute_hash_for_book first_crawl = compute_hash_for_book second_crawl
  ∧ compute_hash_for_book first_crawl =
      sha256_hexdigest (join "|" (field_text first_crawl <$> hash_keys)).
Proof.
  apply (fingerprint_depends_only_on_tracked_fields first_crawl second_crawl).
  repeat constructor.
Defined.

End FingerprintExample.

(** ** The monad *)

Section MonadFacts.
Context `{RT : Runtime}.

Lemma bind_unfold {A B} (m : M A) (f : A → M B) (w : world) :
  (m ≫= f) w = match m w with
               | (Ret a, w') => f a w'
               | (Raise e, w') => (Raise e, w')
               end.
Proof. reflexivity. Qed.

Lemma bind_Ret_inv {A B} (m : M A) (f : A → M B) w r w' :
  (m ≫= f) w = (Ret r, w') →
  ∃ a w1, m w = (Ret a, w1) ∧ f a w1 = (Ret r, w').
Proof.
  rewrite bind_unfold. destruct (m w) as [[a|e] w1]; [eauto | discriminate].
Qed.

Lemma bind_Raise_inv {A B} (m : M A) (f : A → M B) w e w' :
  (m ≫= f) w = (Raise e, w') →
  m w = (Raise e, w') ∨ ∃ a w1, m w = (Ret a, w1) ∧ f a w1 = (Raise e, w').
Proof.
  rewrite bind_unfold. destruct (m w) as [[a|e0] w1]; intros H.
  - right; eauto.
  - left. by injection H as -> ->.
Qed.

Lemma bind_Ret_step {A B} (m : M A) (f : A → M B) w a w1 :
  m w = (Ret a, w1) → (m ≫= f) w = f a w1.
Proof. intros H. by rewrite bind_unfold, H. Qed.

Lemma bind_Raise_step {A B} (m : M A) (f : A → M B) w e w1 :
  m w = (Raise e, w1) → (m ≫= f) w = (Raise e, w1).
Proof. intros H. by rewrite bind_unfold, H. Qed.

Lemma read_only_ret {A} (a : A) : read_only (mret a).
Proof. by intros w. Qed.

Lemma read_only_raise {A} (e : exn) : read_only (raise (A:=A) e).
Proof. by intros w. Qed.

Lemma read_only_lift {A} (r : outcome A) : read_only (lift r).
Proof. by intros w. Qed.

Lemma read_only_bind {A B} (m : M A) (f : A → M B) :
  read_only m → (∀ a, read_only (f a)) → read_only (m ≫= f).
Proof.
  intros Hm Hf w. rewrite bind_unfold. specialize (Hm w).
  destruct (m w) as [[a|e] w1]; simpl in *; [|done].
  by rewrite Hf.
Qed.

Lemma read_only_try {A} (m : M A) : read_only m → read_only (try_ m).
Proof.
  intros Hm w. specialize (Hm w). unfold try_. by destruct (m w).
Qed.

Lemma read_only_next_tick : read_only next_tick.
Proof. by intros w. Qed.

Lemma read_only_emit (ev : event) : read_only (emit ev).
Proof. by intros w. Qed.

Lemma read_only_get_world : read_only get_world.
Proof. by intros w. Qed.

End MonadFacts.

Create HintDb read_only.

#[export] Hint Resolve read_only_ret read_only_raise read_only_lift
  read_only_try read_only_next_tick read_only_emit read_only_get_world
  : read_only.

Ltac read_only_step :=
  repeat first
    [ apply read_only_bind; [|intros ?]
    | progress eauto with read_only
    | match goal with
      | |- read_only (match ?x with _ => _ end) => destruct x
      | |- read_only (if ?b then _ else _) => destruct b
      | |- read_only (let _ := _ in _) => cbv zeta
      end ].

(** ** The database operations *)

Section DbFacts.
Context `{RT : Runtime}.
Variable E : env.

Lemma read_only_db_op : read_only (db_op E).
Proof. unfold db_op. read_only_step. Qed.

Lemma read_only_books_find_one k : read_only (books_find_one E k).
Proof.
  unfold books_find_one. pose proof read_only_db_op. read_only_step.
Qed.

Lemma read_only_now : read_only (now_iso_z E).
Proof. unfold now_iso_z. read_only_step. Qed.

Lemma db_op_Ret w n w' :
  db_op E w = (Ret n, w') →
  n = tick w ∧ db_fault E (tick w) = None ∧ stores w' = stores w
  ∧ trace w' = trace w ∧ tick w' = S (tick w).
Proof.
  unfold db_op. rewrite bind_unfold. simpl.
  destruct (db_fault E (tick w)); [discriminate|].
  by intros [= <- <-].
Qed.

Lemma mark_all_changes_as_old_Ret w u w' :
  mark_all_changes_as_old E w = (Ret u, w') →
  change_log w' = set_recent "old" <$> change_log w
  ∧ books w' = books w ∧ book_snapshots w' = book_snapshots w.
Proof.
  unfold mark_all_changes_as_old. intros H.
  apply bind_Ret_inv in H as (n & w1 & Hop & H).
  apply db_op_Ret in Hop as (_ & _ & Hst & _).
  injection Hst as Hb Hs Hc.
  simpl in H. injection H as _ <-. simpl. by rewrite Hb, Hs, Hc.
Qed.

Lemma change_log_insert_one_Ret c w c' w' :
  change_log_insert_one E c w = (Ret c', w') →
  change_log w' = change_log w ++ [c']
  ∧ books w' = books w ∧ book_snapshots w' = book_snapshots w
  ∧ recent c' = recent c ∧ book_id c' = book_id c
  ∧ change_type c' = change_type c ∧ field_changes c' = field_changes c.
Proof.
  unfold change_log_insert_one. intros H.
  apply bind_Ret_inv in H as (n & w1 & Hop & H).
  apply db_op_Ret in Hop as (_ & _ & Hst & _).
  injection Hst as Hb Hs Hc.
  simpl in H. injection H as <- <-. simpl. by rewrite Hb, Hs, Hc.
Qed.

Lemma log_change_entry_Ret bid ctype w c w' :
  log_change_entry E bid ctype w = (Ret c, w') →
  change_log w' = change_log w ++ [c]
  ∧ books w' = books w ∧ book_snapshots w' = book_snapshots w
  ∧ recent c = "new" ∧ book_id c = bid ∧ change_type c = ctype
  ∧ field_changes c = None.
Proof.
  unfold log_change_entry. intros H.
  apply bind_Ret_inv in H as (ts & w1 & Hts & H).
  pose proof (read_only_now w) as Hro. rewrite Hts in Hro. simpl in Hro.
  injection Hro as Hb Hs Hc.
  apply change_log_insert_one_Ret in H as (-> & -> & -> & -> & -> & -> & ->).
  simpl. by rewrite Hb, Hs, Hc.
Qed.

Lemma append_entries_Ret (entries : list (value * string)) w rs w' :
  mapM (λ e, log_change_entry E e.1 e.2) entries w = (Ret rs, w') →
  change_log w' = change_log w ++ rs
  ∧ books w' = books w ∧ book_snapshots w' = book_snapshots w
  ∧ length rs = length entries ∧ Forall is_new rs.
Proof.
  revert w rs w'. induction entries as [|e entries IH]; intros w rs w' H; simpl in H.
  - injection H as <- <-. by rewrite app_nil_r.
  - apply bind_Ret_inv in H as (c & w1 & Hc & H).
    apply bind_Ret_inv in H as (cs & w2 & Hcs & H).
    injection H as <- <-.
    apply log_change_entry_Ret in Hc as (Hl & Hb & Hs & Hnew & _).
    apply IH in Hcs as (Hl' & Hb' & Hs' & Hlen & Hall).
    rewrite Hl', Hl, Hb', Hb, Hs', Hs, <-app_assoc. simpl.
    repeat split; [by rewrite Hlen | by constructor].
Qed.

Lemma filter_new_aged (l : list change_record) :
  filter is_new (set_recent "old" <$> l) = [].
Proof.
  induction l as [|c l IH]; [done|]. rewrite fmap_cons, filter_cons_False; [done|].
  unfold is_new. simpl. discriminate.
Qed.

Lemma filter_new_all (l : list change_record) :
  Forall is_new l → filter is_new l = l.
Proof.
  induction 1 as [|c l Hc _ IH]; [done|]. by rewrite filter_cons_True, IH.
Qed.

(** C3: after the age-out and K appended entries, the change log is the old
    log with every entry flagged old, followed by the K new entries, each
    flagged new; so exactly K entries are flagged new, and none when nothing
    was appended. *)
Theorem age_out_then_append (entries : list (value * string)) w rs w' :
  (mark_all_changes_as_old E;;
   mapM (λ e, log_change_entry E e.1 e.2) entries) w = (Ret rs, w') →
  change_log w' = (set_recent "old" <$> change_log w) ++ rs
  ∧ length rs = length entries
  ∧ Forall is_new rs
  ∧ Forall is_old (take (length (change_log w)) (change_log w'))
  ∧ filter is_new (change_log w') = rs
  ∧ (entries = [] → filter is_new (change_log w') = []).
Proof.
  intros H. apply bind_Ret_inv in H as (u & w1 & Hold & H).
  apply mark_all_changes_as_old_Ret in Hold as (Hold & _).
  apply append_entries_Ret in H as (Hlog & _ & _ & Hlen & Hnew).
  rewrite Hold in Hlog. rewrite Hlog.
  assert (Hfilter : filter is_new ((set_recent "old" <$> change_log w) ++ rs) = rs).
  { by rewrite filter_app, filter_new_aged, filter_new_all. }
  repeat split; try done.
  - rewrite take_app_length'; [|by rewrite length_fmap].
    apply Forall_fmap, Forall_forall. by intros c _.
  - intros ->. destruct rs; [|done]. by rewrite Hfilter.
Qed.

End DbFacts.

Module AgeOutExample.
Import Examples.
#[local] Existing Instance test_runtime.

Lemma age_out_then_append_witness :
  change_log age_out_and_append.2 =
    (set_recent "old" <$> change_log seeded_world) ++ appended
  ∧ length appended = length two_entries
  ∧ Forall is_new appended
  ∧ Forall is_old (take (length (change_log seeded_world))
                        (change_log age_out_and_append.2))
  ∧ filter is_new (change_log age_out_and_append.2) = appended
  ∧ (two_entries = [] → filter is_new (change_log age_out_and_append.2) = []).
Proof.
  apply (age_out_then_append test_env two_entries seeded_world appended
           age_out_and_append.2).
  reflexivity.
Defined.

End AgeOutExample.

(** ** upsert_book *)

Section UpsertFacts.
Context `{RT : Runtime}.
Variable E : env.

Lemma upsert_book_Ret (book_dict : doc) k w u w' :
  book_dict !! "_id" = Some k →
  upsert_book E book_dict w = (Ret u, w') →
  books w' = update_one_set_upsert (books w) k book_dict
  ∧ book_snapshots w' = book_snapshots w ∧ change_log w' = change_log w.
Proof.
  intros Hid. unfold upsert_book. rewrite Hid. intros H.
  apply bind_Ret_inv in H as (n & w1 & Hop & H).
  apply db_op_Ret in Hop as (_ & _ & Hst & _).
  injection Hst as Hb Hs Hc.
  simpl in H. injection H as _ <-. simpl. by rewrite Hb, Hs, Hc.
Qed.

Lemma find_one_updated (c : gmap value doc) (k : value) (fields : doc) :
  fields !! "_id" = Some k →
  find_one (update_one_set_upsert c k fields) k =
    Some (fields ∪ default ∅ (find_one c k)).
Proof.
  intros Hid. unfold find_one, update_one_set_upsert.
  rewrite lookup_insert_eq. simpl. f_equal.
  apply map_eq. intros i. destruct (decide (i = "_id")) as [->|Hi].
  - rewrite lookup_insert_eq. symmetry.
    apply lookup_union_Some_l. exact Hid.
  - rewrite lookup_insert_ne, lookup_delete_ne by done.
    rewrite !lookup_union. f_equal.
    destruct (c !! k) as [old|]; simpl; [|done].
    by rewrite lookup_insert_ne.
Qed.

Lemma find_one_other (c : gmap value doc) (k k' : value) (fields : doc) :
  k' ≠ k →
  find_one (update_one_set_upsert c k fields) k' = find_one c k'.
Proof.
  intros Hk. unfold find_one, update_one_set_upsert.
  by rewrite lookup_insert_ne.
Qed.

Lemma union_covered (new old : doc) : dom old ⊆ dom new → new ∪ old = new.
Proof.
  intros Hdom. apply map_eq. intros i. rewrite lookup_union.
  destruct (new !! i) as [v|] eqn:Hnew; [by destruct (old !! i)|].
  apply not_elem_of_dom in Hnew.
  assert (old !! i = None) as ->; [|done].
  apply not_elem_of_dom. set_solver.
Qed.

(** C5, as the code has it: after [upsert_book] the document stored under
    the id holds every field of the given record with the given value, put
    over the fields of the document stored before (the [$set] update keeps
    them); it is the given record itself when no document was stored
    before or when every field stored before is also a field of the given
    record; the documents of other ids are not touched. *)
Theorem upsert_book_sets_given_fields (book_dict : doc) (k : value) w u w' :
  book_dict !! "_id" = Some k →
  upsert_book E book_dict w = (Ret u, w') →
  let before := default ∅ (find_one (books w) k) in
  find_one (books w') k = Some (book_dict ∪ before)
  ∧ (∀ f v, book_dict !! f = Some v → (book_dict ∪ before) !! f = Some v)
  ∧ (∀ f, book_dict !! f = None → (book_dict ∪ before) !! f = before !! f)
  ∧ (dom before ⊆ dom book_dict → find_one (books w') k = Some book_dict)
  ∧ (∀ k', k' ≠ k → find_one (books w') k' = find_one (books w) k').
Proof.
  intros Hid H before.
  apply (upsert_book_Ret _ k) in H as (Hb & _); [|done].
  rewrite Hb. repeat split.
  - by apply find_one_updated.
  - intros f v Hf. by apply lookup_union_Some_l.
  - intros f Hf. rewrite lookup_union, Hf. by destruct (before !! f).
  - intros Hdom. rewrite find_one_updated by done.
    f_equal. by apply union_covered.
  - intros k' Hk'. by apply find_one_other.
Qed.

End UpsertFacts.

Module UpsertExample.
Import Examples.
#[local] Existing Instance test_runtime.

Lemma upsert_book_sets_given_fields_witness :
  let before := default ∅ (find_one (books legacy_world) (PyStr "book_1")) in
  find_one (books after_upsert.2) (PyStr "book_1") = Some (retitled ∪ before)
  ∧ (∀ f v, retitled !! f = Some v → (retitled ∪ before) !! f = Some v)
  ∧ (∀ f, retitled !! f = None → (retitled ∪ before) !! f = before !! f)
  ∧ (dom before ⊆ dom retitled →
     find_one (books after_upsert.2) (PyStr "book_1") = Some retitled)
  ∧ (∀ k', k' ≠ PyStr "book_1" →
     find_one (books after_upsert.2) k' = find_one (books legacy_world) k').
Proof.
  apply (upsert_book_sets_given_fields test_env retitled (PyStr "book_1")
           legacy_world tt after_upsert.2); reflexivity.
Defined.

(** C5 as stated fails: a field of the stored document that the new record
    does not have is still there after the upsert. *)
Lemma upsert_book_keeps_unlisted_field :
  after_upsert.1 = Ret tt
  ∧ find_one (books after_upsert.2) (PyStr "book_1")
      = Some (<["legacy_note" := PyStr "imported"]> retitled)
  ∧ find_one (books after_upsert.2) (PyStr "book_1") ≠ Some retitled.
Proof.
  assert (find_one (books after_upsert.2) (PyStr "book_1")
          = Some (<["legacy_note" := PyStr "imported"]> retitled)) as Hstored
    by reflexivity.
  split; [reflexivity|]. split; [exact Hstored|].
  rewrite Hstored. by intros [= H].
Qed.

End UpsertExample.

(** ** fetch *)

Section FetchFacts.
Context `{RT : Runtime}.
Variable E : env.

Lemma read_only_client_get url : read_only (client_get E url).
Proof. unfold client_get. read_only_step. Qed.

Lemma read_only_fetch_attempts url attempts :
  read_only (fetch_attempts E url attempts).
Proof.
  induction attempts as [|attempt rest IH]; simpl.
  - apply read_only_raise.
  - pose proof (read_only_client_get url). read_only_step.
Qed.

Lemma read_only_fetch url : read_only (fetch E url).
Proof. apply read_only_fetch_attempts. Qed.

Lemma fetch_attempts_failed url attempt rest w e :
  http_get E (tick w) url = HttpFail e →
  fetch_attempts E url (attempt :: rest) w =
    fetch_attempts E url rest (advance w (failed_attempt url attempt e)).
Proof.
  intros H. simpl. rewrite !bind_unfold. unfold try_, client_get.
  rewrite !bind_unfold. simpl. rewrite H. simpl.
  repeat (rewrite bind_unfold; simpl).
  unfold advance, failed_attempt. simpl. by rewrite <-!app_assoc.
Qed.

Lemma fetch_attempts_answered url attempt rest w text :
  http_get E (tick w) url = HttpOk text →
  fetch_attempts E url (attempt :: rest) w = (Ret text, advance w [EvGet url]).
Proof.
  intros H. simpl. rewrite !bind_unfold. unfold try_, client_get.
  rewrite !bind_unfold. simpl. by rewrite H.
Qed.

(** C6: with three attempts allowed, a fetch whose first two requests fail
    raises, after a third failed request and no fourth, the exception whose
    message names the URL and the count 3; when the third request succeeds
    it returns that response.  The trace shows the three requests. *)
Theorem fetch_three_attempts (url : string) (w : world) (e0 e1 : exn) :
  RETRIES E = 3 →
  http_get E (tick w) url = HttpFail e0 →
  http_get E (S (tick w)) url = HttpFail e1 →
  let r := fetch E url w in
  tick r.2 = (3 + tick w)%nat
  ∧ stores r.2 = stores w
  ∧ length (filter is_get (drop (length (trace w)) (trace r.2))) = 3%nat
  ∧ match http_get E (S (S (tick w))) url with
    | HttpFail e2 =>
        r.1 = Raise (Exception ("Failed to fetch " +:+ url +:+ " after 3 tries"))
        ∧ trace r.2 = trace w ++ failed_attempt url 0 e0
                        ++ failed_attempt url 1 e1 ++ failed_attempt url 2 e2
    | HttpOk text =>
        r.1 = Ret text
        ∧ trace r.2 = trace w ++ failed_attempt url 0 e0
                        ++ failed_attempt url 1 e1 ++ [EvGet url]
    end.
Proof.
  intros HR H0 H1 r. subst r. unfold fetch. rewrite HR.
  change (range 3) with [0; 1; 2].
  rewrite (fetch_attempts_failed _ _ _ _ e0) by done.
  rewrite (fetch_attempts_failed _ _ _ _ e1) by done.
  destruct (http_get E (S (S (tick w))) url) as [text|e2] eqn:H2.
  - rewrite (fetch_attempts_answered _ _ _ _ text) by done.
    simpl. rewrite <-!app_assoc, drop_app_length. by repeat split.
  - rewrite (fetch_attempts_failed _ _ _ _ e2) by done.
    simpl. rewrite HR, <-!app_assoc, drop_app_length. by repeat split.
Qed.

End FetchFacts.

Module FetchExample.
Import Examples.
#[local] Existing Instance test_runtime.

Lemma fetch_three_attempts_witness :
  (let r := fetch flaky_env book_1_url empty_world in
   tick r.2 = 3%nat ∧ r.1 = Ret "<detail full>")
  ∧ (let r := fetch down_env book_1_url empty_world in
     tick r.2 = 3%nat
     ∧ r.1 = Raise (Exception ("Failed to fetch " +:+ book_1_url +:+ " after 3 tries"))).
Proof.
  split.
  - pose proof (fetch_three_attempts flaky_env book_1_url empty_world
                  (LibraryError "timed out") (LibraryError "timed out")
                  eq_refl eq_refl eq_refl) as (Ht & _ & _ & Hr & _).
    split; [exact Ht | exact Hr].
  - pose proof (fetch_three_attempts down_env book_1_url empty_world
                  (LibraryError "connection refused")
                  (LibraryError "connection refused")
                  eq_refl eq_refl eq_refl) as (Ht & _ & _ & Hr & _).
    split; [exact Ht | exact Hr].
Defined.

End FetchExample.

(** ** get_all_book_links *)

Section UniqFacts.










End UniqFacts.

Section DiscoveryFacts.
Context `{RT : Runtime}.
Variable E : env.




End DiscoveryFacts.


Module DiscoveryExample.
Import Examples.
#[local] Existing Instance test_runtime.


End DiscoveryExample.

(** ** Classification *)

Section ClassifyFacts.
Context `{RT : Runtime}.

Lemma find_one_truthy (c : gmap value doc) (k : value) (ex : doc) :
  find_one c k = Some ex → dict_truthy ex = true.
Proof.
  unfold find_one. destruct (c !! k) as [d|]; [|discriminate].
  intros [= <-]. apply bool_decide_eq_true. apply insert_non_empty.
Qed.

Lemma find_one_None (c : gmap value doc) (k : value) :
  find_one c k = None ↔ c !! k = None.
Proof. unfold find_one. by destruct (c !! k). Qed.

Lemma changed_fields_of_lookup (ex book_data : doc) key old new :
  changed_fields_of ex book_data !! key = Some (old, new)
  ↔ book_data !! key = Some new ∧ old = dict_get ex key
    ∧ compared key ∧ py_eq old new = false.
Proof.
  unfold changed_fields_of, compared. rewrite map_lookup_imap.
  destruct (book_data !! key) as [v|]; simpl;
    [|split; [discriminate | by intros ([=] & _)]].
  destruct (decide (key = "raw_snapshot_id" ∨ key = "content_hash")) as [Hk|Hk].
  - split; [discriminate|]. intros (_ & _ & [] & _); tauto.
  - destruct (py_eq (dict_get ex key) v) eqn:Heq.
    + split; [discriminate|]. intros ([= <-] & -> & _ & Hne). congruence.
    + split.
      * intros [= <- <-]. repeat split; tauto.
      * by intros ([= <-] & -> & _ & _).
Qed.



End ClassifyFacts.

Module ClassifyExample.
Import Examples.
#[local] Existing Instance test_runtime.



End ClassifyExample.

(** ** parse_book *)

Section ParseFacts.
Context `{RT : Runtime}.
Variable E : env.

Lemma parse_table_ok rows table w :
  Forall row_ok rows → parse_table rows table w = (Ret (table_of rows table), w).
Proof.
  intros Hrows. revert table.
  induction Hrows as [|[th td] rows Hrow _ IH]; intros table; [done|].
  destruct Hrow as [[h Hh] [d Hd]]. simpl in Hh, Hd. subst th td.
  simpl. rewrite !bind_unfold. simpl. apply IH.
Qed.

Lemma parse_table_bad rows table w :
  ¬ Forall row_ok rows → parse_table rows table w = (Raise no_get_text, w).
Proof.
  revert table. induction rows as [|[th td] rows IH]; intros table Hbad.
  - destruct Hbad. constructor.
  - simpl. destruct th as [h|]; [|done]. destruct td as [d|]; [|done].
    rewrite !bind_unfold. simpl. apply IH. intros Hrows. apply Hbad.
    constructor; [|done]. split; by eexists.
Qed.

Lemma parse_book_eval html url w :
  parse_book E html url w =
    let s := BeautifulSoup html in
    match product_page s with
    | Some None => (Raise no_get_text, w)
    | product =>
        if decide (Forall row_ok (table_rows s)) then
          match int_of_str (review_count_text s) with
          | None => (Raise (ValueError "invalid literal for int()"), w)
          | Some n =>
              match book_id_of_url url with
              | Raise e => (Raise e, w)
              | Ret bid =>
                  (Ret (book_document s url (title_of product)
                          (table_of (table_rows s) ∅) n bid
                          (utcnow_isoformat E (tick w) +:+ "Z"), html),
                   (next_tick w).2)
              end
          end
        else (Raise no_get_text, w)
    end.
Proof.
  unfold parse_book, review_count_text. cbv zeta.
  set (s := BeautifulSoup html).
  assert (∀ title : value,
    (table ← parse_table (table_rows s) ∅;
     num_reviews ← match int_of_str (default "0" (table !! "Number of reviews")) with
                   | Some n => mret n
                   | None => raise (ValueError "invalid literal for int()")
                   end;
     bid ← lift (book_id_of_url url);
     ts ← now_z E;
     mret (book_document s url title table num_reviews bid ts, html)) w =
    if decide (Forall row_ok (table_rows s)) then
      match int_of_str (default "0" (table_of (table_rows s) ∅ !! "Number of reviews")) with
      | None => (Raise (ValueError "invalid literal for int()"), w)
      | Some n =>
          match book_id_of_url url with
          | Raise e => (Raise e, w)
          | Ret bid =>
              (Ret (book_document s url title (table_of (table_rows s) ∅) n bid
                      (utcnow_isoformat E (tick w) +:+ "Z"), html),
               (next_tick w).2)
          end
      end
    else (Raise no_get_text, w)) as Hrest.
  { intros title. rewrite bind_unfold.
    destruct (decide (Forall row_ok (table_rows s))) as [Hrows|Hrows].
    - rewrite parse_table_ok by done.
      destruct (int_of_str _) as [n|]; [|done].
      rewrite bind_unfold. simpl. rewrite bind_unfold. unfold lift at 1.
      by destruct (book_id_of_url url).
    - by rewrite parse_table_bad. }
  destruct (product_page s) as [[t|]|]; rewrite bind_unfold; simpl;
    [apply Hrest | done | apply Hrest].
Qed.
End ParseFacts.

(** ** process_book *)

Ltac bind_inv H :=
  let a := fresh "a" in
  let w := fresh "w" in
  let Ha := fresh "Hstep" in
  apply bind_Ret_inv in H as (a & w & Ha & H).

Section ProcessFacts.
Context `{RT : Runtime}.
Variable E : env.

Lemma read_only_parse_book html url : read_only (parse_book E html url).
Proof.
  intros w. rewrite parse_book_eval. cbv zeta.
  destruct (product_page _) as [[t|]|]; try done;
    (destruct (decide _); [|done]);
    (destruct (int_of_str _); [|done]);
    by destruct (book_id_of_url url).
Qed.

Lemma parse_book_Ret html url w data html' w' :
  parse_book E html url w = (Ret (data, html'), w') →
  html' = html
  ∧ ∃ bid, book_id_of_url url = Ret bid ∧ data !! "_id" = Some (PyStr bid)
           ∧ is_Some (data !! "content_hash")
           ∧ data !! "title" = Some (title_of (product_page (BeautifulSoup html)))
           ∧ page_parses (BeautifulSoup html) url.
Proof.
  rewrite parse_book_eval. cbv zeta. unfold page_parses.
  destruct (product_page _) as [[t|]|] eqn:Hp; try discriminate;
    (destruct (decide _) as [Hrows|]; [|discriminate]);
    (destruct (int_of_str _) as [n|] eqn:Hn; [|discriminate]);
    (destruct (book_id_of_url url) as [bid|] eqn:Hid; [|discriminate]);
    intros [= <- <- <-]; (split; [done|]); exists bid;
    repeat split; try done; eauto.
Qed.

Lemma books_find_one_Ret k w existing w' :
  books_find_one E k w = (Ret existing, w') →
  existing = find_one (books w) k ∧ stores w' = stores w.
Proof.
  unfold books_find_one. intros H. bind_inv H.
  apply db_op_Ret in Hstep as (_ & _ & Hst & _).
  simpl in H. injection H as <- <-. split; [|done].
  by injection Hst as ->.
Qed.

Lemma insert_snapshot_Ret snap w id w' :
  insert_snapshot E snap w = (Ret id, w') →
  books w' = books w ∧ change_log w' = change_log w
  ∧ book_snapshots w' = book_snapshots w ++ [(id, snap)].
Proof.
  unfold insert_snapshot. intros H. bind_inv H.
  apply db_op_Ret in Hstep as (-> & _ & Hst & _).
  injection Hst as Hb Hs Hc.
  simpl in H. injection H as <- <-. simpl. by rewrite Hb, Hs, Hc.
Qed.

Lemma process_book_caught url w e w1 :
  process_book_body E url w = (Raise e, w1) →
  process_book E url w
    = (Ret None, (emit (EvLog ERROR (FailedProcessMsg url e)) w1).2).
Proof.
  intros H. unfold process_book. rewrite bind_unfold. unfold try_ at 1.
  rewrite H. by rewrite bind_unfold.
Qed.

Lemma process_book_passed url w r w1 :
  process_book_body E url w = (Ret r, w1) →
  process_book E url w = (Ret r, w1).
Proof.
  intros H. unfold process_book. rewrite bind_unfold. unfold try_ at 1.
  by rewrite H.
Qed.

Lemma process_book_total url w :
  ∃ r w', process_book E url w = (Ret r, w').
Proof.
  destruct (process_book_body E url w) as [[r|e] w1] eqn:H.
  - rewrite (process_book_passed _ _ _ _ H). eauto.
  - rewrite (process_book_caught _ _ _ _ H). eauto.
Qed.

Lemma process_book_Some_body url w c w' :
  process_book E url w = (Ret (Some c), w') →
  process_book_body E url w = (Ret (Some c), w').
Proof.
  destruct (process_book_body E url w) as [[r|e] w1] eqn:H.
  - rewrite (process_book_passed _ _ _ _ H). by intros [= <- <-].
  - rewrite (process_book_caught _ _ _ _ H). discriminate.
Qed.

Lemma process_book_body_Some url w c w' :
  process_book_body E url w = (Ret (Some c), w') →
  fresh_change c
  ∧ ∃ bid, book_id_of_url url = Ret bid ∧ book_id c = PyStr bid.
Proof.
  unfold process_book_body. intros H.
  bind_inv H. bind_inv H. destruct a0 as [book_data snapshot_html].
  apply parse_book_Ret in Hstep0 as (-> & bid & Hbid & Hid & _).
  simpl in H. bind_inv H. unfold lift, getitem in Hstep0. rewrite Hid in Hstep0.
  injection Hstep0 as <- <-.
  bind_inv H. bind_inv H. destruct a1 as [|changed|].
  - bind_inv H. discriminate.
  - do 5 bind_inv H. injection H as <- <-.
    apply change_log_insert_one_Ret in Hstep6 as (_ & _ & _ & Hr & Hb & Ht & Hf).
    simpl in *. split; [|eauto]. split; [done|]. right. rewrite Hf. eauto.
  - do 5 bind_inv H. injection H as <- <-.
    apply log_change_entry_Ret in Hstep5 as (_ & _ & _ & Hr & Hb & Ht & Hf).
    split; [|eauto]. split; [done|]. by left.
Qed.

End ProcessFacts.

Section ProcessClaims.
Context `{RT : Runtime}.
Variable E : env.

Lemma process_book_body_fetch_failed url w e w1 :
  fetch E url w = (Raise e, w1) → process_book_body E url w = (Raise e, w1).
Proof. intros H. unfold process_book_body. by rewrite (bind_Raise_step _ _ _ _ _ H). Qed.

Lemma process_book_body_parse_failed url w html w1 e w2 :
  fetch E url w = (Ret html, w1) →
  parse_book E html url w1 = (Raise e, w2) →
  process_book_body E url w = (Raise e, w2).
Proof.
  intros Hf Hp. unfold process_book_body.
  rewrite (bind_Ret_step _ _ _ _ _ Hf). by rewrite (bind_Raise_step _ _ _ _ _ Hp).
Qed.

Lemma process_book_body_find_failed url w html w1 book_data html' w2 bid e w3 :
  fetch E url w = (Ret html, w1) →
  parse_book E html url w1 = (Ret (book_data, html'), w2) →
  book_data !! "_id" = Some bid →
  books_find_one E bid w2 = (Raise e, w3) →
  process_book_body E url w = (Raise e, w3).
Proof.
  intros Hf Hp Hid Hfind. unfold process_book_body.
  rewrite (bind_Ret_step _ _ _ _ _ Hf), (bind_Ret_step _ _ _ _ _ Hp).
  simpl. rewrite bind_unfold. unfold lift at 1, getitem. rewrite Hid.
  by rewrite (bind_Raise_step _ _ _ _ _ Hfind).
Qed.

(** C8: when the page is fetched and parsed, and the record found under
    its id carries a fingerprint equal to the new one, [process_book]
    returns no change entry, and the books, the snapshots and the change
    log are what they were. *)
Theorem unchanged_item_writes_nothing
    url w html w1 book_data html' w2 bid ex w3 h :
  fetch E url w = (Ret html, w1) →
  parse_book E html url w1 = (Ret (book_data, html'), w2) →
  book_data !! "_id" = Some bid →
  books_find_one E bid w2 = (Ret (Some ex), w3) →
  book_data !! "content_hash" = Some h →
  py_eq (dict_get ex "content_hash") h = true →
  classify (Some ex) book_data = Ret Unchanged
  ∧ process_book E url w
      = (Ret None, (emit (EvLog INFO (NoChangesMsg (py_str bid))) w3).2)
  ∧ books (process_book E url w).2 = books w
  ∧ book_snapshots (process_book E url w).2 = book_snapshots w
  ∧ change_log (process_book E url w).2 = change_log w.
Proof.
  intros Hf Hp Hid Hfind Hh Heq.
  pose proof (books_find_one_Ret E _ _ _ _ Hfind) as [Hex Hst3].
  assert (classify (Some ex) book_data = Ret Unchanged) as Hcls.
  { unfold classify, getitem. rewrite Hh, Heq.
    by rewrite (find_one_truthy (books w2) bid ex). }
  assert (process_book E url w
          = (Ret None, (emit (EvLog INFO (NoChangesMsg (py_str bid))) w3).2)) as Hrun.
  { apply process_book_passed. unfold process_book_body.
    rewrite (bind_Ret_step _ _ _ _ _ Hf), (bind_Ret_step _ _ _ _ _ Hp).
    simpl. rewrite bind_unfold. unfold lift at 1, getitem at 1. rewrite Hid.
    rewrite (bind_Ret_step _ _ _ _ _ Hfind).
    rewrite bind_unfold. unfold lift at 1. by rewrite Hcls. }
  split; [done|]. split; [done|]. rewrite Hrun. simpl.
  pose proof (read_only_fetch E url w) as Hst1. rewrite Hf in Hst1.
  pose proof (read_only_parse_book E html url w1) as Hst2. rewrite Hp in Hst2.
  simpl in Hst1, Hst2.
  assert (stores w3 = stores w) as Hst by congruence.
  by injection Hst as -> -> ->.
Qed.

Lemma mapM_process_book links w :
  ∃ results w',
    mapM (process_book E) links w = (Ret results, w')
    ∧ Forall2 (λ u r, ∃ wa wb, process_book E u wa = (Ret r, wb)) links results.
Proof.
  revert w. induction links as [|u links IH]; intros w.
  - exists [], w. split; [done|constructor].
  - destruct (process_book_total E u w) as (r & w1 & Hr).
    destruct (IH w1) as (rs & w2 & Hrs & Hall).
    exists (r :: rs), w2. split.
    + simpl. rewrite (bind_Ret_step _ _ _ _ _ Hr).
      by rewrite (bind_Ret_step _ _ _ _ _ Hrs).
    + constructor; eauto.
Qed.

Lemma process_book_Some url w c w' :
  process_book E url w = (Ret (Some c), w') →
  fresh_change c ∧ produced_for E url c.
Proof.
  intros H. pose proof (process_book_Some_body E _ _ _ _ H) as Hbody.
  apply process_book_body_Some in Hbody as (Hfresh & bid & Hbid & Hc).
  split; [done|]. by exists w, w', bid.
Qed.

Lemma results_fresh
    (links : list string) (results : list (option change_record)) :
  Forall2 (λ u r, ∃ wa wb, process_book E u wa = (Ret r, wb)) links results →
  Forall fresh_change (omap id results).
Proof.
  induction 1 as [|u r links results (wa & wb & Hr) _ IH]; [constructor|].
  destruct r as [c|]; simpl; [|done].
  constructor; [|done]. by apply process_book_Some in Hr as [? _].
Qed.


Lemma results_position
    (links : list string) (results : list (option change_record)) :
  Forall2 (λ u r, ∃ wa wb, process_book E u wa = (Ret r, wb)) links results →
  ∀ i c, omap id results !! i = Some c →
    ∃ p u, links !! p = Some u ∧ produced_for E u c.
Proof.
  induction 1 as [|u r links results (wa & wb & Hr) _ IH]; intros i c Hi.
  - done.
  - destruct r as [c0|]; simpl in Hi.
    + destruct i as [|i]; simpl in Hi.
      * injection Hi as ->. exists 0%nat, u. split; [done|].
        by apply process_book_Some in Hr as [_ ?].
      * destruct (IH i c Hi) as (p & u' & Hp & Hprod).
        exists (S p), u'. by split.
    + destruct (IH i c Hi) as (p & u' & Hp & Hprod).
      exists (S p), u'. by split.
Qed.



End ProcessClaims.

Section RunClaims.
Context `{RT : Runtime}.
Variable E : env.

(** C9: [process_book] never raises; whenever its [try] block raises, at
    whatever step (the fetch that ran out of attempts, the parse, a database
    operation), the exception is logged with the URL and the result is
    [None]; so a run whose age-out and discovery succeed returns normally,
    with one result per link, and its change list holds only entries that
    some item returned, each of type new or updated and flagged new. *)
Theorem item_failures_are_contained :
  (∀ url w, ∃ r w', process_book E url w = (Ret r, w'))
  ∧ (∀ url w e w1,
       process_book_body E url w = (Raise e, w1) →
       process_book E url w
         = (Ret None, (emit (EvLog ERROR (FailedProcessMsg url e)) w1).2))
  ∧ (∀ url w e w1,
       fetch E url w = (Raise e, w1) →
       process_book_body E url w = (Raise e, w1))
  ∧ (∀ url w html w1 e w2,
       fetch E url w = (Ret html, w1) →
       parse_book E html url w1 = (Raise e, w2) →
       process_book_body E url w = (Raise e, w2))
  ∧ (∀ url w html w1 book_data html' w2 bid e w3,
       fetch E url w = (Ret html, w1) →
       parse_book E html url w1 = (Ret (book_data, html'), w2) →
       book_data !! "_id" = Some bid →
       books_find_one E bid w2 = (Raise e, w3) →
       process_book_body E url w = (Raise e, w3))
  ∧ (∀ fuel w u w1 links w2,
       mark_all_changes_as_old E w = (Ret u, w1) →
       get_all_book_links E fuel w1 = Some (Ret links, w2) →
       ∃ results w',
         run E fuel w = Some (Ret (omap id results), w')
         ∧ Forall2 (λ u r, ∃ wa wb, process_book E u wa = (Ret r, wb))
             links results
         ∧ Forall fresh_change (omap id results)
         ∧ Forall (λ c, ∃ u, u ∈ links ∧ produced_for E u c) (omap id results)).
Proof.
  split; [apply process_book_total|].
  split; [apply process_book_caught|].
  split; [apply process_book_body_fetch_failed|].
  split; [apply process_book_body_parse_failed|].
  split; [apply process_book_body_find_failed|].
  intros fuel w u w1 links w2 Hold Hlinks. unfold run. rewrite Hold, Hlinks.
  rewrite bind_unfold. cbn [emit].
  set (w3 := World _ _ _ _ _).
  destruct (mapM_process_book E links w3) as (results & w4 & Hres & Hall).
  exists results, w4. rewrite (bind_Ret_step _ _ _ _ _ Hres).
  split; [done|]. split; [done|]. split; [by eapply results_fresh|].
  apply Forall_forall. intros c Hc.
  apply list_elem_of_lookup in Hc as [i Hi].
  destruct (results_position E _ _ Hall i c Hi) as (p & u' & Hp & Hprod).
  exists u'. split; [|done]. apply list_elem_of_lookup. eauto.
Qed.



End RunClaims.

Module ProcessExample.
Import Examples.
#[local] Existing Instance test_runtime.

Lemma unchanged_item_writes_nothing_witness :
  classify (Some stored_book_1) second_record = Ret Unchanged
  ∧ process_book test_env book_1_url crawled_world
      = (Ret None, (emit (EvLog INFO (NoChangesMsg (py_str (PyStr "book_1")))) second_find.2).2)
  ∧ books (process_book test_env book_1_url crawled_world).2 = books crawled_world
  ∧ book_snapshots (process_book test_env book_1_url crawled_world).2
      = book_snapshots crawled_world
  ∧ change_log (process_book test_env book_1_url crawled_world).2
      = change_log crawled_world.
Proof.
  apply (unchanged_item_writes_nothing test_env book_1_url crawled_world
           "<detail full>" second_fetch.2 second_record "<detail full>"
           second_parse.2 (PyStr "book_1") stored_book_1 second_find.2
           (dict_get second_record "content_hash")); reflexivity.
Defined.

Lemma item_failures_are_contained_witness :
  process_book test_env book_3_url empty_world
    = (Ret None,
       (emit (EvLog ERROR (FailedProcessMsg book_3_url no_get_text))
          book_3_fetched).2)
  ∧ ∃ results w',
      run test_env 5 empty_world = Some (Ret (omap id results), w')
      ∧ Forall2 (λ u r, ∃ wa wb, process_book test_env u wa = (Ret r, wb))
          three_links results
      ∧ Forall fresh_change (omap id results)
      ∧ Forall (λ c, ∃ u, u ∈ three_links ∧ produced_for test_env u c)
          (omap id results).
Proof.
  destruct (item_failures_are_contained test_env)
    as (_ & Hcaught & _ & _ & _ & Hrun).
  split.
  - apply Hcaught. reflexivity.
  - apply (Hrun 5%nat empty_world tt aged_world three_links discovered_world);
      reflexivity.
Defined.




End ProcessExample.

(** * Further properties *)

(** ** fetch, for any number of attempts *)

Section FetchMore.
Context `{RT : Runtime}.
Variable E : env.

Lemma after_events_refl (w : world) : after_events w 0 [] w.
Proof.
  unfold after_events. by rewrite Nat.add_0_r, app_nil_r.
Qed.

Lemma after_events_advance (w w' : world) (n : nat) (evs more : list event) :
  after_events (advance w evs) n more w' →
  after_events w (S n) (evs ++ more) w'.
Proof.
  unfold after_events, advance. simpl. intros (Ht & Hs & Htr).
  rewrite Ht, Hs, Htr, app_assoc. repeat split; try done; lia.
Qed.

Lemma fetch_attempts_all_failed (url : string) (n : nat) :
  ∀ (i : nat) (w : world),
    (∀ k, (k < n)%nat → ∃ e, http_get E (tick w + k) url = HttpFail e) →
    ∃ evs w',
      fetch_attempts E url (Z.of_nat <$> seq i n) w
        = (Raise (Exception ("Failed to fetch " +:+ url +:+ " after "
                             +:+ pretty (RETRIES E) +:+ " tries")), w')
      ∧ after_events w n evs w'
      ∧ requests evs = replicate n url
      ∧ sleeps evs = (λ a, 1 + a * 2) <$> (Z.of_nat <$> seq i n).
Proof.
  induction n as [|n IH]; intros i w Hfail.
  - exists [], w. simpl. split; [done|]. split; [apply after_events_refl|done].
  - destruct (Hfail 0%nat) as [e He]; [lia|]. rewrite Nat.add_0_r in He.
    change (seq i (S n)) with (i :: seq (S i) n). rewrite !fmap_cons.
    rewrite (fetch_attempts_failed E url _ _ w e He).
    destruct (IH (S i) (advance w (failed_attempt url (Z.of_nat i) e)))
      as (evs & w' & Hrun & Hafter & Hreq & Hsl).
    { intros k Hk. simpl. destruct (Hfail (S k)) as [e' He']; [lia|].
      exists e'. by rewrite <-Nat.add_succ_r. }
    exists (failed_attempt url (Z.of_nat i) e ++ evs), w'.
    split; [done|]. split; [by apply after_events_advance|].
    split; simpl; by f_equal.
Qed.

Lemma fetch_attempts_first_answer (url text : string) (k : nat) :
  ∀ (i : nat) (rest : list Z) (w : world),
    (∀ j, (j < k)%nat → ∃ e, http_get E (tick w + j) url = HttpFail e) →
    http_get E (tick w + k) url = HttpOk text →
    ∃ evs w',
      fetch_attempts E url ((Z.of_nat <$> seq i (S k)) ++ rest) w = (Ret text, w')
      ∧ after_events w (S k) evs w'
      ∧ requests evs = replicate (S k) url
      ∧ sleeps evs = (λ a, 1 + a * 2) <$> (Z.of_nat <$> seq i k).
Proof.
  induction k as [|k IH]; intros i rest w Hfail Hok.
  - rewrite Nat.add_0_r in Hok.
    change (seq i 1) with [i]. rewrite fmap_cons. cbn [fmap list_fmap app].
    rewrite (fetch_attempts_answered E url _ _ w text Hok).
    exists [EvGet url], (advance w [EvGet url]). split; [done|].
    split; [|done]. unfold after_events, advance. simpl.
    repeat split; try done; lia.
  - destruct (Hfail 0%nat) as [e He]; [lia|]. rewrite Nat.add_0_r in He.
    change (seq i (S (S k))) with (i :: seq (S i) (S k)).
    rewrite fmap_cons, <-app_comm_cons.
    change (seq i (S k)) with (i :: seq (S i) k). rewrite !fmap_cons.
    rewrite (fetch_attempts_failed E url _ _ w e He).
    destruct (IH (S i) rest (advance w (failed_attempt url (Z.of_nat i) e)))
      as (evs & w' & Hrun & Hafter & Hreq & Hsl).
    { intros j Hj. simpl. destruct (Hfail (S j)) as [e' He']; [lia|].
      exists e'. by rewrite <-Nat.add_succ_r. }
    { simpl. by rewrite <-Nat.add_succ_r. }
    exists (failed_attempt url (Z.of_nat i) e ++ evs), w'.
    split; [done|]. split; [by apply after_events_advance|].
    split; simpl; by f_equal.
Qed.

End FetchMore.

Section FetchTheorems.
Context `{RT : Runtime}.
Variable E : env.

(** X1: When every request of a fetch fails, [fetch] raises after as many
    requests as [RETRIES] allows, none when [RETRIES] is zero or negative;
    it sleeps 1, 3, 5, ... seconds after the failures (linear backoff) and
    writes to no collection. *)
Theorem fetch_exhausts_all_attempts (url : string) (w : world) :
  (∀ k, (k < Z.to_nat (RETRIES E))%nat →
        ∃ e, http_get E (tick w + k) url = HttpFail e) →
  ∃ evs w',
    fetch E url w
      = (Raise (Exception ("Failed to fetch " +:+ url +:+ " after "
                           +:+ pretty (RETRIES E) +:+ " tries")), w')
    ∧ after_events w (Z.to_nat (RETRIES E)) evs w'
    ∧ requests evs = replicate (Z.to_nat (RETRIES E)) url
    ∧ sleeps evs = (λ a, 1 + a * 2) <$> range (RETRIES E)
    ∧ (RETRIES E ≤ 0 → evs = [] ∧ w' = w).
Proof.
  intros Hfail.
  destruct (fetch_attempts_all_failed E url _ 0%nat w Hfail)
    as (evs & w' & Hrun & Hafter & Hreq & Hsl).
  exists evs, w'. do 4 (split; [done|]). intros Hn.
  assert (w' = w) as ->.
  { replace (Z.to_nat (RETRIES E)) with 0%nat in Hrun by lia.
    simpl in Hrun. by injection Hrun. }
  split; [|done]. destruct Hafter as (_ & _ & Htr).
  apply (app_inv_head (trace w)). by rewrite app_nil_r.
Qed.

(** X2: [fetch] returns the first response that succeeds: when the first [k]
    requests fail and the next one succeeds, with [k] less than [RETRIES],
    it returns that response after exactly [k + 1] requests, having slept
    1, 3, ..., 2k - 1 seconds, and writes to no collection. *)
Theorem fetch_returns_first_answer (url text : string) (k : nat) (w : world) :
  (k < Z.to_nat (RETRIES E))%nat →
  (∀ j, (j < k)%nat → ∃ e, http_get E (tick w + j) url = HttpFail e) →
  http_get E (tick w + k) url = HttpOk text →
  ∃ evs w',
    fetch E url w = (Ret text, w')
    ∧ after_events w (S k) evs w'
    ∧ requests evs = replicate (S k) url
    ∧ sleeps evs = (λ a, 1 + a * 2) <$> range (Z.of_nat k).
Proof.
  intros Hk Hfail Hok. unfold fetch, range.
  replace (Z.to_nat (RETRIES E)) with (S k + (Z.to_nat (RETRIES E) - S k))%nat by lia.
  rewrite seq_app, fmap_app, Nat2Z.id.
  by apply fetch_attempts_first_answer.
Qed.

End FetchTheorems.

Module FetchMoreExample.
Import Examples.
#[local] Existing Instance test_runtime.

Lemma fetch_exhausts_all_attempts_witness :
  ∃ evs w',
    fetch down_env book_1_url empty_world
      = (Raise (Exception ("Failed to fetch " +:+ book_1_url +:+ " after "
                           +:+ pretty (RETRIES down_env) +:+ " tries")), w')
    ∧ after_events empty_world (Z.to_nat (RETRIES down_env)) evs w'
    ∧ requests evs = replicate (Z.to_nat (RETRIES down_env)) book_1_url
    ∧ sleeps evs = (λ a, 1 + a * 2) <$> range (RETRIES down_env)
    ∧ (RETRIES down_env ≤ 0 → evs = [] ∧ w' = empty_world).
Proof.
  apply (fetch_exhausts_all_attempts down_env book_1_url empty_world).
  intros k _. by eexists.
Defined.

Lemma fetch_returns_first_answer_witness :
  ∃ evs w',
    fetch flaky_env book_1_url empty_world = (Ret "<detail full>", w')
    ∧ after_events empty_world 3 evs w'
    ∧ requests evs = replicate 3 book_1_url
    ∧ sleeps evs = (λ a, 1 + a * 2) <$> range (Z.of_nat 2).
Proof.
  apply (fetch_returns_first_answer flaky_env book_1_url "<detail full>"
           2%nat empty_world).
  - simpl. lia.
  - intros j Hj. exists (LibraryError "timed out").
    destruct j as [|[|j]]; [reflexivity|reflexivity|lia].
  - reflexivity.
Defined.

End FetchMoreExample.

(** ** Discovery that fails or does not end *)

Section DiscoveryMoreFacts.
Context `{RT : Runtime}.
Variable E : env.

Lemma listing_pages_stores fuel :
  ∀ page_url acc w r w',
    listing_pages E fuel page_url acc w = Some (r, w') → stores w' = stores w.
Proof.
  induction fuel as [|fuel IH]; intros page_url acc w r w' H; [discriminate|].
  cbn [listing_pages] in H. rewrite bind_unfold in H. cbn [emit] in H.
  set (w0 := World _ _ _ _ _) in H.
  pose proof (read_only_fetch E page_url w0) as Hst.
  destruct (fetch E page_url w0) as [[html|e] w1]; simpl in Hst.
  - destruct (next_link (BeautifulSoup html)) as [[href|]|].
    + destruct (decide (href = "")).
      * injection H as _ <-. done.
      * apply IH in H. by rewrite H.
    + injection H as _ <-. done.
    + injection H as _ <-. done.
  - injection H as _ <-. done.
Qed.

Lemma get_all_book_links_stores fuel w r w' :
  get_all_book_links E fuel w = Some (r, w') → stores w' = stores w.
Proof.
  unfold get_all_book_links.
  destruct (listing_pages E fuel (first_page_url E) [] w) as [[[links|e] w1]|] eqn:H;
    [| |discriminate]; intros [= _ <-]; by eapply listing_pages_stores.
Qed.

(** X3: When discovery raises (a listing page could not be fetched), [run]
    raises the same exception and processes no item: no book and no
    snapshot is written, and, the age-out having been done already, every
    entry of the change log is flagged old. *)
Theorem discovery_failure_aborts_run fuel w u w1 e w2 :
  mark_all_changes_as_old E w = (Ret u, w1) →
  get_all_book_links E fuel w1 = Some (Raise e, w2) →
  run E fuel w = Some (Raise e, w2)
  ∧ books w2 = books w
  ∧ book_snapshots w2 = book_snapshots w
  ∧ change_log w2 = (set_recent "old" <$> change_log w)
  ∧ filter is_new (change_log w2) = [].
Proof.
  intros Hold Hlinks. unfold run. rewrite Hold, Hlinks. split; [done|].
  apply mark_all_changes_as_old_Ret in Hold as (Hlog & Hb & Hs).
  apply get_all_book_links_stores in Hlinks. injection Hlinks as -> -> ->.
  rewrite Hlog. repeat split; try done. apply filter_new_aged.
Qed.



End DiscoveryMoreFacts.

Module DiscoveryMoreExample.
Import Examples MoreExamples.

Lemma discovery_failure_aborts_run_witness :
  @run test_runtime down_env 3 seeded_world = Some (Raise down_error, down_discovered)
  ∧ books down_discovered = books seeded_world
  ∧ book_snapshots down_discovered = book_snapshots seeded_world
  ∧ change_log down_discovered = (set_recent "old" <$> change_log seeded_world)
  ∧ filter is_new (change_log down_discovered) = [].
Proof.
  apply (@discovery_failure_aborts_run test_runtime down_env 3%nat seeded_world
           tt down_aged.2 down_error down_discovered); reflexivity.
Defined.


End DiscoveryMoreExample.

(** ** Ratings, prices and ids *)

Section ParsingFacts.
Context `{RT : Runtime}.

Lemma rating_mapping_range (c : string) (n : Z) :
  rating_mapping !! c = Some n → 1 ≤ n ≤ 5.
Proof.
  unfold rating_mapping. intros H.
  repeat (apply lookup_insert_Some in H as [[_ <-]|[_ H]]; [lia|]).
  apply lookup_singleton_Some in H as [_ <-]. lia.
Qed.

Lemma first_rating_Some (classes : list string) (n : Z) :
  first_rating classes = Some n
  ↔ ∃ pre c post, classes = pre ++ c :: post
                  ∧ rating_mapping !! c = Some n
                  ∧ Forall (λ x, rating_mapping !! x = None) pre.
Proof.
  induction classes as [|c classes IH]; simpl.
  - split; [discriminate|]. intros (pre & c & post & H & _). by destruct pre.
  - destruct (rating_mapping !! c) as [m|] eqn:Hc.
    + split.
      * intros [= ->]. exists [], c, classes. by repeat split.
      * intros (pre & c' & post & H & Hc' & Hpre). destruct pre as [|x pre].
        -- injection H as -> ->. congruence.
        -- injection H as -> ->. apply Forall_cons in Hpre as [Hx _]. congruence.
    + rewrite IH. split.
      * intros (pre & c' & post & -> & Hc' & Hpre).
        exists (c :: pre), c', post. repeat split; try done. by constructor.
      * intros (pre & c' & post & H & Hc' & Hpre). destruct pre as [|x pre].
        -- injection H as -> ->. congruence.
        -- injection H as -> ->. apply Forall_cons in Hpre as [_ Hpre].
           by exists pre, c', post.
Qed.

(** X5: [parse_rating] gives [None] or an integer from 1 to 5: the number of the
    first class of the star-rating element that is one of the words One,
    Two, Three, Four, Five; classes before it that are no such word are
    passed over, and without the element or such a class the rating is
    [None]. *)
Theorem parse_rating_range (s : soup) :
  (parse_rating s = PyNone ∨ ∃ n, 1 ≤ n ≤ 5 ∧ parse_rating s = PyInt n)
  ∧ (∀ n, parse_rating s = PyInt n
          ↔ ∃ classes pre c post,
              star_rating s = Some classes ∧ classes = pre ++ c :: post
              ∧ rating_mapping !! c = Some n
              ∧ Forall (λ x, rating_mapping !! x = None) pre)
  ∧ (star_rating s = None → parse_rating s = PyNone).
Proof.
  unfold parse_rating. destruct (star_rating s) as [classes|].
  - destruct (first_rating classes) as [n|] eqn:Hn; simpl.
    + split; [|split; [|done]].
      * right. exists n. split; [|done].
        apply first_rating_Some in Hn as (pre & c & post & _ & Hc & _).
        by eapply rating_mapping_range.
      * intros m. split.
        -- intros [= <-]. apply first_rating_Some in Hn as (pre & c & post & ? & ? & ?).
           by exists classes, pre, c, post.
        -- intros (cl & pre & c & post & [= <-] & Hcl & Hc & Hpre).
           assert (first_rating classes = Some m) as Hm.
           { apply first_rating_Some. by exists pre, c, post. }
           congruence.
    + split; [by left|]. split; [|done]. intros m. split; [discriminate|].
      intros (cl & pre & c & post & [= <-] & Hcl & Hc & Hpre).
      assert (first_rating classes = Some m) as Hm.
      { apply first_rating_Some. by exists pre, c, post. }
      congruence.
  - split; [by left|]. split; [|done]. intros m. split; [discriminate|].
    by intros (cl & pre & c & post & [=] & _).
Qed.

(** X6: The price read from a table cell depends only on the digits and points
    of the cell: two non-empty texts with the same digits and points, in
    the same order, give the same price, whatever currency signs, spaces or
    separators they hold; a missing cell and an empty one give [None]. *)
Theorem money_to_float_reads_digits_only (s t : string) :
  s ≠ "" → t ≠ "" →
  strip_non_numeric s = strip_non_numeric t →
  money_to_float (Some s) = money_to_float (Some t)
  ∧ money_to_float (Some s)
      = from_option PyFloat PyNone (float_of_str (strip_non_numeric s))
  ∧ money_to_float None = PyNone
  ∧ money_to_float (Some "") = PyNone.
Proof.
  intros Hs Ht Hst. unfold money_to_float.
  rewrite !decide_False by done. by rewrite Hst.
Qed.

End ParsingFacts.

Section IdFacts.




Context `{RT : Runtime}.


End IdFacts.

Module ParsingExample.
Import Examples.
#[local] Existing Instance test_runtime.

Lemma money_to_float_reads_digits_only_witness :
  money_to_float (Some "GBP 1,051.77") = money_to_float (Some "1051.77")
  ∧ money_to_float (Some "GBP 1,051.77")
      = from_option PyFloat PyNone (float_of_str (strip_non_numeric "GBP 1,051.77"))
  ∧ money_to_float None = PyNone
  ∧ money_to_float (Some "") = PyNone.
Proof.
  apply (money_to_float_reads_digits_only "GBP 1,051.77" "1051.77"); done.
Defined.

Lemma parse_rating_range_witness :
  parse_rating detail_full = PyInt 3 ∧ parse_rating empty_soup = PyNone.
Proof.
  destruct (parse_rating_range detail_full) as (_ & Hiff & _).
  destruct (parse_rating_range empty_soup) as (_ & _ & Hnone).
  split; [|by apply Hnone].
  apply Hiff. exists ["star-rating"; "Three"], ["star-rating"], "Three", [].
  repeat split. by constructor.
Defined.


End ParsingExample.

(** ** What the fingerprint cannot tell apart *)

Section FingerprintMore.
Context `{RT : Runtime}.

Lemma string_app_assoc (a b c : string) : (a +:+ b) +:+ c = a +:+ (b +:+ c).
Proof.
  induction a as [|x a IH]; [done|].
  change (String x ((a +:+ b) +:+ c) = String x (a +:+ (b +:+ c))).
  by f_equal.
Qed.

Lemma hash_input_texts (r1 r2 : doc) :
  Forall (λ k, field_text r1 k = field_text r2 k) hash_keys →
  hash_input r1 = hash_input r2.
Proof.
  intros Hagree. unfold hash_input. f_equal.
  apply map_ext_Forall. eapply Forall_impl; [exact Hagree|].
  intros k Hk. simpl in Hk. by rewrite !field_text_get.
Qed.

(** X8: The fingerprint sees a tracked field only through its text: two records
    whose tracked fields print alike have the same fingerprint, so a field
    that is [None] and one that is the text None, an integer and the text of
    its digits, a missing field and an empty text are not told apart. *)
Theorem fingerprint_sees_text_only (r1 r2 : doc) :
  Forall (λ k, field_text r1 k = field_text r2 k) hash_keys →
  compute_hash_for_book r1 = compute_hash_for_book r2.
Proof.
  intros Hagree. unfold compute_hash_for_book. by rewrite (hash_input_texts r1 r2).
Qed.

(** X9: The separator is not escaped: moving a part of the title that follows
    a vertical bar to the front of the description, before a vertical bar,
    leaves the fingerprint unchanged, so such a change of both fields is
    not detected. *)
Theorem fingerprint_separator_collision (r : doc) (a b c : string) :
  compute_hash_for_book
    (<["title" := PyStr (a +:+ "|" +:+ b)]> (<["description" := PyStr c]> r))
  = compute_hash_for_book
      (<["title" := PyStr a]> (<["description" := PyStr (b +:+ "|" +:+ c)]> r)).
Proof.
  unfold compute_hash_for_book. f_equal. rewrite !hash_input_fields.
  unfold field_text. simplify_map_eq. simpl.
  by rewrite !string_app_assoc.
Qed.

End FingerprintMore.

Module FingerprintMoreExample.
Import Examples.
#[local] Existing Instance test_runtime.

Lemma fingerprint_sees_text_only_witness :
  compute_hash_for_book
    ({[ "title" := PyStr "None"; "num_reviews" := PyStr "3"; "rating" := PyStr "" ]} : doc)
  = compute_hash_for_book
      ({[ "title" := PyNone; "num_reviews" := PyInt 3 ]} : doc).
Proof.
  apply fingerprint_sees_text_only. repeat constructor.
Defined.

End FingerprintMoreExample.


(** ** What an item and a run write *)

Section ProcessMore.
Context `{RT : Runtime}.
Variable E : env.

Lemma bind_cases {A B} (m : M A) (f : A → M B) w res w' :
  (m ≫= f) w = (res, w') →
  (∃ e, m w = (Raise e, w') ∧ res = Raise e)
  ∨ (∃ a w1, m w = (Ret a, w1) ∧ f a w1 = (res, w')).
Proof.
  rewrite bind_unfold. destruct (m w) as [[a|e] w1]; intros H; [right; eauto|left].
  injection H as <- <-. eauto.
Qed.

Lemma read_only_at {A} (m : M A) w res w' :
  read_only m → m w = (res, w') →
  books w' = books w ∧ book_snapshots w' = book_snapshots w
  ∧ change_log w' = change_log w.
Proof.
  intros Hro H. specialize (Hro w). rewrite H in Hro. simpl in Hro.
  by injection Hro as -> -> ->.
Qed.

Lemma insert_snapshot_any snap w res w' :
  insert_snapshot E snap w = (res, w') →
  books w' = books w ∧ change_log w' = change_log w
  ∧ book_snapshots w' =
      book_snapshots w ++ match res with Ret id => [(id, snap)] | Raise _ => [] end.
Proof.
  destruct res as [id|e]; intros H.
  - by apply insert_snapshot_Ret in H.
  - unfold insert_snapshot in H. apply bind_cases in H as [(e' & H & _)|(n & w1 & _ & H)].
    + apply (read_only_at _ _ _ _ (read_only_db_op E)) in H as (-> & -> & ->).
      by rewrite app_nil_r.
    + done.
Qed.

Lemma upsert_book_any (book_dict : doc) k w res w' :
  book_dict !! "_id" = Some k →
  upsert_book E book_dict w = (res, w') →
  book_snapshots w' = book_snapshots w ∧ change_log w' = change_log w
  ∧ books w' = match res with
               | Ret _ => update_one_set_upsert (books w) k book_dict
               | Raise _ => books w
               end.
Proof.
  intros Hid. destruct res as [u|e]; intros H.
  - by apply (upsert_book_Ret E _ k) in H as (-> & -> & ->).
  - unfold upsert_book in H. rewrite Hid in H.
    apply bind_cases in H as [(e' & H & _)|(n & w1 & _ & H)]; [|done].
    by apply (read_only_at _ _ _ _ (read_only_db_op E)) in H as (-> & -> & ->).
Qed.

Lemma change_log_insert_one_any c w res w' :
  change_log_insert_one E c w = (res, w') →
  books w' = books w ∧ book_snapshots w' = book_snapshots w
  ∧ change_log w' =
      change_log w ++ match res with Ret c' => [c'] | Raise _ => [] end.
Proof.
  destruct res as [c'|e]; intros H.
  - by apply change_log_insert_one_Ret in H as (-> & -> & -> & _).
  - unfold change_log_insert_one in H.
    apply bind_cases in H as [(e' & H & _)|(n & w1 & _ & H)]; [|done].
    apply (read_only_at _ _ _ _ (read_only_db_op E)) in H as (-> & -> & ->).
    by rewrite app_nil_r.
Qed.

Lemma log_change_entry_any bid ctype w res w' :
  log_change_entry E bid ctype w = (res, w') →
  books w' = books w ∧ book_snapshots w' = book_snapshots w
  ∧ change_log w' =
      change_log w ++ match res with Ret c' => [c'] | Raise _ => [] end.
Proof.
  unfold log_change_entry. intros H.
  apply bind_cases in H as [(e' & H & _)|(ts & w1 & Hts & H)]; [done|].
  apply (read_only_at _ _ _ _ (read_only_now E)) in Hts as (Hb & Hs & Hc).
  apply change_log_insert_one_any in H as (-> & -> & ->).
  by rewrite Hb, Hs, Hc.
Qed.


Lemma read_only_eq {A} (m : M A) w res w' :
  read_only m → m w = (res, w') → stores w' = stores w.
Proof. intros Hro H. specialize (Hro w). by rewrite H in Hro. Qed.

Lemma item_writes_nothing url (w w' : world) :
  stores w' = stores w → item_writes url None w w'.
Proof.
  intros [= Hb Hs Hc]. split; [by rewrite app_nil_r|]. split; [|by left].
  exists []. rewrite app_nil_r. split; [done|]. split; [simpl; lia|constructor].
Qed.

(** Logging an entry and returning it, as both writing cases end. *)
Lemma log_and_return_writes (logit : M change_record) (msg : log_msg) w r w' :
  (∀ wa r wb, logit wa = (r, wb) →
     books wb = books wa ∧ book_snapshots wb = book_snapshots wa
     ∧ change_log wb = change_log wa ++ match r with Ret c => [c] | Raise _ => [] end) →
  (change_record ← logit;
   emit (EvLog INFO msg);;
   mret (Some change_record)) w = (r, w') →
  books w' = books w ∧ book_snapshots w' = book_snapshots w
  ∧ change_log w' =
      change_log w ++ option_list (match r with Ret r => r | Raise _ => None end).
Proof.
  intros Hlog H.
  apply bind_cases in H as [(e & H & ->)|(c & w1 & Hc & H)].
  - by apply Hlog in H.
  - apply Hlog in Hc as (Hb & Hs & Hc).
    rewrite bind_unfold in H. simpl in H. injection H as <- <-. simpl.
    by rewrite Hb, Hs, Hc.
Qed.

(** The part of [process_book] after the classification, common to the
    two cases that write. *)
Lemma persist_writes url html (book_data : doc) (b : string)
    (rest : M (option change_record)) w res w' :
  book_data !! "_id" = Some (PyStr b) →
  book_id_of_url url = Ret b →
  (∀ wa r wb, rest wa = (r, wb) →
     books wb = books wa ∧ book_snapshots wb = book_snapshots wa
     ∧ change_log wb =
         change_log wa ++ option_list (match r with Ret r => r | Raise _ => None end)) →
  (ts ← now_z E;
   snap_id ← insert_snapshot E (Snapshot url html ts);
   upsert_book E (<["raw_snapshot_id" := PyStr snap_id]> book_data);;
   rest) w = (res, w') →
  item_writes url (match res with Ret r => r | Raise _ => None end) w w'.
Proof.
  intros Hid Hb Hrest H.
  apply bind_cases in H as [(e & H & ->)|(ts & w1 & Hts & H)]; [done|].
  apply (read_only_at _ _ _ _ (read_only_now E)) in Hts as (Hb1 & Hs1 & Hc1).
  apply bind_cases in H as [(e & H & ->)|(sid & w2 & Hsnap & H)].
  { apply insert_snapshot_any in H as (Hb2 & Hc2 & Hs2). rewrite app_nil_r in Hs2.
    apply item_writes_nothing. unfold stores. congruence. }
  apply insert_snapshot_any in Hsnap as (Hb2 & Hc2 & Hs2).
  assert ((<["raw_snapshot_id" := PyStr sid]> book_data) !! "_id" = Some (PyStr b))
    as Hid' by by rewrite lookup_insert_ne.
  apply bind_cases in H as [(e & H & ->)|(u & w3 & Hup & H)].
  { apply (upsert_book_any _ _ _ _ _ Hid') in H as (Hs3 & Hc3 & Hb3).
    split; [rewrite app_nil_r; congruence|]. split; [|left; congruence].
    eexists. split; [rewrite Hs3, Hs2, Hs1; done|]. split; [simpl; lia|].
    by repeat constructor. }
  apply (upsert_book_any _ _ _ _ _ Hid') in Hup as (Hs3 & Hc3 & Hb3).
  assert (∃ d, books w3 = <[PyStr b := d]> (books w)) as [d Hbooks].
  { eexists. rewrite Hb3, Hb2, Hb1. reflexivity. }
  apply Hrest in H as (Hb4 & Hs4 & Hc4).
  split; [congruence|]. split; [|right; exists b, d; split; [done|congruence]].
  eexists. split; [rewrite Hs4, Hs3, Hs2, Hs1; done|].
  split; [|by repeat constructor].
  destruct res as [[c|]|e]; simpl; lia.
Qed.

Lemma process_book_body_writes url w res w' :
  process_book_body E url w = (res, w') →
  item_writes url (match res with Ret r => r | Raise _ => None end) w w'.
Proof.
  unfold process_book_body. intros H.
  apply bind_cases in H as [(e & H & ->)|(html & w1 & Hf & H)].
  { apply item_writes_nothing. by apply (read_only_eq _ _ _ _ (read_only_fetch E url)) in H. }
  apply (read_only_eq _ _ _ _ (read_only_fetch E url)) in Hf.
  apply bind_cases in H as [(e & H & ->)|([book_data html'] & w2 & Hp & H)].
  { apply item_writes_nothing.
    apply (read_only_eq _ _ _ _ (read_only_parse_book E html url)) in H. congruence. }
  pose proof (read_only_eq _ _ _ _ (read_only_parse_book E html url) Hp) as Hst2.
  apply parse_book_Ret in Hp as (-> & b & Hb & Hid & _).
  simpl in H.
  apply bind_cases in H as [(e & H & ->)|(bid & w3 & Hget & H)].
  { unfold lift, getitem in H. by rewrite Hid in H. }
  unfold lift, getitem in Hget. rewrite Hid in Hget. injection Hget as <- <-.
  apply bind_cases in H as [(e & H & ->)|(existing & w3 & Hfind & H)].
  { apply item_writes_nothing.
    apply (read_only_eq _ _ _ _ (read_only_books_find_one E _)) in H. congruence. }
  apply (read_only_eq _ _ _ _ (read_only_books_find_one E _)) in Hfind.
  assert (stores w3 = stores w) as Hst3 by congruence.
  assert (∀ r, item_writes url r w3 w' → item_writes url r w w') as Hback.
  { unfold item_writes. injection Hst3 as -> -> ->. done. }
  apply Hback. clear Hback Hst3 Hfind Hst2 Hf.
  apply bind_cases in H as [(e & H & ->)|(cls & w4 & Hcls & H)].
  { unfold lift in H. injection H as _ <-. by apply item_writes_nothing. }
  unfold lift in Hcls. injection Hcls as Hcls <-.
  destruct cls as [|changed|].
  - rewrite bind_unfold in H. simpl in H. injection H as <- <-.
    by apply item_writes_nothing.
  - eapply (persist_writes url html book_data b _ _ _ _ Hid Hb); [|exact H].
    intros wa r wb Hr.
    apply bind_cases in Hr as [(e & Hr & ->)|(ts & w1' & Hts & Hr)]; [done|].
    apply (read_only_at _ _ _ _ (read_only_now E)) in Hts as (Hb1 & Hs1 & Hc1).
    apply log_and_return_writes in Hr as (-> & -> & ->); [by rewrite Hb1, Hs1, Hc1|].
    intros wa' r' wb'. apply change_log_insert_one_any.
  - eapply (persist_writes url html book_data b _ _ _ _ Hid Hb); [|exact H].
    intros wa r wb Hr.
    apply log_and_return_writes in Hr; [done|].
    intros wa' r' wb'. apply log_change_entry_any.
Qed.


Lemma process_book_writes url w r w' :
  process_book E url w = (Ret r, w') → item_writes url r w w'.
Proof.
  destruct (process_book_body E url w) as [[r0|e] w1] eqn:H.
  - rewrite (process_book_passed _ _ _ _ _ H). intros [= <- <-].
    by apply process_book_body_writes in H.
  - rewrite (process_book_caught _ _ _ _ _ H). intros [= <- <-].
    by apply process_book_body_writes in H.
Qed.




Lemma run_Ret_steps fuel w changes w' :
  run E fuel w = Some (Ret changes, w') →
  ∃ w1 links w2 results,
    mark_all_changes_as_old E w = (Ret tt, w1)
    ∧ get_all_book_links E fuel w1 = Some (Ret links, w2)
    ∧ mapM (process_book E) links
        (emit (EvLog INFO (FoundLinksMsg (length links))) w2).2 = (Ret results, w')
    ∧ changes = omap id results.
Proof.
  unfold run. destruct (mark_all_changes_as_old E w) as [[[]|e] w1]; [|discriminate].
  destruct (get_all_book_links E fuel w1) as [[[links|e] w2]|] eqn:Hlinks;
    [|discriminate|discriminate].
  rewrite bind_unfold. cbn [emit].
  set (w3 := World _ _ _ _ _).
  destruct (mapM_process_book E links w3) as (results & w4 & Hres & _).
  rewrite (bind_Ret_step _ _ _ _ _ Hres). intros [= <- <-].
  by exists w1, links, w2, results.
Qed.

End ProcessMore.

Section ProcessTheorems.
Context `{RT : Runtime}.
Variable E : env.

(** X10: Whatever happens to an item, [process_book] returns, and it has written
    no more than this: the change log is the log it found followed by the
    entry it returns, or the log it found when it returns none; at most one
    snapshot, of this URL, was added after those it found, and one was added
    if an entry is returned; no book was deleted, and the only record that
    can differ is the one of the id derived from the URL. *)
Theorem process_book_footprint (url : string) (w : world) :
  ∃ r w',
    process_book E url w = (Ret r, w')
    ∧ change_log w' = change_log w ++ option_list r
    ∧ (∃ snaps, book_snapshots w' = book_snapshots w ++ snaps
                ∧ (length (option_list r) ≤ length snaps ≤ 1)%nat
                ∧ Forall (λ s, snap_source_url s.2 = url) snaps)
    ∧ dom (books w) ⊆ dom (books w')
    ∧ (∀ k, books w' !! k ≠ books w !! k →
         ∃ b, book_id_of_url url = Ret b ∧ k = PyStr b).
Proof.
  destruct (process_book_total E url w) as (r & w' & H). exists r, w'.
  split; [done|]. apply process_book_writes in H as (Hlog & Hsnaps & Hbooks).
  split; [done|]. split; [done|].
  destruct Hbooks as [->|(b & d & Hb & ->)].
  - split; [done|]. by intros k [].
  - split; [rewrite dom_insert_L; apply union_subseteq_r|].
    intros k Hk. exists b. split; [done|].
    destruct (decide (k = PyStr b)) as [|Hkb]; [done|].
    by rewrite lookup_insert_ne in Hk.
Qed.


End ProcessTheorems.

Module ProcessMoreExample.
Import Examples MoreExamples.
#[local] Existing Instance test_runtime.


End ProcessMoreExample.


(** ** Crawling a page again *)

Section ParseTime.
Context `{RT : Runtime}.
Variable E : env.

Lemma untracked_key (k : string) :
  k ∈ ["crawl_timestamp"; "content_hash"; "raw_snapshot_id"; "source_url"; "_id"] →
  k ∉ hash_keys.
Proof.
  intros Hk Hh. unfold hash_keys in Hh.
  repeat (apply elem_of_cons in Hk as [->|Hk];
          [repeat (apply elem_of_cons in Hh as [Hh|Hh]; [discriminate|]);
           by apply elem_of_nil in Hh|]).
  by apply elem_of_nil in Hk.
Qed.

Lemma book_document_hash s url title table n bid ts :
  book_document s url title table n bid ts !! "content_hash"
    = Some (PyStr (compute_hash_for_book (book_document s url title table n bid ts))).
Proof.
  unfold book_document. cbv zeta. rewrite lookup_insert_eq.
  rewrite fingerprint_untracked_field; [done|].
  apply untracked_key. set_solver.
Qed.

Lemma book_document_time s url title table n bid ts1 ts2 k :
  k ≠ "crawl_timestamp" →
  book_document s url title table n bid ts1 !! k
    = book_document s url title table n bid ts2 !! k.
Proof.
  intros Hk. unfold book_document. cbv zeta.
  destruct (decide (k = "content_hash")) as [->|Hh].
  - rewrite !lookup_insert_eq.
    rewrite !(fingerprint_untracked_field _ "crawl_timestamp"); [done|..];
      apply untracked_key; set_solver.
  - rewrite !(lookup_insert_ne _ "content_hash") by done.
    by rewrite !(lookup_insert_ne _ "crawl_timestamp").
Qed.


(** A page that parses once parses in every world, to a record that differs
    in the crawl time at most. *)
Lemma parse_book_again html url wa d h wa' (wb : world) :
  parse_book E html url wa = (Ret (d, h), wa') →
  ∃ d', parse_book E html url wb = (Ret (d', html), (next_tick wb).2)
        ∧ (∀ k, k ≠ "crawl_timestamp" → d' !! k = d !! k)
        ∧ d' !! "crawl_timestamp"
            = Some (PyStr (utcnow_isoformat E (tick wb) +:+ "Z")).
Proof.
  rewrite !parse_book_eval. cbv zeta.
  destruct (product_page _) as [[t|]|]; try discriminate;
    (destruct (decide _); [|discriminate]);
    (destruct (int_of_str _); [|discriminate]);
    (destruct (book_id_of_url url); [|discriminate]);
    intros [= <- <- <-]; eexists; (split; [reflexivity|]);
    (split; [intros k Hk; by apply book_document_time|]);
    unfold book_document; cbv zeta;
    by rewrite lookup_insert_ne, lookup_insert_eq.
Qed.

End ParseTime.

Section ParseTimeTheorems.
Context `{RT : Runtime}.
Variable E : env.

(** X12: The time of the crawl reaches the parsed record through
    [crawl_timestamp] alone.  Parsing the same page under the same URL in
    two worlds raises the same exception in both, or yields two records
    that agree on every field but [crawl_timestamp], on the fingerprint in
    particular; and the fingerprint that a record carries is the
    fingerprint of the record itself. *)
Theorem parse_book_depends_on_time_through_timestamp_only
    (html url : string) (w1 w2 : world) :
  match (parse_book E html url w1).1, (parse_book E html url w2).1 with
  | Ret (d1, h1), Ret (d2, h2) =>
      h1 = html ∧ h2 = html
      ∧ (∀ k, k ≠ "crawl_timestamp" → d1 !! k = d2 !! k)
      ∧ d1 !! "content_hash" = Some (PyStr (compute_hash_for_book d1))
      ∧ d1 !! "content_hash" = d2 !! "content_hash"
  | Raise e1, Raise e2 => e1 = e2
  | _, _ => False
  end.
Proof.
  rewrite !parse_book_eval. cbv zeta.
  destruct (product_page _) as [[t|]|]; try done;
    (destruct (decide _); [|done]);
    (destruct (int_of_str _); [|done]);
    (destruct (book_id_of_url url); [|done]); simpl;
    (split; [done|]); (split; [done|]);
    (split; [intros k Hk; by apply book_document_time|]);
    (split; [apply book_document_hash|by apply book_document_time]).
Qed.

End ParseTimeTheorems.

Section Recrawl.
Context `{RT : Runtime}.
Variable E : env.

Lemma db_op_ok w :
  db_fault E (tick w) = None → db_op E w = (Ret (tick w), (next_tick w).2).
Proof. intros H. unfold db_op. rewrite bind_unfold. simpl. by rewrite H. Qed.

Lemma db_op_fail w e :
  db_fault E (tick w) = Some e → db_op E w = (Raise e, (next_tick w).2).
Proof. intros H. unfold db_op. rewrite bind_unfold. simpl. by rewrite H. Qed.

Lemma books_find_one_ok k w :
  db_fault E (tick w) = None →
  books_find_one E k w = (Ret (find_one (books w) k), (next_tick w).2).
Proof.
  intros H. unfold books_find_one. by rewrite (bind_Ret_step _ _ _ _ _ (db_op_ok w H)).
Qed.

(** The steps of [process_book] behind a returned entry. *)
Lemma process_book_Some_steps url w c w' :
  process_book E url w = (Ret (Some c), w') →
  ∃ html w1 data w2 b sid ts,
    fetch E url w = (Ret html, w1)
    ∧ parse_book E html url w1 = (Ret (data, html), w2)
    ∧ book_id_of_url url = Ret b
    ∧ data !! "_id" = Some (PyStr b)
    ∧ book_snapshots w' = book_snapshots w ++ [(sid, Snapshot url html ts)]
    ∧ books w' = update_one_set_upsert (books w) (PyStr b)
                   (<["raw_snapshot_id" := PyStr sid]> data)
    ∧ change_log w' = change_log w ++ [c]
    ∧ book_id c = PyStr b
    ∧ is_Some (entry_id c).
Proof.
  intros H. apply process_book_Some_body in H. unfold process_book_body in H.
  apply bind_Ret_inv in H as (html & w1 & Hf & H).
  apply bind_Ret_inv in H as ([data html'] & w2 & Hp & H).
  pose proof (read_only_at _ _ _ _ (read_only_fetch E url) Hf) as (Hb1 & Hs1 & Hc1).
  pose proof (read_only_at _ _ _ _ (read_only_parse_book E html url) Hp)
    as (Hb2 & Hs2 & Hc2).
  pose proof (parse_book_Ret E _ _ _ _ _ _ Hp) as (-> & b & Hb & Hid & _).
  simpl in H. apply bind_Ret_inv in H as (bid & w2' & Hget & H).
  unfold lift, getitem in Hget. rewrite Hid in Hget. injection Hget as <- <-.
  apply bind_Ret_inv in H as (existing & w3 & Hfind & H).
  apply (read_only_at _ _ _ _ (read_only_books_find_one E _)) in Hfind
    as (Hb3 & Hs3 & Hc3).
  apply bind_Ret_inv in H as (cls & w3' & Hcls & H).
  unfold lift in Hcls. injection Hcls as Hcls <-.
  assert (∀ (rest : M (option change_record)),
    (∀ wa wb, rest wa = (Ret (Some c), wb) →
       books wb = books wa ∧ book_snapshots wb = book_snapshots wa
       ∧ change_log wb = change_log wa ++ [c] ∧ book_id c = PyStr b
       ∧ is_Some (entry_id c)) →
    (ts ← now_z E;
     snap_id ← insert_snapshot E (Snapshot url html ts);
     upsert_book E (<["raw_snapshot_id" := PyStr snap_id]> data);;
     rest) w3 = (Ret (Some c), w') →
    ∃ sid ts,
      book_snapshots w' = book_snapshots w ++ [(sid, Snapshot url html ts)]
      ∧ books w' = update_one_set_upsert (books w) (PyStr b)
                     (<["raw_snapshot_id" := PyStr sid]> data)
      ∧ change_log w' = change_log w ++ [c]
      ∧ book_id c = PyStr b ∧ is_Some (entry_id c)) as Hpersist.
  { intros rest Hrest Hrun.
    apply bind_Ret_inv in Hrun as (ts & w4 & Hts & Hrun).
    apply (read_only_at _ _ _ _ (read_only_now E)) in Hts as (Hb4 & Hs4 & Hc4).
    apply bind_Ret_inv in Hrun as (sid & w5 & Hsnap & Hrun).
    apply insert_snapshot_Ret in Hsnap as (Hb5 & Hc5 & Hs5).
    apply bind_Ret_inv in Hrun as (u & w6 & Hup & Hrun).
    apply (upsert_book_Ret E _ (PyStr b)) in Hup as (Hb6 & Hs6 & Hc6);
      [|by rewrite lookup_insert_ne].
    apply Hrest in Hrun as (Hb7 & Hs7 & Hc7 & Hbid & Hentry).
    exists sid, ts. repeat split; try done; congruence. }
  assert (∀ (c0 : change_record) wa wb,
    change_log_insert_one E c0 wa = (Ret c, wb) →
    books wb = books wa ∧ book_snapshots wb = book_snapshots wa
    ∧ change_log wb = change_log wa ++ [c] ∧ book_id c = book_id c0
    ∧ is_Some (entry_id c)) as Hinsert.
  { intros c0 wa wb Hr. unfold change_log_insert_one in Hr.
    apply bind_Ret_inv in Hr as (n & wn & Hop & Hr).
    apply db_op_Ret in Hop as (_ & _ & [= Hb5 Hs5 Hc5] & _).
    simpl in Hr. injection Hr as <- <-. simpl.
    rewrite Hb5, Hs5, Hc5. repeat split; done. }
  destruct cls as [|changed|].
  - apply bind_Ret_inv in H as (u & wu & _ & H). discriminate.
  - edestruct Hpersist as (sid & ts & ?);
      [|exact H|by exists html, w1, data, w2, b, sid, ts].
    intros wa wb Hr.
    apply bind_Ret_inv in Hr as (ts & w4 & Hts & Hr).
    apply (read_only_at _ _ _ _ (read_only_now E)) in Hts as (Hb4 & Hs4 & Hc4).
    apply bind_Ret_inv in Hr as (c' & w5 & Hins & Hr).
    apply bind_Ret_inv in Hr as (u & w6 & Hemit & Hr).
    injection Hr as -> <-. injection Hemit as _ <-. simpl.
    apply Hinsert in Hins as (-> & -> & -> & -> & ?).
    by rewrite Hb4, Hs4, Hc4.
  - edestruct Hpersist as (sid & ts & ?);
      [|exact H|by exists html, w1, data, w2, b, sid, ts].
    intros wa wb Hr.
    apply bind_Ret_inv in Hr as (c' & w5 & Hins & Hr).
    apply bind_Ret_inv in Hr as (u & w6 & Hemit & Hr).
    injection Hr as -> <-. injection Hemit as _ <-. simpl.
    unfold log_change_entry in Hins.
    apply bind_Ret_inv in Hins as (ts & w4 & Hts & Hins).
    apply (read_only_at _ _ _ _ (read_only_now E)) in Hts as (Hb4 & Hs4 & Hc4).
    apply Hinsert in Hins as (-> & -> & -> & -> & ?).
    by rewrite Hb4, Hs4, Hc4.
Qed.


(** A page whose fingerprint is the stored one is passed over. *)
Lemma up_to_date_is_silent url html data wp wp' b ex wa wa1 :
  parse_book E html url wp = (Ret (data, html), wp') →
  book_id_of_url url = Ret b →
  find_one (books wa) (PyStr b) = Some ex →
  ex !! "content_hash" = data !! "content_hash" →
  fetch E url wa = (Ret html, wa1) →
  db_fault E (S (tick wa1)) = None →
  ∃ wb, process_book E url wa = (Ret None, wb) ∧ stores wb = stores wa.
Proof.
  intros Hp Hb Hex Hhash Hf Hdb.
  pose proof (read_only_eq _ _ _ _ (read_only_fetch E url) Hf) as Hst1.
  destruct (parse_book_again E html url wp data html wp' wa1 Hp)
    as (d' & Hp' & Hsame & _).
  pose proof (parse_book_Ret E _ _ _ _ _ _ Hp) as (_ & b0 & Hb0 & Hid & [h Hh] & _).
  rewrite Hb in Hb0. injection Hb0 as <-.
  pose proof (parse_book_eval E html url wp) as Heval. rewrite Hp in Heval.
  assert (∃ h', data !! "content_hash" = Some (PyStr h')) as [h' Hh'].
  { clear -Heval. cbv zeta in Heval.
    destruct (product_page _) as [[t|]|]; try discriminate;
      (destruct (decide _); [|discriminate]);
      (destruct (int_of_str _); [|discriminate]);
      (destruct (book_id_of_url url); [|discriminate]);
      injection Heval as -> _; eexists; apply book_document_hash. }
  set (w2 := (next_tick wa1).2) in *.
  assert (db_fault E (tick w2) = None) as Hdb2 by done.
  pose proof (books_find_one_ok (PyStr b) w2 Hdb2) as Hfind.
  assert (find_one (books w2) (PyStr b) = Some ex) as Hex2.
  { injection Hst1 as Hb1 _ _. unfold find_one in *. simpl. by rewrite Hb1. }
  rewrite Hex2 in Hfind.
  assert (classify (Some ex) d' = Ret Unchanged) as Hcls.
  { unfold classify, getitem.
    rewrite (find_one_truthy (books w2) (PyStr b) ex Hex2).
    rewrite (Hsame "content_hash") by done. rewrite Hh'.
    unfold dict_get. rewrite Hhash, Hh'. simpl. by rewrite bool_decide_eq_true_2. }
  eexists. split.
  - apply process_book_passed. unfold process_book_body.
    rewrite (bind_Ret_step _ _ _ _ _ Hf), (bind_Ret_step _ _ _ _ _ Hp').
    simpl. rewrite bind_unfold. unfold lift at 1, getitem at 1.
    rewrite (Hsame "_id") by done. rewrite Hid.
    rewrite (bind_Ret_step _ _ _ _ _ Hfind).
    rewrite bind_unfold. unfold lift at 1. rewrite Hcls.
    rewrite bind_unfold. simpl. reflexivity.
  - by rewrite <-Hst1.
Qed.

End Recrawl.

Section RecrawlTheorems.
Context `{RT : Runtime}.
Variable E : env.

Lemma parse_book_tracked html url w data h w' :
  parse_book E html url w = (Ret (data, h), w') →
  Forall (λ k, is_Some (data !! k)) hash_keys
  ∧ data !! "content_hash" = Some (PyStr (compute_hash_for_book data)).
Proof.
  rewrite parse_book_eval. cbv zeta.
  destruct (product_page _) as [[t|]|]; try discriminate;
    (destruct (decide _); [|discriminate]);
    (destruct (int_of_str _); [|discriminate]);
    (destruct (book_id_of_url url); [|discriminate]);
    intros [= <- _ _]; (split; [|apply book_document_hash]);
    unfold book_document, hash_keys; cbv zeta;
    repeat (constructor; [rewrite lookup_insert_is_Some; naive_solver|]);
    constructor.
Qed.


(** X13: An entry that [process_book] returns stands for writes that were made:
    it is the last entry of the change log and has its [_id]; the last
    snapshot holds the URL and the HTML that was fetched and parsed; the
    record stored under the id of the URL holds every field of the parsed
    record and, as [raw_snapshot_id], the id of that snapshot; and the
    fingerprint it stores is the fingerprint of the stored record. *)
Theorem returned_entry_is_persisted url w c w' :
  process_book E url w = (Ret (Some c), w') →
  ∃ html w1 data w2 b sid ts stored,
    fetch E url w = (Ret html, w1)
    ∧ parse_book E html url w1 = (Ret (data, html), w2)
    ∧ book_id_of_url url = Ret b ∧ book_id c = PyStr b
    ∧ is_Some (entry_id c)
    ∧ change_log w' = change_log w ++ [c]
    ∧ book_snapshots w' = book_snapshots w ++ [(sid, Snapshot url html ts)]
    ∧ find_one (books w') (PyStr b) = Some stored
    ∧ stored !! "raw_snapshot_id" = Some (PyStr sid)
    ∧ (∀ k v, k ≠ "raw_snapshot_id" → data !! k = Some v → stored !! k = Some v)
    ∧ stored !! "content_hash" = Some (PyStr (compute_hash_for_book stored)).
Proof.
  intros H. apply process_book_Some_steps in H
    as (html & w1 & data & w2 & b & sid & ts & Hf & Hp & Hb & Hid
        & Hsnaps & Hbooks & Hlog & Hbid & Hentry).
  set (data' := <["raw_snapshot_id" := PyStr sid]> data) in *.
  assert (data' !! "_id" = Some (PyStr b)) as Hid'
    by by (unfold data'; rewrite lookup_insert_ne).
  set (stored := data' ∪ default ∅ (find_one (books w) (PyStr b))).
  assert (∀ k v, k ≠ "raw_snapshot_id" → data !! k = Some v → stored !! k = Some v)
    as Hfields.
  { intros k v Hk Hv. apply lookup_union_Some_l. unfold data'.
    by rewrite lookup_insert_ne. }
  destruct (parse_book_tracked _ _ _ _ _ _ Hp) as [Htracked Hhash].
  exists html, w1, data, w2, b, sid, ts, stored.
  do 7 (split; [done|]).
  split; [rewrite Hbooks; by apply find_one_updated|].
  split; [apply lookup_union_Some_l; unfold data'; by rewrite lookup_insert_eq|].
  split; [done|].
  rewrite (Hfields "content_hash" _ ltac:(done) Hhash). do 2 f_equal.
  unfold compute_hash_for_book. f_equal. apply hash_input_agree.
  rewrite Forall_forall in Htracked. apply Forall_forall. intros k Hk.
  destruct (Htracked k Hk) as [v Hv]. rewrite Hv. symmetry.
  apply Hfields; [|done]. intros ->. revert Hk. apply untracked_key. set_solver.
Qed.

(** X14: Crawling again a page that has not changed writes nothing.  After
    [process_book] has returned an entry for a URL, processing the URL again
    in any later world in which the record of its id is still the one it
    stored, with the same HTML fetched and the database answering the
    lookup, returns no entry and leaves the three collections as they
    are. *)
Theorem recrawl_of_unchanged_page_is_silent url html w w1 c w' wa wa1 :
  fetch E url w = (Ret html, w1) →
  process_book E url w = (Ret (Some c), w') →
  (∀ b, book_id_of_url url = Ret b → books wa !! PyStr b = books w' !! PyStr b) →
  fetch E url wa = (Ret html, wa1) →
  db_fault E (S (tick wa1)) = None →
  ∃ wb, process_book E url wa = (Ret None, wb) ∧ stores wb = stores wa.
Proof.
  intros Hf H Hrec Hfa Hdb. apply process_book_Some_steps in H
    as (html0 & w10 & data & w2 & b & sid & ts & Hf0 & Hp & Hb & Hid
        & _ & Hbooks & _).
  rewrite Hf in Hf0. injection Hf0 as <- <-.
  assert ((<["raw_snapshot_id" := PyStr sid]> data) !! "_id" = Some (PyStr b))
    as Hid' by by rewrite lookup_insert_ne.
  destruct (parse_book_tracked _ _ _ _ _ _ Hp) as [_ Hhash].
  apply (up_to_date_is_silent E url html data w1 w2 b
           (<["raw_snapshot_id" := PyStr sid]> data
              ∪ default ∅ (find_one (books w) (PyStr b))) wa wa1); try done.
  - unfold find_one. rewrite (Hrec b Hb), Hbooks.
    apply (find_one_updated (books w) (PyStr b) _ Hid').
  - rewrite Hhash. apply lookup_union_Some_l. by rewrite lookup_insert_ne.
Qed.

End RecrawlTheorems.

Module RecrawlExample.
Import Examples MoreExamples.
#[local] Existing Instance test_runtime.

Lemma returned_entry_is_persisted_witness :
  ∃ html w1 data w2 b sid ts stored,
    fetch test_env book_1_url empty_world = (Ret html, w1)
    ∧ parse_book test_env html book_1_url w1 = (Ret (data, html), w2)
    ∧ book_id_of_url book_1_url = Ret b ∧ book_id first_entry = PyStr b
    ∧ is_Some (entry_id first_entry)
    ∧ change_log crawled_world = change_log empty_world ++ [first_entry]
    ∧ book_snapshots crawled_world
        = book_snapshots empty_world ++ [(sid, Snapshot book_1_url html ts)]
    ∧ find_one (books crawled_world) (PyStr b) = Some stored
    ∧ stored !! "raw_snapshot_id" = Some (PyStr sid)
    ∧ (∀ k v, k ≠ "raw_snapshot_id" → data !! k = Some v → stored !! k = Some v)
    ∧ stored !! "content_hash" = Some (PyStr (compute_hash_for_book stored)).
Proof.
  apply (returned_entry_is_persisted test_env book_1_url empty_world
           first_entry crawled_world).
  reflexivity.
Defined.

Lemma recrawl_of_unchanged_page_is_silent_witness :
  ∃ wb, process_book test_env book_1_url crawled_world = (Ret None, wb)
        ∧ stores wb = stores crawled_world.
Proof.
  apply (recrawl_of_unchanged_page_is_silent test_env book_1_url "<detail full>"
           empty_world first_fetch.2 first_entry crawled_world
           crawled_world second_fetch.2).
  - reflexivity.
  - reflexivity.
  - reflexivity.
  - reflexivity.
  - reflexivity.
Defined.

End RecrawlExample.


(** ** A change that is written and not logged *)

Section LostChange.
Context `{RT : Runtime}.
Variable E : env.

Lemma change_log_insert_one_fail c w e :
  db_fault E (tick w) = Some e →
  change_log_insert_one E c w = (Raise e, (next_tick w).2).
Proof.
  intros H. unfold change_log_insert_one.
  by rewrite (bind_Raise_step _ _ _ _ _ (db_op_fail E w e H)).
Qed.

Lemma log_change_entry_fail bid ctype w e :
  db_fault E (S (tick w)) = Some e →
  log_change_entry E bid ctype w = (Raise e, (next_tick (next_tick w).2).2).
Proof.
  intros H. unfold log_change_entry.
  assert (now_iso_z E w = (Ret (utcnow_isoformat E (tick w) +:+ "Z"), (next_tick w).2))
    as Hts by done.
  rewrite (bind_Ret_step _ _ _ _ _ Hts).
  by apply change_log_insert_one_fail.
Qed.

(** The snapshot and the book are written, and then whatever logs the
    change fails. *)
Lemma persist_then_fail url html (data : doc) (b : string)
    (rest : M (option change_record)) (e : exn) (w : world) :
  data !! "_id" = Some (PyStr b) →
  db_fault E (S (tick w)) = None →
  db_fault E (S (S (tick w))) = None →
  (∀ wa, tick wa = S (S (S (tick w))) →
     ∃ wb, rest wa = (Raise e, wb) ∧ stores wb = stores wa) →
  ∃ w' sid ts,
    (ts ← now_z E;
     snap_id ← insert_snapshot E (Snapshot url html ts);
     upsert_book E (<["raw_snapshot_id" := PyStr snap_id]> data);;
     rest) w = (Raise e, w')
    ∧ change_log w' = change_log w
    ∧ book_snapshots w' = book_snapshots w ++ [(sid, Snapshot url html ts)]
    ∧ books w' = update_one_set_upsert (books w) (PyStr b)
                   (<["raw_snapshot_id" := PyStr sid]> data).
Proof.
  intros Hid Hdb1 Hdb2 Hrest.
  set (ts := utcnow_isoformat E (tick w) +:+ "Z").
  set (w1 := (next_tick w).2).
  assert (now_z E w = (Ret ts, w1)) as Hts by done.
  set (sid := object_id E (tick w1)).
  set (snap := Snapshot url html ts).
  set (w2 := World (S (tick w1)) (books w1) (book_snapshots w1 ++ [(sid, snap)])
               (change_log w1) (trace w1)).
  assert (insert_snapshot E snap w1 = (Ret sid, w2)) as Hsnap.
  { unfold insert_snapshot. by rewrite (bind_Ret_step _ _ _ _ _ (db_op_ok E w1 Hdb1)). }
  set (data' := <["raw_snapshot_id" := PyStr sid]> data).
  assert (data' !! "_id" = Some (PyStr b)) as Hid'
    by by (unfold data'; rewrite lookup_insert_ne).
  set (w3 := World (S (tick w2)) (update_one_set_upsert (books w2) (PyStr b) data')
               (book_snapshots w2) (change_log w2) (trace w2)).
  assert (upsert_book E data' w2 = (Ret tt, w3)) as Hup.
  { unfold upsert_book. rewrite Hid'.
    by rewrite (bind_Ret_step _ _ _ _ _ (db_op_ok E w2 Hdb2)). }
  destruct (Hrest w3 eq_refl) as (wb & Hr & [= Hb Hs Hc]).
  exists wb, sid, ts. split.
  - rewrite (bind_Ret_step _ _ _ _ _ Hts), (bind_Ret_step _ _ _ _ _ Hsnap).
    by rewrite (bind_Ret_step _ _ _ _ _ Hup).
  - by rewrite Hb, Hs, Hc.
Qed.

End LostChange.

Section LostChangeTheorems.
Context `{RT : Runtime}.
Variable E : env.

(** X15: The writes of [process_book] are not undone when a later one fails.
    When a page is new or has changed, and the snapshot and the book are
    written but the insert into the change log fails, [process_book] returns
    no entry and the change log is what it was, yet a snapshot was added and
    the stored record carries the new fingerprint; so every later crawl that
    fetches the same HTML, the record still being that one, finds the page
    unchanged and writes nothing: the change is never logged. *)
Theorem failed_log_insert_loses_the_change
    url html w w1 data w2 b existing w3 cls e :
  fetch E url w = (Ret html, w1) →
  parse_book E html url w1 = (Ret (data, html), w2) →
  book_id_of_url url = Ret b →
  books_find_one E (PyStr b) w2 = (Ret existing, w3) →
  classify existing data = Ret cls →
  cls ≠ Unchanged →
  db_fault E (tick w3 + 1)%nat = None →
  db_fault E (tick w3 + 2)%nat = None →
  db_fault E (tick w3 + 4)%nat = Some e →
  ∃ w',
    process_book E url w = (Ret None, w')
    ∧ change_log w' = change_log w
    ∧ length (book_snapshots w') = S (length (book_snapshots w))
    ∧ (∃ stored, find_one (books w') (PyStr b) = Some stored
                 ∧ stored !! "content_hash" = data !! "content_hash")
    ∧ ∀ wa wa1,
        books wa !! PyStr b = books w' !! PyStr b →
        fetch E url wa = (Ret html, wa1) →
        db_fault E (S (tick wa1)) = None →
        ∃ wb, process_book E url wa = (Ret None, wb) ∧ stores wb = stores wa.
Proof.
  intros Hf Hp Hb Hfind Hcls Hne Hdb1 Hdb2 Hdb4.
  pose proof (read_only_at _ _ _ _ (read_only_fetch E url) Hf) as (Hb1 & Hs1 & Hc1).
  pose proof (read_only_at _ _ _ _ (read_only_parse_book E html url) Hp)
    as (Hb2 & Hs2 & Hc2).
  pose proof (read_only_at _ _ _ _ (read_only_books_find_one E _) Hfind)
    as (Hb3 & Hs3 & Hc3).
  pose proof (parse_book_Ret E _ _ _ _ _ _ Hp) as (_ & b0 & Hb0 & Hid & _).
  rewrite Hb in Hb0. injection Hb0 as <-.
  destruct (parse_book_tracked E _ _ _ _ _ _ Hp) as [_ Hhash].
  replace (tick w3 + 1)%nat with (S (tick w3)) in Hdb1 by lia.
  replace (tick w3 + 2)%nat with (S (S (tick w3))) in Hdb2 by lia.
  replace (tick w3 + 4)%nat with (S (S (S (S (tick w3))))) in Hdb4 by lia.
  assert (∃ w4 sid ts,
    process_book_body E url w = (Raise e, w4)
    ∧ change_log w4 = change_log w3
    ∧ book_snapshots w4 = book_snapshots w3 ++ [(sid, Snapshot url html ts)]
    ∧ books w4 = update_one_set_upsert (books w3) (PyStr b)
                   (<["raw_snapshot_id" := PyStr sid]> data))
    as (w4 & sid & ts & Hbody & Hc4 & Hs4 & Hb4).
  { unfold process_book_body.
    rewrite (bind_Ret_step _ _ _ _ _ Hf), (bind_Ret_step _ _ _ _ _ Hp).
    simpl. rewrite bind_unfold. unfold lift at 1, getitem at 1. rewrite Hid.
    rewrite (bind_Ret_step _ _ _ _ _ Hfind).
    rewrite bind_unfold. unfold lift at 1. rewrite Hcls.
    destruct cls as [|changed|]; [done| |].
    - apply (persist_then_fail E url html data b _ e w3 Hid Hdb1 Hdb2).
      intros wa Hwa. eexists. split.
      + rewrite bind_unfold. simpl.
        rewrite (bind_Raise_step _ _ _ _ _
                   (change_log_insert_one_fail E _ (next_tick wa).2 e
                      ltac:(simpl; by rewrite Hwa))).
        reflexivity.
      + done.
    - apply (persist_then_fail E url html data b _ e w3 Hid Hdb1 Hdb2).
      intros wa Hwa. eexists. split.
      + rewrite (bind_Raise_step _ _ _ _ _
                   (log_change_entry_fail E _ _ wa e ltac:(by rewrite Hwa))).
        reflexivity.
      + done. }
  assert ((<["raw_snapshot_id" := PyStr sid]> data) !! "_id" = Some (PyStr b))
    as Hid' by by rewrite lookup_insert_ne.
  set (stored := <["raw_snapshot_id" := PyStr sid]> data
                   ∪ default ∅ (find_one (books w3) (PyStr b))).
  assert (find_one (books w4) (PyStr b) = Some stored) as Hstored.
  { rewrite Hb4. by apply find_one_updated. }
  assert (stored !! "content_hash" = data !! "content_hash") as Hsh.
  { rewrite Hhash. apply lookup_union_Some_l. by rewrite lookup_insert_ne. }
  eexists. split; [by apply process_book_caught|]. simpl.
  split; [congruence|]. split.
  { rewrite Hs4, length_app. simpl. rewrite Hs3, Hs2, Hs1. lia. }
  split; [by exists stored|].
  intros wa wa1 Hrec Hfa Hdba.
  apply (up_to_date_is_silent E url html data w1 w2 b stored wa wa1); try done.
  unfold find_one. rewrite Hrec. exact Hstored.
Qed.

End LostChangeTheorems.

Module LostChangeExample.
Import Examples MoreExamples.
#[local] Existing Instance test_runtime.

Lemma failed_log_insert_loses_the_change_witness :
  ∃ w',
    process_book log_down_env book_1_url empty_world = (Ret None, w')
    ∧ change_log w' = change_log empty_world
    ∧ length (book_snapshots w') = S (length (book_snapshots empty_world))
    ∧ (∃ stored, find_one (books w') (PyStr "book_1") = Some stored
                 ∧ stored !! "content_hash" = first_record !! "content_hash")
    ∧ ∀ wa wa1,
        books wa !! PyStr "book_1" = books w' !! PyStr "book_1" →
        fetch log_down_env book_1_url wa = (Ret "<detail full>", wa1) →
        db_fault log_down_env (S (tick wa1)) = None →
        ∃ wb, process_book log_down_env book_1_url wa = (Ret None, wb)
              ∧ stores wb = stores wa.
Proof.
  apply (failed_log_insert_loses_the_change log_down_env book_1_url
           "<detail full>" empty_world first_fetch.2 first_record first_parse.2
           "book_1" None first_find.2 New log_insert_error).
  - reflexivity.
  - reflexivity.
  - reflexivity.
  - reflexivity.
  - reflexivity.
  - discriminate.
  - reflexivity.
  - reflexivity.
  - reflexivity.
Defined.

End LostChangeExample.


(** ** The API *)

Section ApiFacts.
Context `{RT : Runtime}.
Variable E : env.

Lemma book_doc_to_resp_lookup (d : doc) (k : string) :
  book_doc_to_resp d !! k =
    if decide (k ∈ public_keys) then Some (dict_get d k) else None.
Proof.
  unfold book_doc_to_resp.
  assert (∀ l (acc : doc),
    foldl (λ resp k, <[k := dict_get d k]> resp) acc l !! k =
      if decide (k ∈ l) then Some (dict_get d k) else acc !! k) as Hfold.
  { induction l as [|k' l IH]; intros acc; simpl.
    - destruct (decide (k ∈ [])) as [H|_]; [by apply elem_of_nil in H|done].
    - rewrite IH. destruct (decide (k ∈ l)) as [Hl|Hl].
      + rewrite decide_True; [done|by right].
      + destruct (decide (k = k')) as [->|Hk].
        * rewrite lookup_insert_eq, decide_True; [done|by left].
        * rewrite lookup_insert_ne by done.
          rewrite decide_False; [done|]. intros [?|?]%elem_of_cons; done. }
  rewrite Hfold. by destruct (decide (k ∈ public_keys)).
Qed.


Lemma book_doc_to_resp_dom (d : doc) :
  dom (book_doc_to_resp d) = (list_to_set public_keys : gset string).
Proof.
  apply set_eq. intros k. rewrite elem_of_dom, elem_of_list_to_set.
  rewrite book_doc_to_resp_lookup. destruct (decide (k ∈ public_keys)).
  - split; [done|by eexists].
  - split; [by intros [? ?]|done].
Qed.

Lemma book_document_dom s url title table n bid ts :
  dom (book_document s url title table n bid ts)
    = list_to_set public_keys ∪ {["content_hash"]}.
Proof.
  unfold book_document, public_keys. cbv zeta.
  rewrite !dom_insert_L, dom_singleton_L. simpl. set_solver.
Qed.

Lemma parse_book_dom html url w data h w' :
  parse_book E html url w = (Ret (data, h), w') →
  dom data = list_to_set public_keys ∪ {["content_hash"]}.
Proof.
  rewrite parse_book_eval. cbv zeta.
  destruct (product_page _) as [[t|]|]; try discriminate;
    (destruct (decide _); [|discriminate]);
    (destruct (int_of_str _); [|discriminate]);
    (destruct (book_id_of_url url); [|discriminate]);
    intros [= <- _ _]; apply book_document_dom.
Qed.

Lemma content_hash_not_public : "content_hash" ∉ public_keys.
Proof.
  unfold public_keys. intros H.
  repeat (apply elem_of_cons in H as [H|H]; [discriminate|]).
  by apply elem_of_nil in H.
Qed.

Lemma raw_snapshot_id_not_public : "raw_snapshot_id" ∉ public_keys.
Proof.
  unfold public_keys. intros H.
  repeat (apply elem_of_cons in H as [H|H]; [discriminate|]).
  by apply elem_of_nil in H.
Qed.

Lemma get_book_eval book_id w :
  db_fault E (tick w) = None →
  get_book E book_id w =
    (Ret match books w !! PyStr book_id with
         | Some d => Ok (book_doc_to_resp (<["_id" := PyStr book_id]> d))
         | None => HTTPException 404 "Book not found"
         end,
     (next_tick w).2).
Proof.
  intros Hdb. unfold get_book.
  rewrite (bind_Ret_step _ _ _ _ _ (books_find_one_ok E _ w Hdb)).
  unfold find_one. simpl. destruct (books w !! PyStr book_id) as [d|]; simpl; [|done].
  unfold dict_truthy. rewrite bool_decide_eq_true_2; [done|].
  apply insert_non_empty.
Qed.

End ApiFacts.

Section ApiTheorems.
Context `{RT : Runtime}.
Variable E : env.

(** X16: What [book_doc_to_resp] lets through.  The answer has exactly the
    twelve public keys, whatever the document holds; under each it has what
    [get] gives, [None] for a field that is missing; it has neither
    [content_hash] nor [raw_snapshot_id] nor any other field of the
    document; it depends on the document through these twelve lookups only,
    so that a missing field and one that holds [None] are served alike; and
    applying it twice is applying it once. *)
Theorem book_doc_to_resp_public_view (d : doc) :
  dom (book_doc_to_resp d) = (list_to_set public_keys : gset string)
  ∧ (∀ k, k ∈ public_keys → book_doc_to_resp d !! k = Some (dict_get d k))
  ∧ (∀ k, k ∉ public_keys → book_doc_to_resp d !! k = None)
  ∧ book_doc_to_resp d !! "content_hash" = None
  ∧ book_doc_to_resp d !! "raw_snapshot_id" = None
  ∧ (∀ d', (∀ k, k ∈ public_keys → dict_get d k = dict_get d' k) →
           book_doc_to_resp d = book_doc_to_resp d')
  ∧ book_doc_to_resp (book_doc_to_resp d) = book_doc_to_resp d.
Proof.
  assert (∀ k, k ∈ public_keys → book_doc_to_resp d !! k = Some (dict_get d k)) as Hin.
  { intros k Hk. by rewrite book_doc_to_resp_lookup, decide_True. }
  assert (∀ k, k ∉ public_keys → book_doc_to_resp d !! k = None) as Hout.
  { intros k Hk. by rewrite book_doc_to_resp_lookup, decide_False. }
  split; [apply book_doc_to_resp_dom|].
  split; [done|]. split; [done|].
  split; [apply Hout, content_hash_not_public|].
  split; [apply Hout, raw_snapshot_id_not_public|].
  split.
  - intros d' Hsame. apply map_eq. intros k. rewrite !book_doc_to_resp_lookup.
    destruct (decide (k ∈ public_keys)); [|done]. by rewrite Hsame.
  - apply map_eq. intros k. rewrite (book_doc_to_resp_lookup (book_doc_to_resp d)).
    destruct (decide (k ∈ public_keys)) as [Hk|Hk]; [|by rewrite Hout].
    rewrite (Hin k Hk). unfold dict_get at 1. by rewrite (Hin k Hk).
Qed.

(** X17: What [get_book] answers when the database answers: "Book not found"
    with status 404 exactly when no record is stored under the id, and
    otherwise the public view of the stored record, with the id as [_id];
    a record is found even if it has no field at all, since the found
    document always has its [_id].  When the database fails, the failure is
    raised.  In no case is anything written. *)
Theorem get_book_answers (book_id : string) (w : world) :
  (db_fault E (tick w) = None →
     (books w !! PyStr book_id = None →
        (get_book E book_id w).1 = Ret (HTTPException 404 "Book not found"))
     ∧ (∀ d, books w !! PyStr book_id = Some d →
          ∃ resp,
            (get_book E book_id w).1 = Ret (Ok resp)
            ∧ dom resp = (list_to_set public_keys : gset string)
            ∧ resp !! "_id" = Some (PyStr book_id)
            ∧ (∀ k, k ∈ public_keys → k ≠ "_id" → resp !! k = Some (dict_get d k))
            ∧ resp !! "content_hash" = None
            ∧ resp !! "raw_snapshot_id" = None))
  ∧ (∀ e, db_fault E (tick w) = Some e → (get_book E book_id w).1 = Raise e)
  ∧ stores (get_book E book_id w).2 = stores w.
Proof.
  split; [|split].
  - intros Hdb. rewrite (get_book_eval E book_id w Hdb). simpl. split.
    + by intros ->.
    + intros d ->. eexists. split; [done|].
      split; [apply book_doc_to_resp_dom|].
      split.
      { rewrite book_doc_to_resp_lookup, decide_True by (by left).
        unfold dict_get. by rewrite lookup_insert_eq. }
      split.
      { intros k Hk Hid. rewrite book_doc_to_resp_lookup, decide_True by done.
        unfold dict_get. by rewrite lookup_insert_ne. }
      split.
      * rewrite book_doc_to_resp_lookup, decide_False; [done|].
        apply content_hash_not_public.
      * rewrite book_doc_to_resp_lookup, decide_False; [done|].
        apply raw_snapshot_id_not_public.
  - intros e Hdb. unfold get_book, books_find_one.
    rewrite bind_unfold, bind_unfold. by rewrite (db_op_fail E w e Hdb).
  - destruct (db_fault E (tick w)) as [e|] eqn:Hdb.
    + unfold get_book, books_find_one.
      rewrite bind_unfold, bind_unfold. by rewrite (db_op_fail E w e Hdb).
    + by rewrite (get_book_eval E book_id w Hdb).
Qed.

(** X18: What the crawler parsed is what the API serves.  After [process_book]
    has returned an entry for a URL, [get_book] for the id of the URL, in any
    later world in which that record still stands and the database
    answers, gives the record that was parsed from the page with
    [content_hash] left out: every public field as it was parsed, and no
    [raw_snapshot_id]. *)
Theorem get_book_serves_what_was_parsed url w c w' wa :
  process_book E url w = (Ret (Some c), w') →
  (∀ b, book_id_of_url url = Ret b → books wa !! PyStr b = books w' !! PyStr b) →
  db_fault E (tick wa) = None →
  ∃ html w1 data w2 b,
    fetch E url w = (Ret html, w1)
    ∧ parse_book E html url w1 = (Ret (data, html), w2)
    ∧ book_id_of_url url = Ret b
    ∧ (get_book E b wa).1 = Ret (Ok (delete "content_hash" data))
    ∧ stores (get_book E b wa).2 = stores wa.
Proof.
  intros H Hrec Hdb. apply process_book_Some_steps in H
    as (html & w1 & data & w2 & b & sid & ts & Hf & Hp & Hb & Hid
        & _ & Hbooks & _).
  exists html, w1, data, w2, b. do 3 (split; [done|]).
  rewrite (get_book_eval E b wa Hdb). simpl. split; [|done].
  assert ((<["raw_snapshot_id" := PyStr sid]> data) !! "_id" = Some (PyStr b))
    as Hid' by by rewrite lookup_insert_ne.
  pose proof (find_one_updated (books w) (PyStr b) _ Hid') as Hstored.
  rewrite <-Hbooks in Hstored. unfold find_one at 1 in Hstored.
  rewrite <-(Hrec b Hb) in Hstored.
  destruct (books wa !! PyStr b) as [d|]; [|done]. simpl in Hstored.
  injection Hstored as ->. do 2 f_equal.
  pose proof (parse_book_dom E _ _ _ _ _ _ Hp) as Hdom.
  apply map_eq. intros k. rewrite book_doc_to_resp_lookup.
  destruct (decide (k ∈ public_keys)) as [Hk|Hk].
  - assert (k ≠ "content_hash") as Hne
      by (intros ->; by apply content_hash_not_public).
    assert (k ≠ "raw_snapshot_id") as Hne'
      by (intros ->; by apply raw_snapshot_id_not_public).
    rewrite lookup_delete_ne by done.
    assert (is_Some (data !! k)) as [v Hv].
    { apply elem_of_dom. rewrite Hdom. by apply elem_of_union_l, elem_of_list_to_set. }
    rewrite Hv. unfold dict_get.
    rewrite (lookup_union_Some_l _ _ k v); [done|]. by rewrite lookup_insert_ne.
  - destruct (decide (k = "content_hash")) as [->|Hne].
    + by rewrite lookup_delete_eq.
    + rewrite lookup_delete_ne by done. symmetry. apply not_elem_of_dom.
      rewrite Hdom. intros [Hin|Hin]%elem_of_union.
      * by apply elem_of_list_to_set in Hin.
      * by apply elem_of_singleton in Hin.
Qed.

End ApiTheorems.

(** X19: The key check fails closed.  [get_api_key] lets a request through
    exactly when its header is a non-empty text equal to the configured
    key, and then returns that key; a request without the header or with an
    empty one is refused with 401, any other with 403.  So when the
    environment sets no key, or an empty one, every request is refused. *)
Theorem get_api_key_fails_closed (API_KEY header : option string) :
  (∀ key, get_api_key API_KEY header = Ok key
          ↔ header = Some key ∧ key ≠ "" ∧ API_KEY = Some key)
  ∧ (get_api_key API_KEY header = HTTPException 401 "Missing API Key"
     ↔ header = None ∨ header = Some "")
  ∧ (get_api_key API_KEY header = HTTPException 403 "Forbidden"
     ↔ ∃ key, header = Some key ∧ key ≠ "" ∧ API_KEY ≠ Some key)
  ∧ (API_KEY = None ∨ API_KEY = Some "" →
     ∀ key, get_api_key API_KEY header ≠ Ok key).
Proof.
  assert (∀ key, get_api_key API_KEY header = Ok key
                 ↔ header = Some key ∧ key ≠ "" ∧ API_KEY = Some key) as Hok.
  { intros key. unfold get_api_key. destruct header as [k|].
    - destruct (decide (k = "")) as [->|Hk].
      + split; [done|]. by intros ([= <-] & ? & _).
      + destruct (decide (Some k = API_KEY)) as [<-|Hne].
        * split; [by intros [= <-]|]. by intros ([= <-] & _).
        * split; [done|]. intros ([= <-] & _ & ->). done.
    - split; [done|]. by intros (? & _). }
  split; [exact Hok|]. split; [|split].
  - unfold get_api_key. destruct header as [k|].
    + destruct (decide (k = "")) as [->|Hk].
      * split; [by right|done].
      * destruct (decide (Some k = API_KEY)).
        -- split; [done|]. by intros [?|[= ->]].
        -- split; [done|]. by intros [?|[= ->]].
    + split; [by left|done].
  - unfold get_api_key. destruct header as [k|].
    + destruct (decide (k = "")) as [->|Hk].
      * split; [done|]. by intros (key & [= <-] & ? & _).
      * destruct (decide (Some k = API_KEY)) as [<-|Hne].
        -- split; [done|]. by intros (key & [= <-] & _ & ?).
        -- split; [|done]. intros _. exists k. split; [done|]. split; congruence.
    + split; [done|]. by intros (key & ? & _).
  - intros Hunset key Hkey. apply Hok in Hkey as (_ & Hne & Heq).
    destruct Hunset as [->| ->]; [done|]. by injection Heq as <-.
Qed.

Module ApiExample.
Import Examples MoreExamples.
#[local] Existing Instance test_runtime.

Lemma get_book_serves_what_was_parsed_witness :
  ∃ html w1 data w2 b,
    fetch test_env book_1_url empty_world = (Ret html, w1)
    ∧ parse_book test_env html book_1_url w1 = (Ret (data, html), w2)
    ∧ book_id_of_url book_1_url = Ret b
    ∧ (get_book test_env b crawled_world).1 = Ret (Ok (delete "content_hash" data))
    ∧ stores (get_book test_env b crawled_world).2 = stores crawled_world.
Proof.
  apply (get_book_serves_what_was_parsed test_env book_1_url empty_world
           first_entry crawled_world crawled_world).
  - reflexivity.
  - reflexivity.
  - reflexivity.
Defined.

Lemma get_book_answers_witness :
  (get_book test_env "book_9" crawled_world).1
    = Ret (HTTPException 404 "Book not found")
  ∧ ∃ resp,
      (get_book test_env "book_1" crawled_world).1 = Ret (Ok resp)
      ∧ dom resp = (list_to_set public_keys : gset string)
      ∧ resp !! "_id" = Some (PyStr "book_1")
      ∧ resp !! "content_hash" = None
      ∧ resp !! "raw_snapshot_id" = None.
Proof.
  split.
  - destruct (get_book_answers test_env "book_9" crawled_world) as [H _].
    destruct (H eq_refl) as [Hnone _]. apply Hnone. reflexivity.
  - destruct (get_book_answers test_env "book_1" crawled_world) as [H _].
    destruct (H eq_refl) as [_ Hfound].
    destruct (Hfound (delete "_id" stored_book_1) eq_refl)
      as (resp & Hresp & Hdom & Hid & _ & Hhash & Hraw).
    by exists resp.
Defined.

End ApiExample.


(** ** A second run over an unchanged site *)

Section SecondRun.
Context `{RT : Runtime}.
Variable E : env.
Hypothesis Hsite : stable_site E.

Lemma fetch_attempts_stable url attempts : ∀ w w0,
  (fetch_attempts E url attempts w).1 = (fetch_attempts E url attempts w0).1.
Proof.
  induction attempts as [|a rest IH]; intros w w0; [done|].
  destruct (http_get E (tick w) url) as [text|e] eqn:Hw.
  - rewrite (fetch_attempts_answered E url a rest w text Hw).
    rewrite (Hsite (tick w) (tick w0) url) in Hw.
    by rewrite (fetch_attempts_answered E url a rest w0 text Hw).
  - rewrite (fetch_attempts_failed E url a rest w e Hw).
    rewrite (Hsite (tick w) (tick w0) url) in Hw.
    rewrite (fetch_attempts_failed E url a rest w0 e Hw). apply IH.
Qed.

Lemma fetch_stable url w w0 : (fetch E url w).1 = (fetch E url w0).1.
Proof. apply fetch_attempts_stable. Qed.

Lemma listing_pages_stable fuel : ∀ page_url acc w w0,
  fst <$> listing_pages E fuel page_url acc w
    = fst <$> listing_pages E fuel page_url acc w0.
Proof.
  induction fuel as [|fuel IH]; intros page_url acc w w0; [done|].
  cbn [listing_pages]. rewrite !bind_unfold. cbn [emit].
  set (wl := World _ _ _ _ _). set (wl0 := World _ _ _ _ _).
  pose proof (fetch_stable page_url wl wl0) as Hf.
  destruct (fetch E page_url wl) as [[html|e] w1];
    destruct (fetch E page_url wl0) as [[html0|e0] w10]; simpl in Hf;
    try discriminate; injection Hf as <-; [|done].
  destruct (next_link (BeautifulSoup html)) as [[href|]|]; [|done|done].
  destruct (decide (href = "")); [done|]. apply IH.
Qed.

Lemma get_all_book_links_stable fuel w w0 :
  fst <$> get_all_book_links E fuel w = fst <$> get_all_book_links E fuel w0.
Proof.
  unfold get_all_book_links.
  pose proof (listing_pages_stable fuel (first_page_url E) [] w w0) as H.
  destruct (listing_pages E fuel (first_page_url E) [] w) as [[[l|e] w1]|];
    destruct (listing_pages E fuel (first_page_url E) [] w0) as [[[l0|e0] w10]|];
    simpl in H; try discriminate; [| |done]; by injection H as <-.
Qed.

(** [settled] looks at the record of the id only. *)
Lemma settled_frame u (w w' : world) :
  (∀ b, book_id_of_url u = Ret b → books w' !! PyStr b = books w !! PyStr b) →
  settled E u w → settled E u w'.
Proof.
  intros Hrec Hs wa html wa1 wp data h wp' Hf Hp.
  destruct (Hs wa html wa1 wp data h wp' Hf Hp) as (b & ex & Hb & Hex & Hh).
  exists b, ex. split; [done|]. split; [|done].
  unfold find_one in *. by rewrite (Hrec b Hb).
Qed.

(** A settled item is passed over. *)
Lemma settled_is_silent u w :
  db_up E → settled E u w →
  ∃ w', process_book E u w = (Ret None, w') ∧ stores w' = stores w.
Proof.
  intros Hdb Hs.
  destruct (fetch E u w) as [[html|e] w1] eqn:Hf.
  - destruct (parse_book E html u w1) as [[[data h]|e] w2] eqn:Hp.
    + pose proof (parse_book_Ret E _ _ _ _ _ _ Hp) as (-> & _).
      destruct (Hs w html w1 w1 data html w2 Hf Hp) as (b & ex & Hb & Hex & Hh).
      by apply (up_to_date_is_silent E u html data w1 w2 b ex w w1).
    + eexists. split.
      * apply process_book_caught.
        by apply (process_book_body_parse_failed E u w html w1 e w2).
      * simpl. rewrite <-(read_only_eq _ _ _ _ (read_only_fetch E u) Hf).
        by rewrite <-(read_only_eq _ _ _ _ (read_only_parse_book E html u) Hp).
  - eexists. split.
    + apply process_book_caught. by apply process_book_body_fetch_failed.
    + simpl. by rewrite <-(read_only_eq _ _ _ _ (read_only_fetch E u) Hf).
Qed.

Lemma mapM_settled_is_silent links : ∀ w,
  db_up E → Forall (λ u, settled E u w) links →
  ∃ results w',
    mapM (process_book E) links w = (Ret results, w')
    ∧ omap id results = [] ∧ stores w' = stores w.
Proof.
  induction links as [|u links IH]; intros w Hdb Hall.
  - by exists [], w.
  - apply Forall_cons in Hall as [Hu Hrest].
    destruct (settled_is_silent u w Hdb Hu) as (w1 & Hr & Hst).
    destruct (IH w1 Hdb) as (rs & w2 & Hrs & Hnone & Hst2).
    { eapply Forall_impl; [exact Hrest|]. intros v Hv.
      apply (settled_frame v w w1); [|done]. intros b _.
      injection Hst as -> _ _. done. }
    exists (None :: rs), w2. split; [|split; [done|congruence]].
    simpl. rewrite (bind_Ret_step _ _ _ _ _ Hr).
    by rewrite (bind_Ret_step _ _ _ _ _ Hrs).
Qed.

Lemma py_eq_str (v : value) (h : string) : py_eq v (PyStr h) = true → v = PyStr h.
Proof.
  destruct v as [|s|n|x]; simpl; try discriminate.
  intros H. apply bool_decide_eq_true in H. by subst.
Qed.

(** With the database up, the two cases that write do store the book. *)
Lemma persist_up url html (data : doc) (b : string)
    (rest : M (option change_record)) (w : world) :
  db_up E →
  data !! "_id" = Some (PyStr b) →
  (∀ wa r wb, rest wa = (r, wb) → books wb = books wa) →
  ∃ res w' sid,
    (ts ← now_z E;
     snap_id ← insert_snapshot E (Snapshot url html ts);
     upsert_book E (<["raw_snapshot_id" := PyStr snap_id]> data);;
     rest) w = (res, w')
    ∧ books w' = update_one_set_upsert (books w) (PyStr b)
                   (<["raw_snapshot_id" := PyStr sid]> data).
Proof.
  intros Hdb Hid Hrest.
  set (ts := utcnow_isoformat E (tick w) +:+ "Z").
  set (w1 := (next_tick w).2).
  assert (now_z E w = (Ret ts, w1)) as Hts by done.
  set (sid := object_id E (tick w1)).
  set (snap := Snapshot url html ts).
  set (w2 := World (S (tick w1)) (books w1) (book_snapshots w1 ++ [(sid, snap)])
               (change_log w1) (trace w1)).
  assert (insert_snapshot E snap w1 = (Ret sid, w2)) as Hsnap.
  { unfold insert_snapshot.
    by rewrite (bind_Ret_step _ _ _ _ _ (db_op_ok E w1 (Hdb _))). }
  set (data' := <["raw_snapshot_id" := PyStr sid]> data).
  assert (data' !! "_id" = Some (PyStr b)) as Hid'
    by by (unfold data'; rewrite lookup_insert_ne).
  set (w3 := World (S (tick w2)) (update_one_set_upsert (books w2) (PyStr b) data')
               (book_snapshots w2) (change_log w2) (trace w2)).
  assert (upsert_book E data' w2 = (Ret tt, w3)) as Hup.
  { unfold upsert_book. rewrite Hid'.
    by rewrite (bind_Ret_step _ _ _ _ _ (db_op_ok E w2 (Hdb _))). }
  destruct (rest w3) as [r wb] eqn:Hr.
  exists r, wb, sid. split.
  - rewrite (bind_Ret_step _ _ _ _ _ Hts), (bind_Ret_step _ _ _ _ _ Hsnap).
    by rewrite (bind_Ret_step _ _ _ _ _ Hup).
  - by rewrite (Hrest _ _ _ Hr).
Qed.

(** With the site stable and the database up, an item is settled once it
    was processed. *)
Lemma process_book_settles u w r w' :
  db_up E →
  process_book E u w = (Ret r, w') → settled E u w'.
Proof.
  intros Hdb Hrun wa html wa1 wp data h wp' Hfa Hpa.
  pose proof (fetch_stable u w wa) as Hf. rewrite Hfa in Hf. simpl in Hf.
  destruct (fetch E u w) as [o w1] eqn:Hfw. simpl in Hf. subst o.
  pose proof (parse_book_Ret E _ _ _ _ _ _ Hpa) as (-> & b & Hb & _).
  destruct (parse_book_again E html u wp data html wp' w1 Hpa)
    as (d' & Hp & Hsame & _).
  pose proof (parse_book_Ret E _ _ _ _ _ _ Hp) as (_ & b0 & Hb0 & Hid & _).
  rewrite Hb in Hb0. injection Hb0 as <-.
  destruct (parse_book_tracked E _ _ _ _ _ _ Hp) as [_ Hhash].
  set (w2 := (next_tick w1).2) in *.
  pose proof (books_find_one_ok E (PyStr b) w2 (Hdb _)) as Hfind.
  set (w3 := (next_tick w2).2) in *.
  assert (books w1 = books w) as Hb3.
  { by pose proof (read_only_eq _ _ _ _ (read_only_fetch E u) Hfw) as [= Hbw _ _]. }
  exists b. rewrite <-(Hsame "content_hash") by done.
  assert (∀ (res : outcome (option change_record)) (wb : world),
    process_book_body E u w = (res, wb) → books w' = books wb) as Hbody.
  { intros res wb Hres. destruct res as [r0|e].
    - rewrite (process_book_passed E _ _ _ _ Hres) in Hrun. by injection Hrun as _ <-.
    - rewrite (process_book_caught E _ _ _ _ Hres) in Hrun. by injection Hrun as _ <-. }
  assert (
    process_book_body E u w
      = (cls ← lift (classify (find_one (books w2) (PyStr b)) d');
         match cls with
         | Unchanged =>
             emit (EvLog INFO (NoChangesMsg (py_str (PyStr b))));; mret None
         | Updated changed =>
             ts ← now_z E;
             snap_id ← insert_snapshot E (Snapshot u html ts);
             upsert_book E (<["raw_snapshot_id" := PyStr snap_id]> d');;
             ts' ← now_z E;
             change_record ← change_log_insert_one E
               (ChangeRecord None (PyStr b) "updated" "new" ts' (Some changed));
             emit (EvLog INFO (UpdatedBookMsg (py_str (PyStr b)) (dom changed)));;
             mret (Some change_record)
         | New =>
             ts ← now_z E;
             snap_id ← insert_snapshot E (Snapshot u html ts);
             upsert_book E (<["raw_snapshot_id" := PyStr snap_id]> d');;
             change_record ← log_change_entry E (PyStr b) "new";
             emit (EvLog INFO (InsertedBookMsg (py_str (PyStr b))));;
             mret (Some change_record)
         end) w3) as Hunf.
  { unfold process_book_body.
    rewrite (bind_Ret_step _ _ _ _ _ Hfw), (bind_Ret_step _ _ _ _ _ Hp).
    simpl. rewrite bind_unfold. unfold lift at 1, getitem at 1. rewrite Hid.
    by rewrite (bind_Ret_step _ _ _ _ _ Hfind). }
  assert (find_one (books w2) (PyStr b) = find_one (books w) (PyStr b)) as Hsame_find.
  { unfold find_one. change (books w2) with (books w1). by rewrite Hb3. }
  assert (∀ rest : M (option change_record),
    (∀ wa0 r0 wb0, rest wa0 = (r0, wb0) → books wb0 = books wa0) →
    ∀ res wb,
      (ts ← now_z E;
       snap_id ← insert_snapshot E (Snapshot u html ts);
       upsert_book E (<["raw_snapshot_id" := PyStr snap_id]> d');;
       rest) w3 = (res, wb) →
      ∃ ex, find_one (books wb) (PyStr b) = Some ex
            ∧ ex !! "content_hash" = d' !! "content_hash") as Hwritten.
  { intros rest Hrest res wb Hres.
    destruct (persist_up u html d' b rest w3 Hdb Hid Hrest)
      as (res' & wb' & sid & Hres' & Hbooks).
    rewrite Hres in Hres'. injection Hres' as <- <-.
    eexists. split.
    - rewrite Hbooks. apply find_one_updated. by rewrite lookup_insert_ne.
    - rewrite Hhash. apply lookup_union_Some_l. by rewrite lookup_insert_ne. }
  rewrite bind_unfold in Hunf. unfold lift at 1 in Hunf.
  unfold classify in Hunf. rewrite Hsame_find in Hunf.
  destruct (find_one (books w) (PyStr b)) as [ex|] eqn:Hex.
  - rewrite (find_one_truthy (books w) (PyStr b) ex Hex) in Hunf.
    unfold getitem in Hunf. rewrite Hhash in Hunf.
    destruct (py_eq (dict_get ex "content_hash") _) eqn:Heq.
    + exists ex. rewrite bind_unfold in Hunf. simpl in Hunf.
      rewrite (Hbody _ _ Hunf). simpl. unfold find_one in *. rewrite Hb3.
      split; [done|]. split; [done|].
      apply py_eq_str in Heq. unfold dict_get in Heq. rewrite Hhash.
      destruct (ex !! "content_hash") as [v|]; simpl in Heq; [by subst|done].
    + destruct (process_book_body E u w) as [res wb] eqn:Hres.
      rewrite (Hbody _ _ eq_refl). symmetry in Hunf.
      apply Hwritten in Hunf as (ex' & ? & ?); [by exists ex'|].
      intros wa0 r0 wb0 Hr0.
      apply bind_cases in Hr0 as [(e' & Hr0 & _)|(ts' & w5 & Hts & Hr0)]; [done|].
      apply (read_only_at _ _ _ _ (read_only_now E)) in Hts as (Hb5 & _).
      apply log_and_return_writes in Hr0 as (-> & _); [done|].
      intros ? ? ?. apply change_log_insert_one_any.
  - destruct (process_book_body E u w) as [res wb] eqn:Hres.
    rewrite (Hbody _ _ eq_refl). symmetry in Hunf.
    apply Hwritten in Hunf as (ex' & ? & ?); [by exists ex'|].
    intros wa0 r0 wb0 Hr0.
    apply log_and_return_writes in Hr0 as (-> & _); [done|].
    intros ? ? ?. apply log_change_entry_any.
Qed.

Lemma mapM_settles links : ∀ done w results w',
  db_up E →
  distinct_ids (done ++ links) →
  Forall (λ u, settled E u w) done →
  mapM (process_book E) links w = (Ret results, w') →
  Forall (λ u, settled E u w') (done ++ links).
Proof.
  induction links as [|u links IH]; intros done w results w' Hdb Hids Hdone H.
  - simpl in H. injection H as _ <-. by rewrite app_nil_r.
  - simpl in H. apply bind_Ret_inv in H as (r & w1 & Hr & H).
    apply bind_Ret_inv in H as (rs & w2 & Hrs & H). injection H as _ <-.
    pose proof (process_book_settles u w r w1 Hdb Hr) as Hu.
    pose proof (process_book_writes E u w r w1 Hr) as (_ & _ & Hbooks).
    replace (done ++ u :: links) with ((done ++ [u]) ++ links) in *
      by by rewrite <-app_assoc.
    apply (IH (done ++ [u]) w1 rs w2 Hdb Hids); [|done].
    apply Forall_app. split; [|by constructor].
    apply Forall_forall. intros v Hv. rewrite Forall_forall in Hdone.
    destruct Hbooks as [Hsame|(bu & d & Hbu & Hins)].
    + apply (settled_frame v w w1); [|by apply Hdone]. intros b _. by rewrite Hsame.
    + assert (book_id_of_url v = Ret bu ∨ book_id_of_url v ≠ Ret bu) as [Hbv|Hbv].
      { destruct (book_id_of_url v) as [bv|e]; [|by right].
        destruct (decide (bv = bu)) as [->|?]; [by left|right; congruence]. }
      * assert (v = u) as ->; [|done].
        apply (Hids v u bu); [| |done|done].
        -- apply elem_of_app. left. apply elem_of_app. by left.
        -- apply elem_of_app. left. apply elem_of_app. right. by left.
      * apply (settled_frame v w w1); [|by apply Hdone]. intros b Hb.
        rewrite Hins, lookup_insert_ne; [done|]. intros [= <-]. done.
Qed.

End SecondRun.

Section SecondRunTheorems.
Context `{RT : Runtime}.
Variable E : env.

(** X20: A second run over a site that has not changed finds nothing.  When the
    site answers each URL in the same way at all times, the database is
    up, and no two of the discovered links have the same book id, then
    after a run that returns, the next run returns no change: it writes no
    book and no snapshot, and leaves every entry of the change log flagged
    old. *)
Theorem second_run_over_unchanged_site_is_silent fuel w changes w' links w2 :
  stable_site E →
  db_up E →
  run E fuel w = Some (Ret changes, w') →
  get_all_book_links E fuel (mark_all_changes_as_old E w).2 = Some (Ret links, w2) →
  distinct_ids links →
  ∃ w'',
    run E fuel w' = Some (Ret [], w'')
    ∧ books w'' = books w'
    ∧ book_snapshots w'' = book_snapshots w'
    ∧ change_log w'' = set_recent "old" <$> change_log w'
    ∧ filter is_new (change_log w'') = [].
Proof.
  intros Hsite Hdb Hrun Hlinks Hids.
  apply run_Ret_steps in Hrun
    as (w1 & links0 & w20 & results & Hold & Hlinks0 & Hmap & ->).
  rewrite Hold in Hlinks. simpl in Hlinks. rewrite Hlinks0 in Hlinks.
  injection Hlinks as -> ->.
  pose proof (mapM_settles E Hsite links [] _ _ _ Hdb Hids ltac:(constructor) Hmap)
    as Hsettled. simpl in Hsettled.
  destruct (mark_all_changes_as_old E w') as [[[]|e] wa] eqn:Hold'.
  2:{ unfold mark_all_changes_as_old in Hold'.
      rewrite (bind_Ret_step _ _ _ _ _ (db_op_ok E w' (Hdb _))) in Hold'.
      discriminate. }
  pose proof (mark_all_changes_as_old_Ret E _ _ _ Hold') as (Hlog & Hb & Hs).
  pose proof (get_all_book_links_stable E Hsite fuel wa w1) as Hstable.
  rewrite Hlinks0 in Hstable.
  destruct (get_all_book_links E fuel wa) as [[o wb]|] eqn:Hlinks'; [|done].
  simpl in Hstable. injection Hstable as ->.
  pose proof (get_all_book_links_stores E _ _ _ _ Hlinks') as [= Hb' Hs' Hlog'].
  set (wc := (emit (EvLog INFO (FoundLinksMsg (length links))) wb).2).
  destruct (mapM_settled_is_silent E links wc Hdb) as (rs & wd & Hrs & Hnone & Hst).
  { eapply Forall_impl; [exact Hsettled|]. intros u Hu.
    apply (settled_frame E u w' wc); [|done]. intros b _. simpl. by rewrite Hb', Hb. }
  injection Hst as Hbd Hsd Hlogd. simpl in Hbd, Hsd, Hlogd.
  exists wd. split.
  - unfold run. rewrite Hold', Hlinks'. rewrite bind_unfold. cbn [emit].
    fold wc. unfold wc in Hrs. cbn [emit snd] in Hrs.
    rewrite (bind_Ret_step _ _ _ _ _ Hrs). simpl. by rewrite Hnone.
  - rewrite Hbd, Hsd, Hlogd, Hb', Hs', Hlog', Hb, Hs, Hlog.
    repeat split; try done. apply filter_new_aged.
Qed.

End SecondRunTheorems.

Module SecondRunExample.
Import Examples MoreExamples.
#[local] Existing Instance test_runtime.

Lemma second_run_over_unchanged_site_is_silent_witness :
  ∃ w'',
    run test_env 5 first_run_world = Some (Ret [], w'')
    ∧ books w'' = books first_run_world
    ∧ book_snapshots w'' = book_snapshots first_run_world
    ∧ change_log w'' = set_recent "old" <$> change_log first_run_world
    ∧ filter is_new (change_log w'') = [].
Proof.
  apply (second_run_over_unchanged_site_is_silent test_env 5%nat empty_world
           first_run_changes first_run_world three_links discovered_world).
  - intros n m u. reflexivity.
  - intros n. reflexivity.
  - reflexivity.
  - reflexivity.
  - assert (book_id_of_url book_1_url = Ret "book_1") as H1 by reflexivity.
    assert (book_id_of_url book_2_url = Ret "book_2") as H2 by reflexivity.
    assert (book_id_of_url book_3_url = Ret "book_3") as H3 by reflexivity.
    unfold book_1_url in H1. unfold book_2_url in H2. unfold book_3_url in H3.
    intros u v b Hu Hv Hbu Hbv. unfold three_links in Hu, Hv.
    repeat (apply elem_of_cons in Hu as [->|Hu]);
      repeat (apply elem_of_cons in Hv as [->|Hv]);
      try (by apply elem_of_nil in Hu); try (by apply elem_of_nil in Hv);
      try done; congruence.
Defined.

End SecondRunExample.


(** ** The shape of a parsed record *)

Ltac get_field :=
  repeat (rewrite lookup_insert_ne by done);
  first [apply lookup_insert_eq | apply lookup_singleton_eq].

Section Schema.
Context `{RT : Runtime}.
Variable E : env.

Lemma opt_str_optional (o : option string) : optional_str (opt_str o).
Proof. destruct o as [s|]; [right; by exists s|by left]. Qed.

Lemma money_to_float_optional (o : option string) : optional_float (money_to_float o).
Proof.
  unfold money_to_float. destruct o as [s|]; [|by left].
  destruct (decide (s = "")); [by left|].
  destruct (float_of_str _) as [x|]; [right; by exists x|by left].
Qed.

Lemma parse_rating_optional (s : soup) : optional_rating (parse_rating s).
Proof.
  unfold parse_rating. destruct (star_rating s) as [classes|]; [|by left].
  destruct (first_rating classes) as [n|] eqn:Hn; [|by left].
  right. exists n. split; [|done].
  apply first_rating_Some in Hn as (pre & c & post & _ & Hc & _).
  by eapply rating_mapping_range.
Qed.

Lemma book_document_fields s url title table n bid ts :
  let d := book_document s url title table n bid ts in
  d !! "_id" = Some (PyStr bid)
  ∧ d !! "title" = Some title
  ∧ d !! "source_url" = Some (PyStr url)
  ∧ d !! "crawl_timestamp" = Some (PyStr ts)
  ∧ d !! "num_reviews" = Some (PyInt n)
  ∧ (∃ v, d !! "rating" = Some v ∧ optional_rating v)
  ∧ Forall (λ k, ∃ v, d !! k = Some v ∧ optional_str v)
      ["description"; "category"; "availability"; "image_url"]
  ∧ Forall (λ k, ∃ v, d !! k = Some v ∧ optional_float v)
      ["price_including_tax"; "price_excluding_tax"].
Proof.
  unfold book_document. cbv zeta.
  split_and!.
  - get_field.
  - get_field.
  - get_field.
  - get_field.
  - get_field.
  - eexists. split; [get_field|]. apply parse_rating_optional.
  - repeat constructor.
    + eexists. split; [get_field|].
      destruct (product_description s) as [[t|]|]; [right; by eexists|by left|by left].
    + eexists. split; [get_field|].
      destruct (decide _); [apply opt_str_optional|by left].
    + eexists. split; [get_field|]. apply opt_str_optional.
    + eexists. split; [get_field|].
      destruct (carousel_img s) as [i|]; [right; by eexists|].
      destruct (gallery_img s) as [i|]; [right; by eexists|].
      destruct (active_img s) as [i|]; [right; by eexists|by left].
  - repeat constructor.
    + eexists. split; [get_field|]. apply money_to_float_optional.
    + eexists. split; [get_field|]. apply money_to_float_optional.
Qed.

End Schema.

Section SchemaTheorems.
Context `{RT : Runtime}.
Variable E : env.

(** X21: The shape of a parsed record.  Whenever [parse_book] returns, the
    record has the twelve public fields and [content_hash], no more and no
    less; [_id] is the id derived from the URL, [source_url] the URL,
    [crawl_timestamp] the time of the parse followed by Z; [num_reviews] is
    always an integer, 0 when the table has no row for it; [rating] is
    [None] or an integer from 1 to 5; the two prices are [None] or floats;
    title, description, category, availability and image URL are [None] or
    texts; [content_hash] is a text; the HTML handed back is the HTML that
    was given, and nothing but the clock was touched. *)
Theorem parse_book_schema html url w data h w' :
  parse_book E html url w = (Ret (data, h), w') →
  h = html
  ∧ dom data = (list_to_set public_keys ∪ {["content_hash"]} : gset string)
  ∧ (∃ b, book_id_of_url url = Ret b ∧ data !! "_id" = Some (PyStr b))
  ∧ data !! "source_url" = Some (PyStr url)
  ∧ data !! "crawl_timestamp" = Some (PyStr (utcnow_isoformat E (tick w) +:+ "Z"))
  ∧ (∃ n, data !! "num_reviews" = Some (PyInt n)
          ∧ (table_of (table_rows (BeautifulSoup html)) ∅ !! "Number of reviews" = None
             → n = 0))
  ∧ (∃ v, data !! "rating" = Some v ∧ optional_rating v)
  ∧ Forall (λ k, ∃ v, data !! k = Some v ∧ optional_float v)
      ["price_including_tax"; "price_excluding_tax"]
  ∧ Forall (λ k, ∃ v, data !! k = Some v ∧ optional_str v)
      ["title"; "description"; "category"; "availability"; "image_url"]
  ∧ (∃ fingerprint, data !! "content_hash" = Some (PyStr fingerprint))
  ∧ tick w' = S (tick w) ∧ stores w' = stores w ∧ trace w' = trace w.
Proof.
  intros H. pose proof (parse_book_dom E _ _ _ _ _ _ H) as Hdom.
  pose proof (parse_book_tracked E _ _ _ _ _ _ H) as [_ Hhash].
  rewrite parse_book_eval in H. cbv zeta in H.
  assert (∀ product n bid,
    int_of_str (review_count_text (BeautifulSoup html)) = Some n →
    book_id_of_url url = Ret bid →
    (Ret (book_document (BeautifulSoup html) url (title_of product)
            (table_of (table_rows (BeautifulSoup html)) ∅) n bid
            (utcnow_isoformat E (tick w) +:+ "Z"), html), (next_tick w).2)
      = (Ret (data, h), w') →
    h = html
    ∧ (∃ b, book_id_of_url url = Ret b ∧ data !! "_id" = Some (PyStr b))
    ∧ data !! "source_url" = Some (PyStr url)
    ∧ data !! "crawl_timestamp" = Some (PyStr (utcnow_isoformat E (tick w) +:+ "Z"))
    ∧ (∃ n, data !! "num_reviews" = Some (PyInt n)
            ∧ (table_of (table_rows (BeautifulSoup html)) ∅ !! "Number of reviews" = None
               → n = 0))
    ∧ (∃ v, data !! "rating" = Some v ∧ optional_rating v)
    ∧ Forall (λ k, ∃ v, data !! k = Some v ∧ optional_float v)
        ["price_including_tax"; "price_excluding_tax"]
    ∧ Forall (λ k, ∃ v, data !! k = Some v ∧ optional_str v)
        ["title"; "description"; "category"; "availability"; "image_url"]
    ∧ tick w' = S (tick w) ∧ stores w' = stores w ∧ trace w' = trace w) as Hshape.
  { intros product n bid Hn Hbid [= <- <- <-].
    destruct (book_document_fields (BeautifulSoup html) url (title_of product)
                (table_of (table_rows (BeautifulSoup html)) ∅) n bid
                (utcnow_isoformat E (tick w) +:+ "Z"))
      as (Hid & Htitle & Hsrc & Hts & Hrev & Hrating & Hstrs & Hfloats).
    split; [done|]. split; [by exists bid|]. split; [done|]. split; [done|].
    split.
    { exists n. split; [done|]. intros Hrow. unfold review_count_text in Hn.
      rewrite Hrow in Hn. simpl in Hn. rewrite int_of_str_0 in Hn. by injection Hn. }
    split; [done|]. split; [done|]. split; [|done].
    constructor; [|done]. eexists. split; [exact Htitle|].
    destruct product as [[t|]|]; [right; by eexists|by left|by left]. }
  destruct (product_page _) as [[t|]|] eqn:Hp; try discriminate;
    (destruct (decide _); [|discriminate]);
    (destruct (int_of_str _) as [n|] eqn:Hn; [|discriminate]);
    (destruct (book_id_of_url url) as [bid|] eqn:Hbid; [|discriminate]);
    apply Hshape in H as (? & ? & ? & ? & ? & ? & ? & ? & ? & ? & ?); try done;
    split_and!; try done; by eexists.
Qed.

End SchemaTheorems.

Module SchemaExample.
Import Examples MoreExamples.
#[local] Existing Instance test_runtime.

Lemma parse_book_schema_witness :
  "<detail full>" = "<detail full>"
  ∧ dom first_record = (list_to_set public_keys ∪ {["content_hash"]} : gset string)
  ∧ (∃ b, book_id_of_url book_1_url = Ret b ∧ first_record !! "_id" = Some (PyStr b))
  ∧ first_record !! "source_url" = Some (PyStr book_1_url)
  ∧ first_record !! "crawl_timestamp"
      = Some (PyStr (utcnow_isoformat test_env (tick first_fetch.2) +:+ "Z"))
  ∧ (∃ n, first_record !! "num_reviews" = Some (PyInt n)
          ∧ (table_of (table_rows (BeautifulSoup "<detail full>")) ∅
               !! "Number of reviews" = None → n = 0))
  ∧ (∃ v, first_record !! "rating" = Some v ∧ optional_rating v)
  ∧ Forall (λ k, ∃ v, first_record !! k = Some v ∧ optional_float v)
      ["price_including_tax"; "price_excluding_tax"]
  ∧ Forall (λ k, ∃ v, first_record !! k = Some v ∧ optional_str v)
      ["title"; "description"; "category"; "availability"; "image_url"]
  ∧ (∃ fingerprint, first_record !! "content_hash" = Some (PyStr fingerprint))
  ∧ tick first_parse.2 = S (tick first_fetch.2)
  ∧ stores first_parse.2 = stores first_fetch.2
  ∧ trace first_parse.2 = trace first_fetch.2.
Proof.
  apply (parse_book_schema test_env "<detail full>" book_1_url first_fetch.2
           first_record "<detail full>" first_parse.2).
  reflexivity.
Defined.

End SchemaExample.


(** ** What an entry says about the state before *)

Section EntryFacts.
Context `{RT : Runtime}.
Variable E : env.

(** The classification behind a returned entry. *)
Lemma process_book_Some_class url w c w' :
  process_book E url w = (Ret (Some c), w') →
  ∃ html w1 data w2 b cls,
    fetch E url w = (Ret html, w1)
    ∧ parse_book E html url w1 = (Ret (data, html), w2)
    ∧ book_id_of_url url = Ret b
    ∧ data !! "_id" = Some (PyStr b)
    ∧ book_id c = PyStr b
    ∧ classify (find_one (books w) (PyStr b)) data = Ret cls
    ∧ match cls with
      | Unchanged => False
      | Updated changed =>
          change_type c = "updated" ∧ field_changes c = Some changed
      | New => change_type c = "new" ∧ field_changes c = None
      end.
Proof.
  intros H. apply process_book_Some_body in H. unfold process_book_body in H.
  apply bind_Ret_inv in H as (html & w1 & Hf & H).
  apply bind_Ret_inv in H as ([data html'] & w2 & Hp & H).
  pose proof (read_only_at _ _ _ _ (read_only_fetch E url) Hf) as (Hb1 & _).
  pose proof (read_only_at _ _ _ _ (read_only_parse_book E html url) Hp) as (Hb2 & _).
  pose proof (parse_book_Ret E _ _ _ _ _ _ Hp) as (-> & b & Hb & Hid & _).
  simpl in H. apply bind_Ret_inv in H as (bid & w2' & Hget & H).
  unfold lift, getitem in Hget. rewrite Hid in Hget. injection Hget as <- <-.
  apply bind_Ret_inv in H as (existing & w3 & Hfind & H).
  apply books_find_one_Ret in Hfind as [-> _].
  apply bind_Ret_inv in H as (cls & w3' & Hcls & H).
  unfold lift in Hcls. injection Hcls as Hcls <-.
  assert (find_one (books w2) (PyStr b) = find_one (books w) (PyStr b)) as Hsame.
  { unfold find_one. by rewrite Hb2, Hb1. }
  rewrite Hsame in Hcls.
  exists html, w1, data, w2, b, cls. do 4 (split; [done|]).
  destruct cls as [|changed|].
  - apply bind_Ret_inv in H as (u & wu & _ & H). discriminate.
  - do 5 (let x := fresh "x" in let wx := fresh "wx" in let Hx := fresh "Hx" in
          apply bind_Ret_inv in H as (x & wx & Hx & H)).
    injection H as <- _.
    apply change_log_insert_one_Ret in Hx3 as (_ & _ & _ & _ & Hbid & Hty & Hfc).
    rewrite Hbid, Hty, Hfc. by repeat split.
  - do 5 (let x := fresh "x" in let wx := fresh "wx" in let Hx := fresh "Hx" in
          apply bind_Ret_inv in H as (x & wx & Hx & H)).
    injection H as <- _.
    apply log_change_entry_Ret in Hx2 as (_ & _ & _ & _ & Hbid & Hty & Hfc).
    rewrite Hbid, Hty, Hfc. by repeat split.
Qed.

Lemma py_eq_str_iff (v : value) (s : string) : py_eq v (PyStr s) = true ↔ v = PyStr s.
Proof.
  split; [apply py_eq_str|]. intros ->. simpl. by apply bool_decide_eq_true.
Qed.

End EntryFacts.

Section EntryTheorems.
Context `{RT : Runtime}.
Variable E : env.

(** X22: What a returned entry says about the state before.  Its [book_id] is
    the id derived from the URL.  Its type is "new" exactly when no record
    was stored under that id, and then it has no [field_changes]; otherwise
    its type is "updated", a record was stored whose fingerprint differs
    from the new one, and [field_changes] holds exactly the fields of the
    parsed record, other than [content_hash] and [raw_snapshot_id], whose
    stored value differs from the parsed one, with the stored and the parsed
    value.  [_id] is never among them; [crawl_timestamp] is among them
    whenever the stored crawl time differs from that of this crawl. *)
Theorem change_type_tells_prior_state url w c w' :
  process_book E url w = (Ret (Some c), w') →
  ∃ html w1 data w2 b,
    fetch E url w = (Ret html, w1)
    ∧ parse_book E html url w1 = (Ret (data, html), w2)
    ∧ book_id_of_url url = Ret b ∧ book_id c = PyStr b
    ∧ (change_type c = "new" ↔ books w !! PyStr b = None)
    ∧ (change_type c = "new" ∧ field_changes c = None
         ∧ books w !! PyStr b = None
       ∨ change_type c = "updated"
         ∧ ∃ ex ch,
             find_one (books w) (PyStr b) = Some ex
             ∧ field_changes c = Some ch
             ∧ dict_get ex "content_hash" ≠ dict_get data "content_hash"
             ∧ (∀ k old new,
                  ch !! k = Some (old, new)
                  ↔ data !! k = Some new ∧ old = dict_get ex k
                    ∧ compared k ∧ py_eq old new = false)
             ∧ ("_id" ∉ dom ch)
             ∧ ("content_hash" ∉ dom ch)
             ∧ ("raw_snapshot_id" ∉ dom ch)
             ∧ ("crawl_timestamp" ∈ dom ch
                ↔ dict_get ex "crawl_timestamp" ≠ dict_get data "crawl_timestamp")).
Proof.
  intros H. apply process_book_Some_class in H
    as (html & w1 & data & w2 & b & cls & Hf & Hp & Hb & Hid & Hbid & Hcls & Hentry).
  exists html, w1, data, w2, b. do 4 (split; [done|]).
  destruct (parse_book_tracked E _ _ _ _ _ _ Hp) as [_ Hhash].
  unfold classify, getitem in Hcls. rewrite Hhash in Hcls.
  destruct (find_one (books w) (PyStr b)) as [ex|] eqn:Hex.
  - rewrite (find_one_truthy _ _ _ Hex) in Hcls.
    assert (books w !! PyStr b ≠ None) as Hsome.
    { intros Hnone. apply find_one_None in Hnone. congruence. }
    destruct (py_eq (dict_get ex "content_hash") _) eqn:Heq;
      injection Hcls as <-; [done|].
    destruct Hentry as [Hty Hfc]. split.
    { rewrite Hty. split; [discriminate|done]. }
    right. split; [done|]. exists ex, (changed_fields_of ex data).
    assert (ex !! "_id" = Some (PyStr b)) as Hexid.
    { unfold find_one in Hex. destruct (books w !! PyStr b); [|done].
      injection Hex as <-. apply lookup_insert_eq. }
    split; [done|]. split; [done|]. split.
    { unfold dict_get at 2. rewrite Hhash. simpl. intros Hsame.
      rewrite Hsame in Heq. simpl in Heq.
      by rewrite bool_decide_eq_true_2 in Heq. }
    split; [intros k old new; apply changed_fields_of_lookup|].
    split.
    { intros [[old new] Hk]%elem_of_dom.
      apply changed_fields_of_lookup in Hk as (Hnew & -> & _ & Hne).
      rewrite Hid in Hnew. injection Hnew as <-.
      unfold dict_get in Hne. rewrite Hexid in Hne. simpl in Hne.
      by rewrite bool_decide_eq_true_2 in Hne. }
    split.
    { intros [[old new] Hk]%elem_of_dom.
      apply changed_fields_of_lookup in Hk as (_ & _ & [_ Hc] & _). done. }
    split.
    { intros [[old new] Hk]%elem_of_dom.
      apply changed_fields_of_lookup in Hk as (_ & _ & [Hc _] & _). done. }
    destruct (parse_book_again E html url w1 data html w2 w1 Hp) as (d' & Hp' & _ & Hts).
    rewrite Hp in Hp'. injection Hp' as <-.
    unfold dict_get at 2. rewrite Hts. simpl. split.
    + intros [[old new] Hk]%elem_of_dom.
      apply changed_fields_of_lookup in Hk as (Hnew & -> & _ & Hne).
      rewrite Hts in Hnew. injection Hnew as <-.
      intros Hsame. rewrite Hsame in Hne. simpl in Hne.
      by rewrite bool_decide_eq_true_2 in Hne.
    + intros Hne. apply elem_of_dom. eexists (_, _).
      apply changed_fields_of_lookup. split; [exact Hts|]. split; [done|].
      split; [by split|].
      destruct (py_eq (dict_get ex "crawl_timestamp") _) eqn:Heq'; [|done].
      by apply py_eq_str in Heq'.
  - injection Hcls as <-. destruct Hentry as [Hty Hfc].
    apply find_one_None in Hex. split; [rewrite Hty; by split|]. by left.
Qed.

End EntryTheorems.

Module EntryExample.
Import Examples MoreExamples.
#[local] Existing Instance test_runtime.

Lemma change_type_tells_prior_state_witness :
  ∃ html w1 data w2 b,
    fetch repriced_env book_1_url crawled_world = (Ret html, w1)
    ∧ parse_book repriced_env html book_1_url w1 = (Ret (data, html), w2)
    ∧ book_id_of_url book_1_url = Ret b ∧ book_id repriced_entry = PyStr b
    ∧ (change_type repriced_entry = "new" ↔ books crawled_world !! PyStr b = None)
    ∧ (change_type repriced_entry = "new" ∧ field_changes repriced_entry = None
         ∧ books crawled_world !! PyStr b = None
       ∨ change_type repriced_entry = "updated"
         ∧ ∃ ex ch,
             find_one (books crawled_world) (PyStr b) = Some ex
             ∧ field_changes repriced_entry = Some ch
             ∧ dict_get ex "content_hash" ≠ dict_get data "content_hash"
             ∧ (∀ k old new,
                  ch !! k = Some (old, new)
                  ↔ data !! k = Some new ∧ old = dict_get ex k
                    ∧ compared k ∧ py_eq old new = false)
             ∧ ("_id" ∉ dom ch)
             ∧ ("content_hash" ∉ dom ch)
             ∧ ("raw_snapshot_id" ∉ dom ch)
             ∧ ("crawl_timestamp" ∈ dom ch
                ↔ dict_get ex "crawl_timestamp" ≠ dict_get data "crawl_timestamp")).
Proof.
  apply (change_type_tells_prior_state repriced_env book_1_url crawled_world
           repriced_entry repriced_crawl.2).
  reflexivity.
Defined.

(** The entry of the example is an update; it lists the old and the new
    price, and the crawl time. *)
Lemma repriced_entry_fields :
  change_type repriced_entry = "updated"
  ∧ field_changes repriced_entry = Some repriced_changes
  ∧ repriced_changes !! "price_including_tax" = Some (PyFloat "51.77", PyFloat "49.00")
  ∧ is_Some (repriced_changes !! "crawl_timestamp")
  ∧ repriced_changes !! "title" = None.
Proof.
  split; [reflexivity|]. split; [reflexivity|]. split; [reflexivity|].
  split; [eexists|]; reflexivity.
Qed.

End EntryExample.


(** ** Listing the books *)

Section ListBooksFacts.
Context `{RT : Runtime}.
Variable E : env.
Variable find : book_query → option (string * Z) → gmap value doc → list doc.
Variable count_documents : book_query → gmap value doc → Z.

Lemma list_books_eval category min_price max_price rating sort_by page page_size w :
  1 ≤ page → 1 ≤ page_size ≤ 200 →
  db_fault E (tick w) = None → db_fault E (S (tick w)) = None →
  list_books E find count_documents category min_price max_price rating sort_by
      page page_size w
    = (Ret (Ok (BookPage page page_size
                  (count_documents (build_query category min_price max_price rating)
                     (books w))
                  (book_doc_to_resp <$>
                     take (Z.to_nat page_size)
                       (drop (Z.to_nat ((page - 1) * page_size))
                          (find (build_query category min_price max_price rating)
                             (sort_of sort_by) (books w)))))),
       (next_tick (next_tick w).2).2).
Proof.
  intros Hp Hs Hdb1 Hdb2. unfold list_books. rewrite decide_True by done.
  rewrite (bind_Ret_step _ _ _ _ _ (db_op_ok E w Hdb1)).
  rewrite bind_unfold. cbn [get_world].
  rewrite (bind_Ret_step _ _ _ _ _ (db_op_ok E (next_tick w).2 Hdb2)).
  by rewrite bind_unfold.
Qed.

End ListBooksFacts.

Section ListBooksTheorems.
Context `{RT : Runtime}.
Variable E : env.
Variable find : book_query → option (string * Z) → gmap value doc → list doc.
Variable count_documents : book_query → gmap value doc → Z.

(** X23: How [list_books] reads its parameters, whatever the driver does with the
    filter.  A category that is the empty text and a rating that is 0 are
    no filters: the answer is that of the request without them; a price
    bound is a filter whatever its value.  A [sort_by] other than "rating",
    "price" and "reviews" is no sort, and no error.  For a page number and
    a page size within their bounds, and the database answering, the
    answer repeats both, carries the count of the filter, and holds the
    public views of at most [page_size] documents: those that the cursor
    yields after the first [(page - 1) * page_size]; none when the cursor
    has no more than that many.  Nothing is written. *)
Theorem list_books_reads_its_parameters
    category min_price max_price rating sort_by page page_size w :
  let run := list_books E find count_documents in
  run (Some "") min_price max_price rating sort_by page page_size w
    = run None min_price max_price rating sort_by page page_size w
  ∧ run category min_price max_price (Some 0) sort_by page page_size w
    = run category min_price max_price None sort_by page page_size w
  ∧ (∀ x, q_price_including_tax (build_query category (Some x) max_price rating)
          = Some (Some x, max_price))
  ∧ (sort_by ∉ [Some "rating"; Some "price"; Some "reviews"] →
     run category min_price max_price rating sort_by page page_size w
       = run category min_price max_price rating None page page_size w)
  ∧ (1 ≤ page → 1 ≤ page_size ≤ 200 →
     db_fault E (tick w) = None → db_fault E (S (tick w)) = None →
     ∃ resp w',
       run category min_price max_price rating sort_by page page_size w
         = (Ret (Ok resp), w')
       ∧ stores w' = stores w
       ∧ page_number resp = page ∧ page_size_given resp = page_size
       ∧ total resp
           = count_documents (build_query category min_price max_price rating) (books w)
       ∧ results resp
           = book_doc_to_resp <$>
               take (Z.to_nat page_size)
                 (drop (Z.to_nat ((page - 1) * page_size))
                    (find (build_query category min_price max_price rating)
                       (sort_of sort_by) (books w)))
       ∧ (length (results resp) ≤ Z.to_nat page_size)%nat
       ∧ Forall (λ r, dom r = (list_to_set public_keys : gset string)) (results resp)
       ∧ ((length (find (build_query category min_price max_price rating)
                     (sort_of sort_by) (books w))
           ≤ Z.to_nat ((page - 1) * page_size))%nat → results resp = [])).
Proof.
  intros run. subst run. split; [done|]. split; [done|]. split; [done|]. split.
  - intros Hsort. assert (sort_of sort_by = None) as Hnone.
    { unfold sort_of. destruct sort_by as [s|]; [|done].
      destruct (decide (s = "")); [done|].
      destruct (decide (s = "rating")) as [->|_]; [destruct Hsort; by left|].
      destruct (decide (s = "price")) as [->|_]; [destruct Hsort; right; by left|].
      destruct (decide (s = "reviews")) as [->|_]; [|done].
      destruct Hsort. right. right. by left. }
    unfold list_books. by rewrite Hnone.
  - intros Hp Hs Hdb1 Hdb2. eexists _, _.
    split; [by apply list_books_eval|]. simpl.
    split; [done|]. split; [done|]. split; [done|]. split; [done|]. split; [done|].
    split; [rewrite length_fmap, length_take; lia|]. split.
    + apply Forall_fmap, Forall_forall. intros d _. apply book_doc_to_resp_dom.
    + intros Hlen. rewrite drop_ge by done. by rewrite take_nil.
Qed.

End ListBooksTheorems.

Module ListBooksExample.
Import Examples MoreExamples ApiExamples.
#[local] Existing Instance test_runtime.

Lemma list_books_reads_its_parameters_witness :
  ∃ resp w',
    list_books test_env find_all count_all None None None None (Some "title")
        1 20 first_run_world
      = (Ret (Ok resp), w')
    ∧ stores w' = stores first_run_world
    ∧ page_number resp = 1 ∧ page_size_given resp = 20
    ∧ total resp = count_all (build_query None None None None) (books first_run_world)
    ∧ results resp
        = book_doc_to_resp <$>
            take (Z.to_nat 20)
              (drop (Z.to_nat ((1 - 1) * 20))
                 (find_all (build_query None None None None)
                    (sort_of (Some "title")) (books first_run_world)))
    ∧ (length (results resp) ≤ Z.to_nat 20)%nat
    ∧ Forall (λ r, dom r = (list_to_set public_keys : gset string)) (results resp)
    ∧ ((length (find_all (build_query None None None None)
                  (sort_of (Some "title")) (books first_run_world))
        ≤ Z.to_nat ((1 - 1) * 20))%nat → results resp = []).
Proof.
  destruct (list_books_reads_its_parameters test_env find_all count_all
              None None None None (Some "title") 1 20 first_run_world)
    as (_ & _ & _ & _ & H).
  apply H.
  - lia.
  - lia.
  - reflexivity.
  - reflexivity.
Defined.

End ListBooksExample.
